(** * Placement of artificial stars: a model of [make_ast_xy_list.py]

    The three routines of [beast/observationmodel/ast/make_ast_xy_list.py]
    are embedded as functions of an error-and-state monad:
    - [pick_positions_per_background] and [pick_positions_per_density]
      (the map-driven routines), over the rationals: they only add,
      multiply, divide and compare, so the model runs;
    - [pick_positions] (the neighbour routine), over the reals, because
      it needs [cos], [sin] and [PI].
    Floating-point numbers are idealised as exact numbers in both. *)

From Stdlib Require Import ZArith QArith Qabs Qminmax Qround Lia Lqa.
From Stdlib Require Reals Lra.
From stdpp Require Import base list strings gmap.

Local Open Scope Z_scope.

(** ** Exceptions and results *)

(** The Python exceptions the routines and their numpy / astropy callees
    can raise. *)
Inductive exn :=
| ValueError
| KeyError
| IndexError
| UnboundLocalError
| FileNotFoundError
| RuntimeError (msg : string).

(** A call returns, raises, or (in the model only) runs out of the fuel
    that bounds its [while] loop. *)
Inductive result (A : Type) :=
| Ok (a : A)
| Raise (e : exn)
| OutOfFuel.
Arguments Ok {A} a.
Arguments Raise {A} e.
Arguments OutOfFuel {A}.

Definition rbind {A B} (r : result A) (k : A -> result B) : result B :=
  match r with
  | Ok a => k a
  | Raise e => Raise e
  | OutOfFuel => OutOfFuel
  end.

Fixpoint mapM_result {A B} (f : A -> result B) (l : list A) : result (list B) :=
  match l with
  | [] => Ok []
  | a :: l' =>
      rbind (f a) (fun b => rbind (mapM_result f l') (fun bs => Ok (b :: bs)))
  end.

(** ** Tables *)

Section Tables.
(** The number type standing for Python floats. *)
Context {F : Type}.

Inductive value :=
| VInt (n : Z)
| VFloat (x : F)
| VStr (s : string).

(** An astropy [Table], row by row as [np.repeat] sees it. *)
Record Table := mkTable {
  colnames : list string;
  rows : list (list value)
}.

Record Column := mkColumn {
  name : string;
  data : list value
}.

(** [len(table)] *)
Definition len (t : Table) : nat := length (rows t).

Definition insert_at {A} (i : nat) (x : A) (l : list A) : list A :=
  take i l ++ x :: drop i l.

(** [table.add_column(c, index=i)]: astropy refuses a name the table
    already has and a column of another length. *)
Definition add_column (c : Column) (index : nat) (t : Table) : result Table :=
  if bool_decide (name c ∈ colnames t) then Raise ValueError
  else if negb (length (data c) =? len t)%nat then Raise ValueError
  else Ok (mkTable (insert_at index (name c) (colnames t))
                   (zip_with (insert_at index) (data c) (rows t))).

(** The process-wide generator, as the sequence of uniform draws still
    to come, and the files written so far. *)
Record world := mkWorld {
  rng : nat -> F;
  files : gmap string Table
}.

(** The monad of the routines: a result and the world after the call,
    also when the call raises. *)
Definition M (A : Type) : Type := world -> result A * world.

Definition ret {A} (a : A) : M A := fun w => (Ok a, w).
Definition raise {A} (e : exn) : M A := fun w => (Raise e, w).
Definition out_of_fuel {A} : M A := fun w => (OutOfFuel, w).
Definition lift {A} (r : result A) : M A := fun w => (r, w).

Definition bind {A B} (m : M A) (k : A -> M B) : M B :=
  fun w =>
    match m w with
    | (Ok a, w') => k a w'
    | (Raise e, w') => (Raise e, w')
    | (OutOfFuel, w') => (OutOfFuel, w')
    end.

(** [np.random.random_sample()]: the next draw of the generator. *)
Definition random_sample : M F :=
  fun w => (Ok (rng w 0%nat), mkWorld (fun n => rng w (S n)) (files w)).

(** [np.random.random(n)]: the next [n] draws. *)
Definition random (n : nat) : M (list F) :=
  fun w => (Ok (map (rng w) (seq 0 n)),
            mkWorld (fun k => rng w (n + k)%nat) (files w)).

(** [ascii.write(table, path, overwrite=True)]: the file holds the
    table; how its numbers are printed is left out. *)
Definition ascii_write (t : Table) (path : string) : M unit :=
  fun w => (Ok tt, mkWorld (rng w) (<[path := t]> (files w))).

(** [ascii.read(path)] *)
Definition ascii_read (path : string) : M Table :=
  fun w => match files w !! path with
           | Some t => (Ok t, w)
           | None => (Raise FileNotFoundError, w)
           end.

(** [for x in xs: acc = body(acc, x)] *)
Fixpoint for_each {A St} (xs : list A) (body : St -> A -> M St) (acc : St)
  : M St :=
  match xs with
  | [] => ret acc
  | x :: xs' => bind (body acc x) (for_each xs' body)
  end.

(** [a[i]] for an index inside the array; Python raises otherwise. *)
Definition getitem {A} (a : list A) (i : nat) : result A :=
  match a !! i with
  | Some x => Ok x
  | None => Raise IndexError
  end.

(** [a[i] = x] for an index inside the array; Python raises otherwise. *)
Definition setitem {A} (a : list A) (i : nat) (x : A) : result (list A) :=
  if (i <? length a)%nat then Ok (<[i := x]> a) else Raise IndexError.

(** [a[start:stop] = x]: a slice is clipped to the array, it never
    raises. *)
Definition set_slice {A} (a : list A) (start stop : nat) (x : A) : list A :=
  imap (fun k old => if (start <=? k)%nat && (k <? stop)%nat then x else old) a.

(** [enumerate(xs)] *)
Definition enumerate {A} (xs : list A) : list (nat * A) :=
  zip (seq 0 (length xs)) xs.

(** [np.repeat(a, n)]: every element [n] times in a row. *)
Definition np_repeat {A} (a : list A) (n : Z) : result (list A) :=
  if n <? 0 then Raise ValueError
  else Ok (a ≫= replicate (Z.to_nat n)).

(** [np.nonzero(mask)[0]]: the indices where the mask holds. *)
Definition nonzero (mask : list bool) : list nat :=
  filter (fun i => mask !! i = Some true) (seq 0 (length mask)).

(** A Python string is true unless it is empty. *)
Definition truthy (s : string) : bool := negb (String.eqb s "").
End Tables.

Arguments value : clear implicits.
Arguments Table : clear implicits.
Arguments Column : clear implicits.
Arguments world : clear implicits.
Arguments M : clear implicits.

Declare Scope monad_scope.
Delimit Scope monad_scope with monad.
Notation "'let*' x ':=' m 'in' k" := (bind m (fun x => k))
  (at level 10, x pattern, m at level 100, k at level 200) : monad_scope.
Notation "'let?' x ':=' r 'in' k" := (rbind r (fun x => k))
  (at level 10, x pattern, r at level 100, k at level 200) : monad_scope.
Local Open Scope monad_scope.

(** ** BinAssigner: the numpy functions, over the rationals

    The metric values and the bin boundaries are rationals, and the
    arithmetic of [linspace] is exact. numpy computes them in double
    precision: a boundary [i * step + start] is rounded, and so is the
    padding [0.01 * |max|], which is lost when the maximum is a
    subnormal number. The labels of this model are those of the code
    on every input where no metric value is within a rounding error of
    a boundary. The statements below that fix the value of a label are
    for a largest metric value that is exactly zero, where the padding
    is zero in double precision too, and for the values of the
    examples; the other statements do not depend on which label a tile
    gets. *)

Module Binning.
Local Open Scope Q_scope.

(** [np.amin], [np.amax]: numpy raises on an empty array. *)
Definition amin (v : list Q) : result Q :=
  match v with
  | [] => Raise ValueError
  | x :: xs => Ok (foldl Qmin x xs)
  end.

Definition amax (v : list Q) : result Q :=
  match v with
  | [] => Raise ValueError
  | x :: xs => Ok (foldl Qmax x xs)
  end.

(** [np.linspace(start, stop, num)] with its default [endpoint=True]:
    [arange(0, num) * step + start], the last element then overwritten
    with [stop]; one sample is [start], none is the empty array, and a
    negative number of samples is a [ValueError]. *)
Definition linspace (start stop : Q) (num : Z) : result (list Q) :=
  if (num <? 0)%Z then Raise ValueError
  else
    let div := (num - 1)%Z in
    let y := inject_Z <$> seqZ 0 num in
    let delta := stop - start in
    let y :=
      if (1 <? num)%Z then
        let step := delta / inject_Z div in
        (fun i => i * step) <$> y
      else (fun i => i * delta) <$> y in
    let y := (fun t => t + start) <$> y in
    Ok (if (1 <? num)%Z then <[Z.to_nat (num - 1) := stop]> y else y).

(** [np.searchsorted(a, x, side='right')] on a sorted array: the first
    index whose element is greater than [x]. *)
Fixpoint searchsorted_right (a : list Q) (x : Q) : nat :=
  match a with
  | [] => 0%nat
  | b :: a' => if Qle_bool b x then S (searchsorted_right a' x) else 0%nat
  end.

(** [np.searchsorted(a, x, side='left')]: the first index whose element
    is at least [x]. *)
Fixpoint searchsorted_left (a : list Q) (x : Q) : nat :=
  match a with
  | [] => 0%nat
  | b :: a' =>
      if Qle_bool x b then 0%nat else S (searchsorted_left a' x)
  end.

Fixpoint nondecreasing (a : list Q) : bool :=
  match a with
  | b :: (c :: _) as a' => Qle_bool b c && nondecreasing a'
  | _ => true
  end.

Fixpoint nonincreasing (a : list Q) : bool :=
  match a with
  | b :: (c :: _) as a' => Qle_bool c b && nonincreasing a'
  | _ => true
  end.

(** [np.digitize(x, bins)] with its default [right=False]: the bins
    must be monotonic; increasing bins (constant ones count as
    increasing) give [searchsorted(bins, x, 'right')], decreasing bins
    give [len(bins) - searchsorted(bins[::-1], x, 'left')]. *)
Definition digitize (xs bins : list Q) : result (list Z) :=
  if nondecreasing bins then
    Ok ((fun x => Z.of_nat (searchsorted_right bins x)) <$> xs)
  else if nonincreasing bins then
    Ok ((fun x => Z.of_nat (length bins - searchsorted_left (rev bins) x)) <$> xs)
  else Raise ValueError.

(** Lines 72-85 and 320-333: the label of every tile. *)
Definition bin_foreach_tile (tile_vals : list Q) (N_bins : Z) : result (list Z) :=
  rbind (amin tile_vals) (fun min_v =>
  rbind (amax tile_vals) (fun max_v =>
  rbind (linspace (min_v - (1 # 100) * Qabs min_v)
                  (max_v + (1 # 100) * Qabs max_v) (N_bins + 1)) (fun bins =>
  digitize tile_vals bins))).

(** Lines 88-89 and 336-337: the tiles of every bin,
    [[np.nonzero(labels == b + 1)[0] for b in range(N_bins)]]. *)
Definition tiles_foreach_bin (labels : list Z) (N_bins : Z) : list (list nat) :=
  (fun b => nonzero ((fun l => (l =? b + 1)%Z) <$> labels)) <$> seqZ 0 N_bins.

(** Lines 92 and 340: the bins that have a tile. *)
Definition remove_empty_bins (sets : list (list nat)) : list (list nat) :=
  filter (fun tile_set => length tile_set ≠ 0%nat) sets.
End Binning.

(** ** The map-driven routines *)

Module MapDriven.
Import Binning.
Local Open Scope Q_scope.

(** A row of the background or density map: a tile and its metric
    ([median_bg] or [sourcedens]). *)
Record Tile := mkTile {
  min_ra : Q;
  max_ra : Q;
  min_dec : Q;
  max_dec : Q;
  metric : Q
}.

(** The pixel frame of a reference image: [wcs.all_world2pix(ra, dec, 0)]
    for one position, a black box. *)
Definition WCS : Type := Q -> Q -> Q * Q.

(** [np.random.choice(a)]: one element of [a], picked by one draw of
    the generator; numpy raises on an empty array. *)
Definition choice (a : list nat) : M Q nat :=
  if (length a =? 0)%nat then raise ValueError
  else
    let* u := random_sample in
    lift (getitem a (Z.to_nat (Qfloor (u * inject_Z (Z.of_nat (length a)))))).

(** Lines 129-135 and 368-374: a random tile of the bin and a random
    position inside it. *)
Definition draw_radec (bg : list Tile) (tile_set : list nat) : M Q (Q * Q) :=
  let tile_ra_min := min_ra <$> bg in
  let tile_dec_min := min_dec <$> bg in
  let tile_ra_delta := (fun t => max_ra t - min_ra t) <$> bg in
  let tile_dec_delta := (fun t => max_dec t - min_dec t) <$> bg in
  let* tile := choice tile_set in
  let* ra0 := lift (getitem tile_ra_min tile) in
  let* u := random_sample in
  let* dra := lift (getitem tile_ra_delta tile) in
  let ra := ra0 + u * dra in
  let* dec0 := lift (getitem tile_dec_min tile) in
  let* u' := random_sample in
  let* ddec := lift (getitem tile_dec_delta tile) in
  let dec := dec0 + u' * ddec in
  ret (ra, dec).

(** Lines 125-141: [x = y = -1; while x < 0 or y < 0: ...]. The body
    runs at least once; without a pixel frame it leaves with [break]
    after the first draw. *)
Fixpoint draw_xy (fuel : nat) (wcs : option WCS) (bg : list Tile)
    (tile_set : list nat) : M Q (Q * Q) :=
  match fuel with
  | O => out_of_fuel
  | S fuel' =>
      let* (ra, dec) := draw_radec bg tile_set in
      match wcs with
      | None => ret (ra, dec)
      | Some w =>
          let (x, y) := w ra dec in
          if negb (Qle_bool 0 x) || negb (Qle_bool 0 y)
          then draw_xy fuel' wcs bg tile_set
          else ret (x, y)
      end
  end.

(** [if outfile:] *)
Definition given (outfile : option string) : option string :=
  match outfile with
  | Some path => if truthy path then Some path else None
  | None => None
  end.

(** ['%.5f' % v]: a number prints, a string is refused. *)
Definition prints_as_float (v : value Q) : bool :=
  match v with
  | VStr _ => false
  | _ => true
  end.

(** Every value of the columns [ks] of the table prints as a float. *)
Definition formats_fit (ks : list string) (t : Table Q) : bool :=
  forallb
    (fun row =>
       forallb (fun kv => negb (bool_decide (kv.1 ∈ ks)) || prints_as_float kv.2)
         (zip (colnames t) row))
    (rows t).

(** [ascii.write(table, path, overwrite=True, formats={k: '%.5f' for k
    in ks})]: astropy prints every value of the columns [ks] with
    ['%.5f']; where one of them is a string the call raises
    [ValueError] and no file is written. *)
Definition ascii_write_formats (ks : list string) (t : Table Q) (path : string)
  : M Q unit :=
  if formats_fit ks t then ascii_write t path else raise ValueError.

(** Lines 164-166 and 395-397; [ks] are the columns the routine formats. *)
Definition write_if_given (ks : list string) (out_table : Table Q)
    (outfile : option string) : M Q unit :=
  match given outfile with
  | Some path => ascii_write_formats ks out_table path
  | None => ret tt
  end.

(** Lines 160-161 and 391-392: the columns enter from the left. *)
Definition add_columns (cs : list (Column Q)) (out_table : Table Q) : M Q (Table Q) :=
  for_each (enumerate cs) (fun t ic => lift (add_column ic.2 ic.1 t)) out_table.

(** The arrays the loops fill: both coordinates and [bin_indices]. *)
Definition arrays : Type := list Q * list Q * list Q.

Definition pick_positions_per_background (fuel : nat)
    (chosen_seds : Table Q) (bg : list Tile) (N_bg_bins : Z)
    (outfile : option string) (refimage : option WCS) (Nrealize : Z)
    : M Q (Table Q) :=
  let tile_bg_vals := metric <$> bg in
  let* bgbin_foreach_tile := lift (bin_foreach_tile tile_bg_vals N_bg_bins) in
  let tiles_foreach_bgbin := tiles_foreach_bin bgbin_foreach_tile N_bg_bins in
  let tile_sets := remove_empty_bins tiles_foreach_bgbin in
  let* repeated_seds := lift (np_repeat (rows chosen_seds) Nrealize) in
  let Nseds_per_region := length repeated_seds in
  let* repeated_seds :=
    lift (np_repeat repeated_seds (Z.of_nat (length tile_sets))) in
  let out_table := mkTable (colnames chosen_seds) repeated_seds in
  let xs := replicate (len out_table) 0 in
  let ys := replicate (len out_table) 0 in
  let bin_indices := replicate (len out_table) 0 in
  let wcs := refimage in
  let* (xs, ys, bin_indices) :=
    for_each (enumerate tile_sets)
      (fun (a : arrays) bt =>
         let '(xs, ys, bin_indices) := a in
         let '(bin_index, tile_set) := bt in
         let start := (bin_index * Nseds_per_region)%nat in
         let stop := (start + Nseds_per_region)%nat in
         let bin_indices :=
           set_slice bin_indices start stop (inject_Z (Z.of_nat bin_index)) in
         for_each (seq 0 Nseds_per_region)
           (fun (a : arrays) i =>
              let '(xs, ys, bin_indices) := a in
              let* (x, y) := draw_xy fuel wcs bg tile_set in
              let j := (bin_index * Nseds_per_region + i)%nat in
              let* xs := lift (setitem xs j x) in
              let* ys := lift (setitem ys j y) in
              ret (xs, ys, bin_indices))
           (xs, ys, bin_indices))
      (xs, ys, bin_indices) in
  let cs :=
    [mkColumn "zeros" (replicate (len out_table) (VInt 0));
     mkColumn "ones" (replicate (len out_table) (VInt 1))] ++
    match wcs with
    | None => [mkColumn "RA" (VFloat <$> xs); mkColumn "DEC" (VFloat <$> ys)]
    | Some _ => [mkColumn "X" (VFloat <$> xs); mkColumn "Y" (VFloat <$> ys)]
    end in
  let* out_table := add_columns cs out_table in
  let* _ :=
    write_if_given (drop 2 (colnames out_table)) out_table outfile in
  ret out_table.

Definition pick_positions_per_density
    (chosen_seds : Table Q) (dens : list Tile) (N_dens_bins : Z)
    (outfile : option string) (refimage : option WCS) (Nrealize : Z)
    : M Q (Table Q) :=
  let tile_dens_vals := metric <$> dens in
  let* densbin_foreach_tile :=
    lift (bin_foreach_tile tile_dens_vals N_dens_bins) in
  let tiles_foreach_densbin :=
    tiles_foreach_bin densbin_foreach_tile N_dens_bins in
  let tile_sets := remove_empty_bins tiles_foreach_densbin in
  let* repeated_seds := lift (np_repeat (rows chosen_seds) Nrealize) in
  let Nseds_per_region := length repeated_seds in
  let* repeated_seds :=
    lift (np_repeat repeated_seds (Z.of_nat (length tile_sets))) in
  let out_table := mkTable (colnames chosen_seds) repeated_seds in
  let ras := replicate (len out_table) 0 in
  let decs := replicate (len out_table) 0 in
  let bin_indices := replicate (len out_table) 0 in
  let* (ras, decs, bin_indices) :=
    for_each (enumerate tile_sets)
      (fun (a : arrays) bt =>
         let '(ras, decs, bin_indices) := a in
         let '(bin_index, tile_set) := bt in
         let start := (bin_index * Nseds_per_region)%nat in
         let stop := (start + Nseds_per_region)%nat in
         let bin_indices :=
           set_slice bin_indices start stop (inject_Z (Z.of_nat bin_index)) in
         for_each (seq 0 Nseds_per_region)
           (fun (a : arrays) i =>
              let '(ras, decs, bin_indices) := a in
              let j := (bin_index * Nseds_per_region + i)%nat in
              let* (ra, dec) := draw_radec dens tile_set in
              let* ras := lift (setitem ras j ra) in
              let* decs := lift (setitem decs j dec) in
              ret (ras, decs, bin_indices))
           (ras, decs, bin_indices))
      (ras, decs, bin_indices) in
  let cs :=
    [mkColumn "zeros" (replicate (len out_table) (VFloat 0));
     mkColumn "ones" (replicate (len out_table) (VFloat 1))] ++
    match refimage with
    | None =>
        [mkColumn "RA" (VFloat <$> ras); mkColumn "DEC" (VFloat <$> decs)]
    | Some wcs =>
        let xys := zip_with wcs ras decs in
        [mkColumn "X" (VFloat <$> xys.*1); mkColumn "Y" (VFloat <$> xys.*2)]
    end in
  let* out_table := add_columns cs out_table in
  let* _ := write_if_given (colnames out_table) out_table outfile in
  ret out_table.
End MapDriven.

(** ** What the specification says of the output *)

Module Specified.
Import MapDriven.

(** The replication order as the specification words it (4.3): the rows
    of bin 0 first, then those of bin 1, and so on, and in every bin
    the [Nrealize] copies of a star next to each other. *)
Definition replicated_as_specified {A} (stars : list A) (Nrealize K : nat)
  : list A :=
  mjoin (replicate K (stars ≫= replicate Nrealize)).

(** A table carries the bin index when one of its columns holds, in
    every row [j], the index [j // Nseds_per_region] of the bin the
    loops placed the row in (lines 121-123 and 363-365). *)
Definition carries_bin_index (Nseds_per_region : nat) (t : Table Q) : Prop :=
  exists c, forall j row,
    rows t !! j = Some row ->
    row !! c = Some (VInt (Z.of_nat (j / Nseds_per_region)))
    \/ row !! c = Some (VFloat (inject_Z (Z.of_nat (j / Nseds_per_region)))).
End Specified.

(** ** Sample inputs *)

Module Sample.
Import MapDriven.
Local Open Scope Q_scope.

(** A generator whose every draw is one half, and no file. *)
Definition generator : world Q := mkWorld (fun _ => 1 # 2) ∅.

Definition two_stars : Table Q :=
  mkTable ["mag"] [[VFloat 20]; [VFloat 21]].

(** Two tiles of metric 1 and 2; the first lies at negative declination. *)
Definition two_tiles : list Tile :=
  [mkTile 0 1 (-10) (-5) 1; mkTile 3 4 5 6 2].

(** A pixel frame that maps every tile to positive pixels. *)
Definition shifted : WCS := fun ra dec => (ra, dec + 20).

(** A map of one tile, a pixel frame that puts the left quarter of the
    tile at negative pixels, and a generator whose first three draws
    are 0 and the later ones one half: the first position drawn is the
    corner of the tile, at a negative pixel, the second its centre. *)
Definition one_tile : list Tile := [mkTile 0 1 0 1 5].

Definition left_quarter : WCS := fun ra dec => (ra - (1 # 4), dec).

Definition late_half : world Q :=
  mkWorld (fun n => if (n <? 3)%nat then 0 else 1 # 2) ∅.
End Sample.

(** ** The neighbour routine *)

Module Neighbor.
Import Stdlib.Reals.Reals.
Local Open Scope R_scope.

(** Line 194 *)
Definition noise : R := 3.

(** [catalog.data]: the columns of the photometry catalog by name. *)
Abbreviation Catalog := (gmap string (list R)).

(** The pixel frame of a reference image: [wcs.all_world2pix(ra, dec, 0)]
    on arrays, a black box. *)
Definition WCS : Type := list R -> list R -> list R * list R.

(** ['X' in colnames] *)
Definition has_column (catalog : Catalog) (c : string) : bool :=
  bool_decide (is_Some (catalog !! c)).

(** [catalog.data['X'][:]] *)
Definition column (catalog : Catalog) (c : string) : result (list R) :=
  match catalog !! c with
  | Some a => Ok a
  | None => Raise KeyError
  end.

(** The condition ['X' or 'x' in colnames]: Python reads it as
    ['X' or ('x' in colnames)], and a string that is not empty is
    true. *)
Definition str_or (s : string) (b : bool) : bool :=
  if truthy s then true else b.

(** Reading a local variable: [None] is a name not yet assigned. *)
Definition read_local {A} (v : option A) : result A :=
  match v with
  | Some a => Ok a
  | None => Raise UnboundLocalError
  end.

(** Lines 199-221: the locals [x_positions] and [y_positions] after the
    choice of the coordinate columns. *)
Definition catalog_positions (catalog : Catalog) (refimage : option WCS)
    : result (option (list R) * option (list R)) :=
  if str_or "X" (has_column catalog "x") then
    let? xy :=
      if has_column catalog "X" then
        let? x := column catalog "X" in
        let? y := column catalog "Y" in
        Ok (Some x, Some y)
      else Ok (None, None) in
    if has_column catalog "x" then
      let? x := column catalog "x" in
      let? y := column catalog "y" in
      Ok (Some x, Some y)
    else Ok xy
  else
    match refimage with
    | Some wcs =>
        let? (ra_positions, dec_positions) :=
          if str_or "RA" (has_column catalog "ra") then
            let? radec :=
              if has_column catalog "RA" then
                let? ra := column catalog "RA" in
                let? dec := column catalog "DEC" in
                Ok (Some ra, Some dec)
              else Ok (None, None) in
            if has_column catalog "ra" then
              let? ra := column catalog "ra" in
              let? dec := column catalog "dec" in
              Ok (Some ra, Some dec)
            else Ok radec
          else
            Raise (RuntimeError
              "Your catalog does not supply X, Y or RA, DEC information for spatial AST distribution") in
        let? ra := read_local ra_positions in
        let? dec := read_local dec_positions in
        let (x, y) := wcs ra dec in
        Ok (Some x, Some y)
    | None =>
        Raise (RuntimeError
          "You must supply a Reference Image to determine spatial AST distribution.")
    end.

Definition Rltb (a b : R) : bool := if Rlt_dec a b then true else false.

(** [np.min], [np.max] *)
Definition np_min (v : list R) : result R :=
  match v with
  | [] => Raise ValueError
  | x :: xs => Ok (foldl Rmin x xs)
  end.

Definition np_max (v : list R) : result R :=
  match v with
  | [] => Raise ValueError
  | x :: xs => Ok (foldl Rmax x xs)
  end.

(** Lines 229-230: the mask [keep]. The columns of one table have one
    length; numpy refuses to combine arrays of different lengths. *)
Definition keep_mask (x_positions y_positions : list R) (separation : R)
    : result (list bool) :=
  let? min_x := np_min x_positions in
  let? max_x := np_max x_positions in
  let? min_y := np_min y_positions in
  let? max_y := np_max y_positions in
  if negb (length x_positions =? length y_positions)%nat then Raise ValueError
  else
    Ok (zip_with
          (fun x y =>
             Rltb (min_x + separation + noise) x
             && Rltb x (max_x - separation - noise)
             && Rltb (min_y + separation + noise) y
             && Rltb y (max_y - separation - noise))
          x_positions y_positions).

(** [a[mask]] for a boolean mask as long as [a]. *)
Definition mask_select {A} (mask : list bool) (a : list A) : list A :=
  (filter (fun p => p.1 = true) (zip mask a)).*2.

(** Lines 229-233: the catalog stars kept as anchors. *)
Definition boundary_filter (x_positions y_positions : list R) (separation : R)
    : result (list R * list R) :=
  let? keep := keep_mask x_positions y_positions separation in
  Ok (mask_select keep x_positions, mask_select keep y_positions).

(** [.astype('int')]: the integer towards zero. *)
Definition astype_int (x : R) : Z :=
  if Rle_dec 0 x then Int_part x else (- Int_part (- x))%Z.

(** [a[i]] for an integer [i]: a negative index counts from the end. *)
Definition getitem_int (a : list R) (i : Z) : result R :=
  if (0 <=? i)%Z then getitem a (Z.to_nat i)
  else if (- Z.of_nat (length a) <=? i)%Z
       then getitem a (Z.to_nat (Z.of_nat (length a) + i))
       else Raise IndexError.

(** Lines 235-247: the new positions, from the anchors and the three
    arrays of draws [np.random.random(n_asts)]. *)
Definition place_asts (x_positions y_positions : list R) (separation : R)
    (u_ind u_sep u_theta : list R) : result (list R * list R) :=
  let ncat := length x_positions in
  let ind := (fun u => astype_int (u * INR ncat)) <$> u_ind in
  let separation := (fun u => u * noise + separation) <$> u_sep in
  let theta := (fun u => u * 2 * PI) <$> u_theta in
  let xvar := zip_with (fun r t => r * cos t) separation theta in
  let yvar := zip_with (fun r t => r * sin t) separation theta in
  let? ax := mapM_result (getitem_int x_positions) ind in
  let new_x := zip_with Rplus ax xvar in
  let? ay := mapM_result (getitem_int y_positions) ind in
  let new_y := zip_with Rplus ay yvar in
  Ok (new_x, new_y).

Definition pick_positions (catalog : Catalog) (filename : string)
    (separation : R) (refimage : option WCS) : M R unit :=
  let* (x_positions, y_positions) :=
    lift (catalog_positions catalog refimage) in
  let* astmags := ascii_read filename in
  let n_asts := len astmags in
  let* x_all := lift (read_local x_positions) in
  let* y_all := lift (read_local y_positions) in
  let* (x_positions, y_positions) :=
    lift (boundary_filter x_all y_all separation) in
  let* u_ind := random n_asts in
  let* u_sep := random n_asts in
  let* u_theta := random n_asts in
  let* (new_x, new_y) :=
    lift (place_asts x_positions y_positions separation u_ind u_sep u_theta) in
  let column1 := (fun _ => VInt 0) <$> new_x in
  let column2 := (fun _ => VInt 1) <$> new_x in
  let* astmags := lift (add_column (mkColumn "zeros" column1) 0 astmags) in
  let* astmags := lift (add_column (mkColumn "ones" column2) 1 astmags) in
  let* astmags :=
    lift (add_column (mkColumn "X" (VFloat <$> new_x)) 2 astmags) in
  let* astmags :=
    lift (add_column (mkColumn "Y" (VFloat <$> new_y)) 3 astmags) in
  ascii_write astmags filename.
End Neighbor.

Module SampleCatalogs.
Import Stdlib.Reals.Reals Neighbor.
Local Open Scope R_scope.

(** A catalog with sky coordinates only. *)
Definition sky_only : Catalog := {[ "RA" := [10; 11]; "DEC" := [20; 21] ]}.

(** A catalog with no coordinates at all. *)
Definition no_coordinates : Catalog := {[ "F475W" := [24; 25] ]}.

(** A catalog with both spellings of the pixel columns. *)
Definition both_spellings : Catalog :=
  {[ "X" := [1; 2]; "Y" := [3; 4]; "x" := [5; 6]; "y" := [7; 8] ]}.

(** The list of artificial stars [pick_models] left in a file. *)
Definition ast_list : Table R := mkTable ["mag"] [[VFloat 20]].

Definition before_call : world R :=
  mkWorld (fun _ => 0) {[ "asts.txt" := ast_list ]}.

(** Some pixel frame. *)
Definition frame : WCS := fun ra dec => (ra, dec).

(** A catalog of three stars, the second away from the edges. *)
Definition interior : Catalog :=
  {[ "X" := [0; 50; 100]; "Y" := [0; 50; 100] ]}.
End SampleCatalogs.

(** ** The placement loops, shared *)

Module Placement.
Import MapDriven.
Local Open Scope Q_scope.

(** The nested loops of both map-driven routines (lines 120-145 and
    362-374), for any way [draw] of drawing the position of one row in
    the tile set of a bin. *)
Definition place_rows (draw : list nat -> M Q (Q * Q))
    (tile_sets : list (list nat)) (Nseds_per_region : nat) (a : arrays)
  : M Q arrays :=
  for_each (enumerate tile_sets)
    (fun (a : arrays) bt =>
       let '(xs, ys, bin_indices) := a in
       let '(bin_index, tile_set) := bt in
       let start := (bin_index * Nseds_per_region)%nat in
       let stop := (start + Nseds_per_region)%nat in
       let bin_indices :=
         set_slice bin_indices start stop (inject_Z (Z.of_nat bin_index)) in
       for_each (seq 0 Nseds_per_region)
         (fun (a : arrays) i =>
            let '(xs, ys, bin_indices) := a in
            let* (x, y) := draw tile_set in
            let j := (bin_index * Nseds_per_region + i)%nat in
            let* xs := lift (setitem xs j x) in
            let* ys := lift (setitem ys j y) in
            ret (xs, ys, bin_indices))
         (xs, ys, bin_indices))
    a.

(** A position inside the bounding box of a tile. *)
Definition in_tile (t : Tile) (ra dec : Q) : Prop :=
  (min_ra t <= ra <= max_ra t) /\ (min_dec t <= dec <= max_dec t).

(** A tile whose bounds are in order. *)
Definition ordered (t : Tile) : Prop :=
  min_ra t <= max_ra t /\ min_dec t <= max_dec t.

(** A generator all of whose draws are in [[0, 1)], as those of
    [np.random.random_sample] are. *)
Definition uniform (w : world Q) : Prop := forall n, 0 <= rng w n < 1.

(** A star table without a string. *)
Definition numeric (t : Table Q) : Prop :=
  Forall (Forall (fun v => prints_as_float v = true)) (rows t).

(** The coordinates [xy] of a row come from a position inside the
    bounding box of a tile of [tile_set], through the pixel frame when
    there is one. *)
Definition placed_in (map : list Tile) (wcs : option WCS)
    (tile_set : list nat) (xy : Q * Q) : Prop :=
  exists tile t ra dec,
    tile ∈ tile_set /\ map !! tile = Some t /\ in_tile t ra dec
    /\ xy = match wcs with
            | None => (ra, dec)
            | Some frame => frame ra dec
            end.
End Placement.

(** ** Effects on the files *)

Section Effects.
Context {F : Type}.

(** A computation that writes no file, whatever it returns or raises. *)
Definition writes_nothing {A} (m : M F A) : Prop :=
  forall w r w', m w = (r, w') -> files w' = files w.
End Effects.

(** * Properties *)

(** ** The monad and the loops *)

Section MonadFacts.
Context {F : Type}.

Lemma rbind_Ok {A B} (r : result A) (k : A -> result B) b :
  rbind r k = Ok b -> exists a, r = Ok a /\ k a = Ok b.
Proof. destruct r; simpl; intros H; try discriminate. eauto. Qed.

Lemma bind_Ok {A B} (m : M F A) (k : A -> M F B) w b w' :
  bind m k w = (Ok b, w') ->
  exists a w1, m w = (Ok a, w1) /\ k a w1 = (Ok b, w').
Proof.
  unfold bind. destruct (m w) as [[a | e |] w1]; intros H; try discriminate.
  eauto.
Qed.

Lemma bind_Ok_intro {A B} (m : M F A) (k : A -> M F B) w a w1 :
  m w = (Ok a, w1) -> bind m k w = k a w1.
Proof. unfold bind. by intros ->. Qed.

Lemma lift_Ok {A} (r : result A) (w : world F) a w' :
  lift r w = (Ok a, w') -> r = Ok a /\ w' = w.
Proof. unfold lift. intros H. by inversion H. Qed.

Lemma ret_Ok {A} (x : A) (w : world F) a w' :
  ret x w = (Ok a, w') -> a = x /\ w' = w.
Proof. unfold ret. intros H. by inversion H. Qed.

(** A loop keeps an invariant that every turn keeps; the invariant may
    count the turns. *)
Lemma for_each_ind {A St} (I : nat -> St -> world F -> Prop)
    (xs : list A) (body : St -> A -> M F St) acc0 w0 acc w :
  I 0%nat acc0 w0 ->
  (forall k x a w1 a' w2,
      xs !! k = Some x -> I k a w1 -> body a x w1 = (Ok a', w2) ->
      I (S k) a' w2) ->
  for_each xs body acc0 w0 = (Ok acc, w) ->
  I (length xs) acc w.
Proof.
  revert I acc0 w0. induction xs as [| x xs IH]; intros I acc0 w0 H0 Hstep Hrun.
  - apply ret_Ok in Hrun as [-> ->]. exact H0.
  - simpl in Hrun. apply bind_Ok in Hrun as (a1 & w1 & Hbody & Hrest).
    apply (IH (fun k => I (S k)) a1 w1); [| | exact Hrest].
    + by apply (Hstep 0%nat x acc0 w0).
    + intros k y a w2 a' w3 Hk. by apply (Hstep (S k)).
Qed.

Lemma add_column_Ok (c : Column F) i t t' :
  add_column c i t = Ok t' ->
  colnames t' = insert_at i (name c) (colnames t)
  /\ rows t' = zip_with (insert_at i) (data c) (rows t)
  /\ length (data c) = len t.
Proof.
  unfold add_column. case_bool_decide; [discriminate |].
  destruct (length (data c) =? len t)%nat eqn:E; simpl; [| discriminate].
  intros [= <-]. apply Nat.eqb_eq in E. done.
Qed.

Lemma add_column_len (c : Column F) i t t' :
  add_column c i t = Ok t' -> len t' = len t.
Proof.
  intros (_ & Hr & Hl)%add_column_Ok. unfold len in *. rewrite Hr.
  rewrite length_zip_with. lia.
Qed.

(** Four columns entering at 0, 1, 2 and 3 stand in front of the
    columns the table had, in every row. *)
Lemma add_four_columns (c0 c1 c2 c3 : Column F) t t1 t2 t3 t4 :
  add_column c0 0 t = Ok t1 -> add_column c1 1 t1 = Ok t2 ->
  add_column c2 2 t2 = Ok t3 -> add_column c3 3 t3 = Ok t4 ->
  colnames t4 = name c0 :: name c1 :: name c2 :: name c3 :: colnames t
  /\ len t4 = len t
  /\ forall j row, rows t4 !! j = Some row ->
       exists v0 v1 v2 v3 orig,
         data c0 !! j = Some v0 /\ data c1 !! j = Some v1
         /\ data c2 !! j = Some v2 /\ data c3 !! j = Some v3
         /\ rows t !! j = Some orig
         /\ row = v0 :: v1 :: v2 :: v3 :: orig.
Proof.
  intros H0 H1 H2 H3.
  pose proof (add_column_len _ _ _ _ H0) as L0.
  pose proof (add_column_len _ _ _ _ H1) as L1.
  pose proof (add_column_len _ _ _ _ H2) as L2.
  pose proof (add_column_len _ _ _ _ H3) as L3.
  apply add_column_Ok in H0 as (N0 & R0 & _).
  apply add_column_Ok in H1 as (N1 & R1 & _).
  apply add_column_Ok in H2 as (N2 & R2 & _).
  apply add_column_Ok in H3 as (N3 & R3 & _).
  split; [| split].
  - rewrite N3, N2, N1, N0. reflexivity.
  - lia.
  - intros j row Hj. rewrite R3 in Hj.
    apply lookup_zip_with_Some in Hj as (v3 & r3 & -> & Hv3 & Hj).
    rewrite R2 in Hj.
    apply lookup_zip_with_Some in Hj as (v2 & r2 & -> & Hv2 & Hj).
    rewrite R1 in Hj.
    apply lookup_zip_with_Some in Hj as (v1 & r1 & -> & Hv1 & Hj).
    rewrite R0 in Hj.
    apply lookup_zip_with_Some in Hj as (v0 & orig & -> & Hv0 & Hj).
    exists v0, v1, v2, v3, orig. done.
Qed.

(** [np.repeat]: the length and the element at every position. *)
Lemma length_bind_replicate {A} (a : list A) n :
  length (a ≫= replicate n) = (n * length a)%nat.
Proof.
  induction a as [| x a IH]; [simpl; lia |].
  rewrite bind_cons, length_app, length_replicate, IH. simpl. lia.
Qed.

Lemma lookup_bind_replicate {A} (a : list A) n p :
  (0 < n)%nat -> (a ≫= replicate n) !! p = a !! (p / n)%nat.
Proof.
  intros Hn. revert p. induction a as [| x a IH]; intros p.
  - by rewrite !lookup_nil.
  - rewrite bind_cons. destruct (decide (p < n)%nat) as [Hp | Hp].
    + rewrite lookup_app_l by (rewrite length_replicate; lia).
      rewrite Nat.div_small by lia. simpl.
      by apply lookup_replicate_2.
    + rewrite lookup_app_r by (rewrite length_replicate; lia).
      rewrite length_replicate, IH.
      replace p with ((p - n) + 1 * n)%nat at 2 by lia.
      rewrite Nat.div_add by lia.
      by rewrite Nat.add_1_r.
Qed.

Lemma np_repeat_Ok {A} (a : list A) n b :
  np_repeat a n = Ok b -> 0 <= n /\ b = a ≫= replicate (Z.to_nat n).
Proof.
  unfold np_repeat. destruct (n <? 0) eqn:E; [discriminate |].
  intros [= <-]. apply Z.ltb_ge in E. done.
Qed.

Lemma setitem_Ok {A} (a : list A) i x b :
  setitem a i x = Ok b -> b = <[i := x]> a.
Proof.
  unfold setitem. destruct (i <? length a)%nat; [| discriminate].
  by intros [= <-].
Qed.
End MonadFacts.

(** ** BinAssigner *)

Section BinningFacts.
Import Binning.
Local Open Scope Q_scope.

Lemma foldl_Qmin_le (xs : list Q) a :
  foldl Qmin a xs <= a /\ Forall (fun x => foldl Qmin a xs <= x) xs.
Proof.
  revert a. induction xs as [| x xs IH]; intros a; simpl.
  - split; [apply Qle_refl | constructor].
  - destruct (IH (Qmin a x)) as [H1 H2]. split; [| constructor].
    + eapply Qle_trans; [exact H1 | apply Q.le_min_l].
    + eapply Qle_trans; [exact H1 | apply Q.le_min_r].
    + exact H2.
Qed.

Lemma foldl_Qmax_ge (xs : list Q) a :
  a <= foldl Qmax a xs /\ Forall (fun x => x <= foldl Qmax a xs) xs.
Proof.
  revert a. induction xs as [| x xs IH]; intros a; simpl.
  - split; [apply Qle_refl | constructor].
  - destruct (IH (Qmax a x)) as [H1 H2]. split; [| constructor].
    + eapply Qle_trans; [apply Q.le_max_l | exact H1].
    + eapply Qle_trans; [apply Q.le_max_r | exact H1].
    + exact H2.
Qed.

Lemma amin_lower v m : amin v = Ok m -> Forall (fun x => m <= x) v.
Proof.
  destruct v as [| x xs]; simpl; intros [= <-].
  destruct (foldl_Qmin_le xs x). by constructor.
Qed.

Lemma amax_upper v m : amax v = Ok m -> Forall (fun x => x <= m) v.
Proof.
  destruct v as [| x xs]; simpl; intros [= <-].
  destruct (foldl_Qmax_ge xs x). by constructor.
Qed.

Lemma amin_le_amax v lo hi : amin v = Ok lo -> amax v = Ok hi -> lo <= hi.
Proof.
  intros Hlo Hhi. destruct v as [| x xs]; [discriminate |].
  apply amin_lower in Hlo. apply amax_upper in Hhi.
  inversion Hlo; inversion Hhi; subst. by eapply Qle_trans.
Qed.

Lemma padded_range lo hi :
  lo <= hi -> lo - (1 # 100) * Qabs lo <= lo /\ hi <= hi + (1 # 100) * Qabs hi.
Proof.
  intros _. pose proof (Qabs_nonneg lo). pose proof (Qabs_nonneg hi).
  split; lra.
Qed.

Lemma nondecreasing_lookup (a : list Q) :
  (forall i x y, a !! i = Some x -> a !! S i = Some y -> x <= y) ->
  nondecreasing a = true.
Proof.
  induction a as [| b a IH]; intros H; [done |].
  destruct a as [| c a]; [done |].
  change (Qle_bool b c && nondecreasing (c :: a) = true).
  apply andb_true_iff. split.
  - apply Qle_bool_iff. by apply (H 0%nat).
  - apply IH. intros i x y Hx Hy. by apply (H (S i)).
Qed.

Lemma nondecreasing_short (a : list Q) :
  (length a <= 1)%nat -> nondecreasing a = true.
Proof. destruct a as [| b [| c a]]; simpl; intros; try done; lia. Qed.

Lemma linspace_Ok start stop num :
  (0 <= num)%Z ->
  exists bins, linspace start stop num = Ok bins
               /\ length bins = Z.to_nat num.
Proof.
  intros Hn. unfold linspace.
  destruct (num <? 0)%Z eqn:E; [apply Z.ltb_lt in E; lia |].
  eexists. split; [reflexivity |].
  destruct (1 <? num)%Z;
    rewrite ?length_insert, !length_fmap, length_seqZ; done.
Qed.

(** The boundaries of [linspace] for at least two samples. *)
Lemma linspace_lookup start stop num bins :
  (1 < num)%Z -> linspace start stop num = Ok bins ->
  bins !! Z.to_nat (num - 1) = Some stop
  /\ forall i, (Z.of_nat i < num - 1)%Z ->
       bins !! i
       = Some (inject_Z (Z.of_nat i) * ((stop - start) / inject_Z (num - 1))
               + start).
Proof.
  intros Hn. unfold linspace.
  destruct (num <? 0)%Z eqn:E; [apply Z.ltb_lt in E; lia |].
  destruct (1 <? num)%Z eqn:E1; [| apply Z.ltb_ge in E1; lia].
  intros [= <-]. split.
  - apply list_lookup_insert_eq.
    rewrite !length_fmap, length_seqZ. lia.
  - intros i Hi. rewrite list_lookup_insert_ne by lia.
    rewrite !list_lookup_fmap, lookup_seqZ_lt by lia. done.
Qed.

Lemma linspace_nondecreasing start stop num bins :
  start <= stop -> linspace start stop num = Ok bins ->
  nondecreasing bins = true.
Proof.
  intros Hle Hb.
  destruct (decide (num < 0)%Z) as [Hneg | Hnn].
  { unfold linspace in Hb. apply Z.ltb_lt in Hneg. by rewrite Hneg in Hb. }
  destruct (linspace_Ok start stop num) as (bins' & Hb' & Hlen); [lia |].
  rewrite Hb in Hb'. injection Hb' as <-.
  destruct (decide (num <= 1)%Z) as [Hsmall | Hbig].
  { apply nondecreasing_short. lia. }
  destruct (linspace_lookup start stop num bins) as [Hlast Hk]; [lia | done |].
  set (step := (stop - start) / inject_Z (num - 1)) in *.
  assert (Hdiv : 0 < inject_Z (num - 1)).
  { change 0 with (inject_Z 0). rewrite <- Zlt_Qlt. lia. }
  assert (Hstep : 0 <= step).
  { unfold step, Qdiv. apply Qmult_le_0_compat; [lra |].
    apply Qlt_le_weak. by apply Qinv_lt_0_compat. }
  assert (Hfull : inject_Z (num - 1) * step == stop - start).
  { unfold step. apply Qmult_div_r. lra. }
  apply nondecreasing_lookup. intros i x y Hx Hy.
  assert (Z.of_nat (S i) <= num - 1)%Z as Hi.
  { apply lookup_lt_Some in Hy. lia. }
  rewrite Hk in Hx by lia. injection Hx as <-.
  destruct (decide (Z.of_nat (S i) = num - 1)%Z) as [Heq | Hne].
  - replace (Z.to_nat (num - 1)) with (S i) in Hlast by lia.
    rewrite Hlast in Hy. injection Hy as <-.
    rewrite <- Heq in Hfull.
    rewrite Nat2Z.inj_succ in Hfull. unfold Z.succ in Hfull.
    rewrite inject_Z_plus in Hfull. change (inject_Z 1) with 1 in Hfull.
    set (k := inject_Z (Z.of_nat i)) in *. nra.
  - rewrite Hk in Hy by lia. injection Hy as <-.
    rewrite Nat2Z.inj_succ. unfold Z.succ. rewrite inject_Z_plus.
    change (inject_Z 1) with 1. set (k := inject_Z (Z.of_nat i)). nra.
Qed.

Lemma searchsorted_right_le (a : list Q) x i b :
  a !! i = Some b -> x < b -> (searchsorted_right a x <= i)%nat.
Proof.
  revert i. induction a as [| c a IH]; intros i Hi Hx; [done |].
  simpl. destruct (Qle_bool c x) eqn:E; [| lia].
  apply Qle_bool_iff in E. destruct i as [| i]; simpl in Hi.
  - injection Hi as ->. lra.
  - specialize (IH i Hi Hx). lia.
Qed.

Lemma searchsorted_right_pos (a : list Q) x b :
  a !! 0%nat = Some b -> b <= x -> (1 <= searchsorted_right a x)%nat.
Proof.
  destruct a as [| c a]; [done |]. simpl. intros [= ->] Hx.
  apply Qle_bool_iff in Hx. rewrite Hx. lia.
Qed.

(** With at least one tile and a bin count that is not negative, the
    bin assignment returns the labels of [searchsorted] on increasing
    boundaries. *)
Lemma bin_foreach_tile_Ok v N :
  v <> [] -> (0 <= N)%Z ->
  exists lo hi bins,
    amin v = Ok lo /\ amax v = Ok hi
    /\ linspace (lo - (1 # 100) * Qabs lo) (hi + (1 # 100) * Qabs hi) (N + 1)
       = Ok bins
    /\ bin_foreach_tile v N
       = Ok ((fun x => Z.of_nat (searchsorted_right bins x)) <$> v).
Proof.
  intros Hv HN. destruct v as [| x xs]; [done |].
  destruct (amin (x :: xs)) as [lo | |] eqn:Hlo; try discriminate.
  destruct (amax (x :: xs)) as [hi | |] eqn:Hhi; try discriminate.
  destruct (linspace_Ok (lo - (1 # 100) * Qabs lo) (hi + (1 # 100) * Qabs hi)
              (N + 1)) as (bins & Hb & _); [lia |].
  exists lo, hi, bins. repeat split; try done.
  unfold bin_foreach_tile. rewrite Hlo, Hhi. simpl. rewrite Hb. simpl.
  unfold digitize. erewrite linspace_nondecreasing; [done | | exact Hb].
  pose proof (amin_le_amax _ _ _ Hlo Hhi) as Hle.
  destruct (padded_range lo hi Hle). lra.
Qed.

Lemma searchsorted_right_all (a : list Q) x :
  Forall (fun b => b <= x) a -> searchsorted_right a x = length a.
Proof.
  induction 1 as [| b a Hb _ IH]; [done |]. simpl.
  apply Qle_bool_iff in Hb. by rewrite Hb, IH.
Qed.

Lemma linspace_below_stop start stop num bins :
  (1 < num)%Z -> start <= stop -> linspace start stop num = Ok bins ->
  Forall (fun b => b <= stop) bins.
Proof.
  intros Hn Hle Hb.
  destruct (linspace_Ok start stop num) as (bins' & Hb' & Hlen); [lia |].
  rewrite Hb in Hb'. injection Hb' as <-.
  destruct (linspace_lookup start stop num bins Hn Hb) as [Hlast Hk].
  assert (Hdiv : 0 < inject_Z (num - 1)).
  { change 0 with (inject_Z 0). rewrite <- Zlt_Qlt. lia. }
  set (step := (stop - start) / inject_Z (num - 1)) in *.
  assert (Hstep : 0 <= step).
  { unfold step, Qdiv. apply Qmult_le_0_compat; [lra |].
    apply Qlt_le_weak. by apply Qinv_lt_0_compat. }
  assert (Hfull : inject_Z (num - 1) * step == stop - start).
  { unfold step. apply Qmult_div_r. lra. }
  apply Forall_lookup. intros i b Hi.
  assert (Z.of_nat i <= num - 1)%Z as Hi'.
  { apply lookup_lt_Some in Hi. lia. }
  destruct (decide (Z.of_nat i = num - 1)%Z) as [Heq | Hne].
  - replace (Z.to_nat (num - 1)) with i in Hlast by lia.
    rewrite Hlast in Hi. injection Hi as <-. lra.
  - rewrite Hk in Hi by lia. injection Hi as <-.
    assert (inject_Z (Z.of_nat i) <= inject_Z (num - 1)) as Hik
      by (rewrite <- Zle_Qle; lia).
    set (k := inject_Z (Z.of_nat i)) in *. set (n := inject_Z (num - 1)) in *.
    nra.
Qed.

Lemma foldl_Qmax_elem (xs : list Q) a :
  exists x, x ∈ a :: xs /\ x == foldl Qmax a xs.
Proof.
  revert a. induction xs as [| x xs IH]; intros a; simpl.
  - exists a. split; [apply list_elem_of_here | reflexivity].
  - destruct (IH (Qmax a x)) as (m & Hm & Hmax).
    apply elem_of_cons in Hm as [-> | Hm].
    + destruct (Q.max_dec a x) as [E | E].
      * exists a. split; [apply list_elem_of_here |]. by rewrite <- Hmax, E.
      * exists x. split; [apply list_elem_of_further, list_elem_of_here |].
        by rewrite <- Hmax, E.
    + exists m. split; [by do 2 apply list_elem_of_further | done].
Qed.

(** X2. The other side of the invariant: when the largest metric
    value is exactly zero, every tile of that value gets the label
    [N_bins + 1], and there is such a tile. *)
Lemma label_overflows_at_zero_maximum v N lo hi :
  amin v = Ok lo -> amax v = Ok hi -> lo < hi -> (1 <= N)%Z -> hi == 0 ->
  exists labels,
    bin_foreach_tile v N = Ok labels
    /\ (forall i x, v !! i = Some x -> x == hi -> labels !! i = Some (N + 1)%Z)
    /\ exists i x, v !! i = Some x /\ x == hi.
Proof.
  intros Hlo Hhi Hlt HN Hz.
  assert (Hv : v <> []) by (intros ->; discriminate).
  destruct (bin_foreach_tile_Ok v N Hv)
    as (lo' & hi' & bins & Hlo' & Hhi' & Hb & Hl); [lia |].
  rewrite Hlo in Hlo'. injection Hlo' as <-.
  rewrite Hhi in Hhi'. injection Hhi' as <-.
  exists ((fun x => Z.of_nat (searchsorted_right bins x)) <$> v).
  split; [exact Hl |]. split.
  - intros i x Hi Hx. rewrite list_lookup_fmap, Hi. simpl. f_equal.
    destruct (linspace_Ok (lo - (1 # 100) * Qabs lo) (hi + (1 # 100) * Qabs hi)
                (N + 1)) as (bins' & Hb' & Hlen); [lia |].
    rewrite Hb in Hb'. injection Hb' as <-.
    rewrite searchsorted_right_all; [lia |].
    pose proof (Qabs_nonneg lo) as Hal.
    assert (Qabs hi == 0) as Hah by (rewrite Hz; reflexivity).
    eapply Forall_impl.
    + eapply linspace_below_stop; [| | exact Hb]; [lia | lra].
    + intros b Hbs. simpl in Hbs. lra.
  - destruct v as [| a xs]; [done |]. simpl in Hhi. injection Hhi as <-.
    destruct (foldl_Qmax_elem xs a) as (x & Hx & Hmax).
    apply list_elem_of_lookup_1 in Hx as [i Hi]. by exists i, x.
Qed.
End BinningFacts.

Section BinAssignerClaims.
Import Binning.
Local Open Scope Q_scope.

(** C1 (code defect). The claim: for [min(v) < max(v)] and
    [N_bins >= 1] every tile gets a label in [[1, N_bins]]. The code
    breaks it when the largest metric value is zero: the padding
    [0.01 * |max(v)|] is then zero, the last boundary is [max(v)]
    itself, and [digitize] gives the tile of that value the label
    [N_bins + 1]. For the values [-1, 0] and one bin the labels are
    [1, 2], and the second tile is in no bin. Both routines assign bins
    with [bin_foreach_tile]. [label_overflows_at_zero_maximum] has the
    failure for every input of this kind. *)
Theorem bin_label_overflows_when_maximum_is_zero :
  amin [-1; 0] = Ok (-1) /\ amax [-1; 0] = Ok 0
  /\ bin_foreach_tile [-1; 0] 1 = Ok [1; 2]%Z
  /\ remove_empty_bins (tiles_foreach_bin [1; 2]%Z 1) = [[0%nat]].
Proof. vm_compute. done. Qed.

(** C5, the claim as stated fails: a degenerate metric array and a bin
    count of zero are both accepted, and labels come back. *)
Lemma degenerate_range_is_accepted :
  amin [5; 5] = amax [5; 5]
  /\ bin_foreach_tile [5; 5] 1 = Ok [1; 1]%Z
  /\ bin_foreach_tile [1; 2] 0 = Ok [1; 1]%Z.
Proof. vm_compute. done. Qed.

(** C5 (amended). The bin assignment checks neither the range of the
    metric nor the bin count, and has no error of its own: for every
    metric array that is not empty, a degenerate one included, and every
    [N_bins >= 0] it returns one label for every tile; for
    [N_bins < -1] it fails with the [ValueError] of [np.linspace], which
    is asked for a negative number of samples. *)
Theorem bin_assignment_has_no_range_check (v : list Q) (N_bins : Z) :
  v <> [] ->
  ((0 <= N_bins)%Z ->
   exists labels,
     bin_foreach_tile v N_bins = Ok labels /\ length labels = length v)
  /\ ((N_bins < -1)%Z -> bin_foreach_tile v N_bins = Raise ValueError).
Proof.
  intros Hv. split; intros HN.
  - destruct (bin_foreach_tile_Ok v N_bins Hv HN)
      as (lo & hi & bins & _ & _ & _ & Hl).
    eexists. split; [exact Hl |]. by rewrite length_fmap.
  - destruct v as [| x xs]; [done |].
    unfold bin_foreach_tile, amin, amax, linspace. simpl.
    destruct (N_bins + 1 <? 0)%Z eqn:E; [done |].
    apply Z.ltb_ge in E. lia.
Qed.

Lemma bin_assignment_has_no_range_check_witness :
  exists labels,
    bin_foreach_tile [5; 5] 1 = Ok labels /\ length labels = 2%nat.
Proof.
  destruct (bin_assignment_has_no_range_check [5; 5] 1) as [H _].
  - discriminate.
  - apply H. lia.
Defined.
End BinAssignerClaims.

(** ** The map-driven routines *)

Section MapDrivenFacts.
Import Binning MapDriven.
Local Open Scope Q_scope.

Lemma draw_xy_nonneg fuel (wcs : WCS) bg tile_set w x y w' :
  draw_xy fuel (Some wcs) bg tile_set w = (Ok (x, y), w') ->
  0 <= x /\ 0 <= y.
Proof.
  revert w. induction fuel as [| fuel IH]; intros w H; [discriminate |].
  simpl in H. apply bind_Ok in H as ([ra dec] & w1 & _ & H).
  destruct (wcs ra dec) as [x' y'].
  destruct (Qle_bool 0 x') eqn:Ex; simpl in H; [| by eapply IH].
  destruct (Qle_bool 0 y') eqn:Ey; simpl in H; [| by eapply IH].
  apply ret_Ok in H as [[= <- <-] _].
  by rewrite <- !Qle_bool_iff.
Qed.

(** Without a pixel frame the loop body runs once: the first draw is
    the position. *)
Lemma draw_xy_first_draw fuel bg tile_set w :
  draw_xy (S fuel) None bg tile_set w = draw_radec bg tile_set w.
Proof.
  simpl. unfold bind. destruct (draw_radec bg tile_set w) as [[[ra dec] | e |] w1]; done.
Qed.

Lemma random_sample_Ok (w : world Q) u w' :
  random_sample w = (Ok u, w') ->
  u = rng w 0%nat /\ files w' = files w /\ forall n, rng w' n = rng w (S n).
Proof. unfold random_sample. intros [= <- <-]. done. Qed.

Lemma choice_Ok a (w : world Q) tile w' :
  choice a w = (Ok tile, w') ->
  tile ∈ a /\ files w' = files w /\ forall n, rng w' n = rng w (S n).
Proof.
  unfold choice. destruct (length a =? 0)%nat; [discriminate |].
  intros H. apply bind_Ok in H as (u & w1 & Hu & H).
  apply random_sample_Ok in Hu as (_ & Hf & Hr).
  apply lift_Ok in H as [H ->]. unfold getitem in H.
  destruct (a !! _) eqn:E; [| discriminate]. injection H as ->.
  split; [by eapply list_elem_of_lookup_2 | done].
Qed.

(** One draw of a position takes three numbers from the generator: the
    tile and the two coordinates; it writes no file. *)
Lemma draw_radec_Ok bg tile_set w ra dec w' :
  draw_radec bg tile_set w = (Ok (ra, dec), w') ->
  files w' = files w /\ forall n, rng w' n = rng w (3 + n)%nat.
Proof.
  unfold draw_radec. intros H.
  apply bind_Ok in H as (tile & w1 & Ht & H).
  apply choice_Ok in Ht as (_ & Hf1 & Hr1).
  apply bind_Ok in H as (ra0 & w2 & H0 & H). apply lift_Ok in H0 as [_ ->].
  apply bind_Ok in H as (u & w2 & Hu & H).
  apply random_sample_Ok in Hu as (_ & Hf2 & Hr2).
  apply bind_Ok in H as (dra & w3 & H0 & H). apply lift_Ok in H0 as [_ ->].
  apply bind_Ok in H as (dec0 & w3 & H0 & H). apply lift_Ok in H0 as [_ ->].
  apply bind_Ok in H as (u' & w3 & Hu' & H).
  apply random_sample_Ok in Hu' as (_ & Hf3 & Hr3).
  apply bind_Ok in H as (ddec & w4 & H0 & H). apply lift_Ok in H0 as [_ ->].
  apply ret_Ok in H as [_ ->].
  split; [congruence |]. intros n. by rewrite Hr3, Hr2, Hr1.
Qed.

Lemma write_if_given_Ok ks (t : Table Q) outfile w u w' :
  write_if_given ks t outfile w = (Ok u, w') -> rng w' = rng w.
Proof.
  unfold write_if_given. destruct (given outfile).
  - unfold ascii_write_formats. destruct (formats_fit ks t); [| done].
    unfold ascii_write. by intros [= _ <-].
  - by intros [_ ->]%ret_Ok.
Qed.

(** Lines 149-168 and 377-399: the four columns in front, the file if
    asked for, and the table back. *)
Lemma assemble_Ok (ks : Table Q -> list string) (c0 c1 c2 c3 : Column Q) t0
    outfile t w w' :
  (let* out_table := add_columns [c0; c1; c2; c3] t0 in
   let* _ := write_if_given (ks out_table) out_table outfile in
   ret out_table) w = (Ok t, w') ->
  rng w' = rng w
  /\ colnames t = name c0 :: name c1 :: name c2 :: name c3 :: colnames t0
  /\ len t = len t0
  /\ forall j row, rows t !! j = Some row ->
       exists v0 v1 v2 v3 orig,
         data c0 !! j = Some v0 /\ data c1 !! j = Some v1
         /\ data c2 !! j = Some v2 /\ data c3 !! j = Some v3
         /\ rows t0 !! j = Some orig
         /\ row = v0 :: v1 :: v2 :: v3 :: orig.
Proof.
  intros H. apply bind_Ok in H as (t4 & w1 & Hadd & H).
  apply bind_Ok in H as (u & w2 & Hw & H).
  apply ret_Ok in H as [-> ->]. apply write_if_given_Ok in Hw.
  unfold add_columns, enumerate in Hadd. simpl in Hadd.
  apply bind_Ok in Hadd as (t1 & w3 & H0 & Hadd). apply lift_Ok in H0 as [H0 ->].
  apply bind_Ok in Hadd as (t2 & w3 & H1 & Hadd). apply lift_Ok in H1 as [H1 ->].
  apply bind_Ok in Hadd as (t3 & w3 & H2 & Hadd). apply lift_Ok in H2 as [H2 ->].
  apply bind_Ok in Hadd as (t4' & w3 & H3 & Hadd). apply lift_Ok in H3 as [H3 ->].
  apply ret_Ok in Hadd as [-> ->].
  split; [done |]. by apply (add_four_columns c0 c1 c2 c3 t0 t1 t2 t3).
Qed.

(** What a returned table of the background-driven routine is made of:
    the labels of the tiles, the star rows repeated twice over, and the
    two coordinate arrays the loops filled. *)
Lemma pick_positions_per_background_Ok fuel seds bg N outfile refimage Nrealize
    w t w' :
  pick_positions_per_background fuel seds bg N outfile refimage Nrealize w
  = (Ok t, w') ->
  exists labels xs ys,
    bin_foreach_tile (metric <$> bg) N = Ok labels
    /\ (0 <= Nrealize)%Z
    /\ colnames t
       = "zeros" :: "ones"
         :: match refimage with
            | None => ["RA"; "DEC"]
            | Some _ => ["X"; "Y"]
            end ++ colnames seds
    /\ (refimage <> None -> Forall (Qle 0) xs /\ Forall (Qle 0) ys)
    /\ let K := length (remove_empty_bins (tiles_foreach_bin labels N)) in
       let repeated :=
         (rows seds ≫= replicate (Z.to_nat Nrealize)) ≫= replicate K in
       len t = length repeated
       /\ forall j row, rows t !! j = Some row ->
            exists x y orig,
              xs !! j = Some x /\ ys !! j = Some y
              /\ repeated !! j = Some orig
              /\ row = VInt 0 :: VInt 1 :: VFloat x :: VFloat y :: orig.
Proof.
  unfold pick_positions_per_background. intros H.
  apply bind_Ok in H as (labels & w1 & Hl & H). apply lift_Ok in Hl as [Hl ->].
  apply bind_Ok in H as (rep1 & w1 & Hr1 & H). apply lift_Ok in Hr1 as [Hr1 ->].
  apply np_repeat_Ok in Hr1 as [HNr ->].
  apply bind_Ok in H as (rep2 & w1 & Hr2 & H). apply lift_Ok in Hr2 as [Hr2 ->].
  apply np_repeat_Ok in Hr2 as [_ ->]. rewrite Nat2Z.id in H.
  apply bind_Ok in H as ([[xs ys] bi] & w1 & Hloop & H).
  exists labels, xs, ys. split; [done |]. split; [done |].
  assert (Hnonneg : refimage <> None -> Forall (Qle 0) xs /\ Forall (Qle 0) ys).
  { intros Href. destruct refimage as [wcs |]; [| done].
    revert Hloop.
    apply (for_each_ind (fun _ (a : arrays) _ =>
             Forall (Qle 0) a.1.1 /\ Forall (Qle 0) a.1.2)).
    { simpl. split; apply Forall_replicate; done. }
    intros k [bin_index tile_set] [[xs1 ys1] bi1] w2 a' w3 _ Hinv.
    apply (for_each_ind (fun _ (a : arrays) _ =>
             Forall (Qle 0) a.1.1 /\ Forall (Qle 0) a.1.2)); [exact Hinv |].
    clear. intros k i [[xs ys] bi] w1 a' w2 _ [Hx Hy] H. simpl in Hx, Hy.
    apply bind_Ok in H as ([x y] & w3 & Hd & H).
    apply draw_xy_nonneg in Hd as [Hx0 Hy0].
    apply bind_Ok in H as (xs' & w4 & Hsx & H). apply lift_Ok in Hsx as [Hsx ->].
    apply bind_Ok in H as (ys' & w4 & Hsy & H). apply lift_Ok in Hsy as [Hsy ->].
    apply ret_Ok in H as [-> _]. simpl.
    apply setitem_Ok in Hsx as ->. apply setitem_Ok in Hsy as ->.
    split; by apply Forall_insert. }
  destruct refimage as [wcs |].
  - apply assemble_Ok in H as (_ & Hc & Hlen & Hrows). simpl in Hc, Hlen.
    split; [done |]. split; [done |]. split; [done |].
    intros j row Hj. destruct (Hrows j row Hj)
      as (v0 & v1 & v2 & v3 & orig & H0 & H1 & H2 & H3 & Ho & ->).
    simpl in *.
    apply lookup_replicate in H0 as [-> _]. apply lookup_replicate in H1 as [-> _].
    rewrite list_lookup_fmap in H2. rewrite list_lookup_fmap in H3.
    destruct (xs !! j) as [x |]; [| done]. destruct (ys !! j) as [y |]; [| done].
    injection H2 as <-. injection H3 as <-. by exists x, y, orig.
  - apply assemble_Ok in H as (_ & Hc & Hlen & Hrows). simpl in Hc, Hlen.
    split; [done |]. split; [done |]. split; [done |].
    intros j row Hj. destruct (Hrows j row Hj)
      as (v0 & v1 & v2 & v3 & orig & H0 & H1 & H2 & H3 & Ho & ->).
    simpl in *.
    apply lookup_replicate in H0 as [-> _]. apply lookup_replicate in H1 as [-> _].
    rewrite list_lookup_fmap in H2. rewrite list_lookup_fmap in H3.
    destruct (xs !! j) as [x |]; [| done]. destruct (ys !! j) as [y |]; [| done].
    injection H2 as <-. injection H3 as <-. by exists x, y, orig.
Qed.

(** The same for the density-driven routine, which also takes exactly
    three numbers from the generator for every row. *)
Lemma pick_positions_per_density_Ok seds dens N outfile refimage Nrealize
    w t w' :
  pick_positions_per_density seds dens N outfile refimage Nrealize w
  = (Ok t, w') ->
  exists labels,
    bin_foreach_tile (metric <$> dens) N = Ok labels
    /\ (0 <= Nrealize)%Z
    /\ colnames t
       = "zeros" :: "ones"
         :: match refimage with
            | None => ["RA"; "DEC"]
            | Some _ => ["X"; "Y"]
            end ++ colnames seds
    /\ (forall n, rng w' n = rng w (3 * len t + n)%nat)
    /\ let K := length (remove_empty_bins (tiles_foreach_bin labels N)) in
       let repeated :=
         (rows seds ≫= replicate (Z.to_nat Nrealize)) ≫= replicate K in
       len t = length repeated
       /\ forall j row, rows t !! j = Some row ->
            exists x y orig,
              repeated !! j = Some orig
              /\ row = VFloat 0 :: VFloat 1 :: VFloat x :: VFloat y :: orig.
Proof.
  unfold pick_positions_per_density. intros H.
  apply bind_Ok in H as (labels & w1 & Hl & H). apply lift_Ok in Hl as [Hl ->].
  apply bind_Ok in H as (rep1 & w1 & Hr1 & H). apply lift_Ok in Hr1 as [Hr1 ->].
  apply np_repeat_Ok in Hr1 as [HNr ->].
  apply bind_Ok in H as (rep2 & w1 & Hr2 & H). apply lift_Ok in Hr2 as [Hr2 ->].
  apply np_repeat_Ok in Hr2 as [_ ->]. rewrite Nat2Z.id in H.
  apply bind_Ok in H as ([[ras decs] bi] & w1 & Hloop & H).
  exists labels. split; [done |]. split; [done |].
  set (tile_sets := remove_empty_bins (tiles_foreach_bin labels N)) in *.
  set (rep1 := rows seds ≫= replicate (Z.to_nat Nrealize)) in *.
  assert (Hrng : forall n,
             rng w1 n = rng w (3 * (length tile_sets * length rep1) + n)%nat).
  { enough (forall n, rng w1 n
              = rng w (3 * (length (enumerate tile_sets) * length rep1) + n)%nat)
      as Hfin.
    { unfold enumerate in Hfin. rewrite length_zip, length_seq in Hfin.
      intros n. rewrite Hfin. f_equal. lia. }
    revert Hloop.
    apply (for_each_ind (fun k (_ : arrays) w2 =>
             forall n, rng w2 n = rng w (3 * (k * length rep1) + n)%nat)).
    { intros n. done. }
    intros k [bin_index tile_set] [[ras1 decs1] bi1] w2 a' w3 _ Hinv Hin.
    enough (forall n, rng w3 n
              = rng w2 (3 * length (seq 0 (length rep1)) + n)%nat) as Hfin.
    { rewrite length_seq in Hfin. intros n. rewrite Hfin, Hinv. f_equal. lia. }
    revert Hin.
    apply (for_each_ind (fun i (_ : arrays) w4 =>
             forall n, rng w4 n = rng w2 (3 * i + n)%nat)).
    { intros n. done. }
    clear. intros i r [[ras decs] bi] w4 a' w5 _ Hinv H.
    apply bind_Ok in H as ([ra dec] & w6 & Hd & H).
    apply draw_radec_Ok in Hd as [_ Hd].
    apply bind_Ok in H as (ras' & w7 & Hs & H). apply lift_Ok in Hs as [_ ->].
    apply bind_Ok in H as (decs' & w7 & Hs & H). apply lift_Ok in Hs as [_ ->].
    apply ret_Ok in H as [_ ->]. intros n. rewrite Hd, Hinv. f_equal. lia. }
  assert (Hlen : length (rep1 ≫= replicate (length tile_sets))
                 = (length tile_sets * length rep1)%nat)
    by apply length_bind_replicate.
  destruct refimage as [wcs |].
  - apply assemble_Ok in H as (Hw & Hc & Hlt & Hrows). simpl in Hc, Hlt.
    split; [done |]. split.
    { intros n. rewrite Hw, Hrng.
      replace (len t) with (length tile_sets * length rep1)%nat
        by (unfold len in *; simpl in *; lia).
      done. }
    split; [done |].
    intros j row Hj. destruct (Hrows j row Hj)
      as (v0 & v1 & v2 & v3 & orig & H0 & H1 & H2 & H3 & Ho & ->).
    simpl in *.
    apply lookup_replicate in H0 as [-> _]. apply lookup_replicate in H1 as [-> _].
    rewrite !list_lookup_fmap in H2. rewrite !list_lookup_fmap in H3.
    destruct (zip_with wcs ras decs !! j) as [[x y] |]; [| done].
    injection H2 as <-. injection H3 as <-. by exists x, y, orig.
  - apply assemble_Ok in H as (Hw & Hc & Hlt & Hrows). simpl in Hc, Hlt.
    split; [done |]. split.
    { intros n. rewrite Hw, Hrng.
      replace (len t) with (length tile_sets * length rep1)%nat
        by (unfold len in *; simpl in *; lia).
      done. }
    split; [done |].
    intros j row Hj. destruct (Hrows j row Hj)
      as (v0 & v1 & v2 & v3 & orig & H0 & H1 & H2 & H3 & Ho & ->).
    simpl in *.
    apply lookup_replicate in H0 as [-> _]. apply lookup_replicate in H1 as [-> _].
    rewrite list_lookup_fmap in H2. rewrite list_lookup_fmap in H3.
    destruct (ras !! j) as [x |]; [| done]. destruct (decs !! j) as [y |]; [| done].
    injection H2 as <-. injection H3 as <-. by exists x, y, orig.
Qed.
End MapDrivenFacts.

Section MapDrivenClaims.
Import Binning MapDriven Specified Sample.
Local Open Scope Q_scope.

Lemma fst_Ok {A} (r : result A * world Q) a :
  r.1 = Ok a -> exists w', r = (Ok a, w').
Proof. destruct r as [r w']. simpl. intros ->. by exists w'. Qed.

Lemma elem_of_bind_replicate {A} (a : list A) n x :
  x ∈ a ≫= replicate n -> x ∈ a.
Proof.
  intros (y & Hx & Hy)%list_elem_of_bind.
  by apply elem_of_replicate in Hx as [-> _].
Qed.

(** What [np.repeat] twice over does: the row at position [p] is the
    star [p // (Nrealize * K)], so a bin holds a run of few stars and
    not one copy of each. *)
Lemma repeated_twice_lookup {A} (stars : list A) (Nrealize K p : nat) :
  (0 < Nrealize)%nat -> (0 < K)%nat ->
  ((stars ≫= replicate Nrealize) ≫= replicate K) !! p
  = stars !! (p / (Nrealize * K))%nat.
Proof.
  intros HN HK. rewrite !lookup_bind_replicate by done.
  by rewrite Nat.Div0.div_div, (Nat.mul_comm K).
Qed.

(** C7. For a star table of [M] rows, the table either map-driven
    routine returns has [M * Nrealize * K] rows, [K] the number of bins
    that have a tile. *)
Theorem output_row_count fuel seds map N_bins outfile refimage Nrealize w t :
  (pick_positions_per_background fuel seds map N_bins outfile refimage
     Nrealize w).1 = Ok t
  \/ (pick_positions_per_density seds map N_bins outfile refimage
        Nrealize w).1 = Ok t ->
  exists labels,
    bin_foreach_tile (metric <$> map) N_bins = Ok labels
    /\ (Z.of_nat (len t)
        = Z.of_nat (len seds) * Nrealize
          * Z.of_nat (length (remove_empty_bins
                                (tiles_foreach_bin labels N_bins))))%Z.
Proof.
  intros [H | H]; apply fst_Ok in H as [w' H].
  - apply pick_positions_per_background_Ok in H
      as (labels & xs & ys & Hl & HN & _ & _ & Hlen & _).
    exists labels. split; [done |]. rewrite Hlen.
    rewrite !length_bind_replicate. unfold len. lia.
  - apply pick_positions_per_density_Ok in H
      as (labels & Hl & HN & _ & _ & Hlen & _).
    exists labels. split; [done |]. rewrite Hlen.
    rewrite !length_bind_replicate. unfold len. lia.
Qed.

Lemma output_row_count_witness :
  exists t labels,
    (pick_positions_per_background 5 two_stars two_tiles 2 None None 3
       generator).1 = Ok t
    /\ bin_foreach_tile (metric <$> two_tiles) 2 = Ok labels
    /\ (Z.of_nat (len t)
        = Z.of_nat (len two_stars) * 3
          * Z.of_nat (length (remove_empty_bins (tiles_foreach_bin labels 2))))%Z.
Proof.
  eexists.
  assert (H : (pick_positions_per_background 5 two_stars two_tiles 2 None None
                 3 generator).1 = Ok _) by (vm_compute; reflexivity).
  destruct (output_row_count 5 two_stars two_tiles 2 None None 3 generator _
              (or_introl H)) as (labels & Hl & Hn).
  exists labels. split; [exact H |]. split; [exact Hl | exact Hn].
Defined.

(** C3 (code defect). The claim: the rows of bin 0 come first, then
    those of bin 1, and every bin holds the [Nrealize] copies of each
    star. The code repeats with [np.repeat] twice, which puts the copies
    of one star next to each other over all bins: for two stars, one
    realization and two bins the star rows are 20, 20, 21, 21, where
    the claimed order is 20, 21, 20, 21. The loops place rows 0 and 1
    in the tile of bin 0 (RA 1/2) and rows 2 and 3 in the tile of bin 1
    (RA 7/2): bin 0 tests the first star twice and the second never. *)
Theorem replication_repeats_stars_across_bins :
  exists t,
    (pick_positions_per_background 5 two_stars two_tiles 2 None None 1
       generator).1 = Ok t
    /\ rows t
       = [[VInt 0; VInt 1; VFloat (1 # 2); VFloat (-15 # 2); VFloat 20];
          [VInt 0; VInt 1; VFloat (1 # 2); VFloat (-15 # 2); VFloat 20];
          [VInt 0; VInt 1; VFloat (7 # 2); VFloat (11 # 2); VFloat 21];
          [VInt 0; VInt 1; VFloat (7 # 2); VFloat (11 # 2); VFloat 21]]
    /\ drop 4 <$> rows t <> replicated_as_specified (rows two_stars) 1 2
    /\ exists t',
        (pick_positions_per_density two_stars two_tiles 2 None None 1
           generator).1 = Ok t'
        /\ drop 4 <$> rows t' = drop 4 <$> rows t.
Proof.
  eexists. split; [vm_compute; reflexivity |]. split; [reflexivity |].
  split; [vm_compute; discriminate |].
  eexists. split; [vm_compute; reflexivity |]. reflexivity.
Qed.

(** C4, the claim as stated fails: no column of the returned table
    holds the index of the bin of its row. *)
Lemma output_has_no_bin_index_column :
  exists t,
    (pick_positions_per_background 5 two_stars two_tiles 2 None None 1
       generator).1 = Ok t
    /\ colnames t = ["zeros"; "ones"; "RA"; "DEC"; "mag"]
    /\ ~ carries_bin_index 2 t.
Proof.
  eexists. split; [vm_compute; reflexivity |]. split; [reflexivity |].
  intros [c Hc].
  pose proof (Hc 0%nat _ eq_refl) as H0. pose proof (Hc 2%nat _ eq_refl) as H2.
  do 5 (destruct c as [| c];
        [vm_compute in H0, H2;
         destruct H0 as [H0 | H0], H2 as [H2 | H2]; congruence |]).
  vm_compute in H0. destruct H0; congruence.
Qed.

(** C4 (amended). The table a map-driven routine returns has exactly
    four columns in front of those of the star table: [zeros], [ones]
    and the two coordinates ([RA], [DEC] without a reference image, [X],
    [Y] with one), and every row is these four values and then a row of
    the star table. The array [bin_indices] the loops fill is not made
    a column. *)
Theorem output_columns fuel seds map N_bins outfile refimage Nrealize w t :
  (pick_positions_per_background fuel seds map N_bins outfile refimage
     Nrealize w).1 = Ok t
  \/ (pick_positions_per_density seds map N_bins outfile refimage
        Nrealize w).1 = Ok t ->
  colnames t
  = "zeros" :: "ones"
    :: match refimage with
       | None => ["RA"; "DEC"]
       | Some _ => ["X"; "Y"]
       end ++ colnames seds
  /\ forall row, row ∈ rows t ->
       exists zero one x y orig,
         orig ∈ rows seds
         /\ row = zero :: one :: VFloat x :: VFloat y :: orig.
Proof.
  intros [H | H]; apply fst_Ok in H as [w' H].
  - apply pick_positions_per_background_Ok in H
      as (labels & xs & ys & _ & _ & Hc & _ & _ & Hrows).
    split; [done |]. intros row (j & Hj)%list_elem_of_lookup_1.
    destruct (Hrows j row Hj) as (x & y & orig & _ & _ & Ho & ->).
    exists (VInt 0), (VInt 1), x, y, orig. split; [| done].
    apply list_elem_of_lookup_2 in Ho.
    by do 2 apply elem_of_bind_replicate in Ho.
  - apply pick_positions_per_density_Ok in H
      as (labels & _ & _ & Hc & _ & _ & Hrows).
    split; [done |]. intros row (j & Hj)%list_elem_of_lookup_1.
    destruct (Hrows j row Hj) as (x & y & orig & Ho & ->).
    exists (VFloat 0), (VFloat 1), x, y, orig. split; [| done].
    apply list_elem_of_lookup_2 in Ho.
    by do 2 apply elem_of_bind_replicate in Ho.
Qed.

Lemma output_columns_witness :
  exists t,
    (pick_positions_per_density two_stars two_tiles 2 None (Some shifted) 1
       generator).1 = Ok t
    /\ colnames t = ["zeros"; "ones"; "X"; "Y"; "mag"].
Proof.
  eexists.
  assert (H : (pick_positions_per_density two_stars two_tiles 2 None
                 (Some shifted) 1 generator).1 = Ok _)
    by (vm_compute; reflexivity).
  split; [exact H |].
  exact (proj1 (output_columns 0 two_stars two_tiles 2 None (Some shifted) 1
                  generator _ (or_intror H))).
Defined.

(** C6, the claim as stated fails: without a reference image the
    background-driven routine returns a negative coordinate. *)
Lemma negative_coordinate_without_pixel_frame :
  exists t row,
    (pick_positions_per_background 5 two_stars two_tiles 2 None None 1
       generator).1 = Ok t
    /\ row ∈ rows t
    /\ row !! 3%nat = Some (VFloat (-15 # 2))
    /\ -15 # 2 < 0.
Proof.
  eexists. eexists. split; [vm_compute; reflexivity |].
  split; [apply list_elem_of_here |]. split; reflexivity.
Qed.

(** A turn of the loop with a pixel frame: a pair with a negative
    component is dropped and the loop draws again, from the generator
    as the dropped draw left it; another pair is the result. *)
Lemma draw_xy_turn fuel (wcs : WCS) bg tile_set w ra dec w1 :
  draw_radec bg tile_set w = (Ok (ra, dec), w1) ->
  ((wcs ra dec).1 < 0 \/ (wcs ra dec).2 < 0 ->
   draw_xy (S fuel) (Some wcs) bg tile_set w
   = draw_xy fuel (Some wcs) bg tile_set w1)
  /\ (0 <= (wcs ra dec).1 /\ 0 <= (wcs ra dec).2 ->
      draw_xy (S fuel) (Some wcs) bg tile_set w = (Ok (wcs ra dec), w1)).
Proof.
  intros Hd. simpl. rewrite (bind_Ok_intro _ _ _ _ _ Hd).
  destruct (wcs ra dec) as [x y]. simpl. split.
  - intros Hneg.
    destruct (Qle_bool 0 x) eqn:Ex; [| done].
    destruct (Qle_bool 0 y) eqn:Ey; [| done].
    apply Qle_bool_iff in Ex, Ey. lra.
  - intros [Hx Hy]. apply Qle_bool_iff in Hx, Hy. by rewrite Hx, Hy.
Qed.

(** The fuel only bounds the turns: a result stays with more of it. *)
Lemma draw_xy_more_fuel fuel k wcs bg tile_set w r w' :
  draw_xy fuel wcs bg tile_set w = (Ok r, w') ->
  draw_xy (fuel + k) wcs bg tile_set w = (Ok r, w').
Proof.
  revert w. induction fuel as [| fuel IH]; intros w H; [discriminate |].
  simpl in *. apply bind_Ok in H as ([ra dec] & w1 & Hd & H).
  rewrite (bind_Ok_intro _ _ _ _ _ Hd).
  destruct wcs as [frame |]; [| done].
  destruct (frame ra dec) as [x y].
  destruct (negb (Qle_bool 0 x) || negb (Qle_bool 0 y)); [by apply IH | done].
Qed.

(** C6 (amended). In the background-driven routine the sampling loop
    repeats until both components are at least 0 only when a pixel
    reference frame is supplied: a pair with a negative component is
    dropped and drawn again, a pair without one ends the loop, the
    bound on the turns changes no result, and every pair [X], [Y] of
    the returned table is not negative. Without a frame the loop leaves
    after its first draw and the pair [ra], [dec] is written whatever
    its sign. The density-driven routine accepts the first draw: it
    takes three numbers from the generator for every row, no more. *)
Theorem rejection_only_with_pixel_frame :
  (forall fuel seds bg N_bins outfile (wcs : WCS) Nrealize w t,
      (pick_positions_per_background fuel seds bg N_bins outfile (Some wcs)
         Nrealize w).1 = Ok t ->
      forall row, row ∈ rows t ->
        exists x y,
          row !! 2%nat = Some (VFloat x) /\ row !! 3%nat = Some (VFloat y)
          /\ 0 <= x /\ 0 <= y)
  /\ (forall fuel (wcs : WCS) bg tile_set w ra dec w1,
        draw_radec bg tile_set w = (Ok (ra, dec), w1) ->
        ((wcs ra dec).1 < 0 \/ (wcs ra dec).2 < 0 ->
         draw_xy (S fuel) (Some wcs) bg tile_set w
         = draw_xy fuel (Some wcs) bg tile_set w1)
        /\ (0 <= (wcs ra dec).1 /\ 0 <= (wcs ra dec).2 ->
            draw_xy (S fuel) (Some wcs) bg tile_set w
            = (Ok (wcs ra dec), w1)))
  /\ (forall fuel k wcs bg tile_set w r w',
        draw_xy fuel wcs bg tile_set w = (Ok r, w') ->
        draw_xy (fuel + k) wcs bg tile_set w = (Ok r, w'))
  /\ (forall fuel bg tile_set w,
        draw_xy (S fuel) None bg tile_set w = draw_radec bg tile_set w)
  /\ (forall seds dens N_bins outfile refimage Nrealize w t w',
        pick_positions_per_density seds dens N_bins outfile refimage Nrealize w
        = (Ok t, w') ->
        forall n, rng w' n = rng w (3 * len t + n)%nat).
Proof.
  split; [| split; [| split; [| split]]].
  - intros fuel seds bg N_bins outfile wcs Nrealize w t H row Hrow.
    apply fst_Ok in H as [w' H].
    apply pick_positions_per_background_Ok in H
      as (labels & xs & ys & _ & _ & _ & Hpos & _ & Hrows).
    destruct Hpos as [Hxs Hys]; [done |].
    apply list_elem_of_lookup_1 in Hrow as [j Hj].
    destruct (Hrows j row Hj) as (x & y & orig & Hx & Hy & _ & ->).
    exists x, y. repeat split.
    + by eapply Forall_lookup_1 in Hxs.
    + by eapply Forall_lookup_1 in Hys.
  - apply draw_xy_turn.
  - apply draw_xy_more_fuel.
  - apply draw_xy_first_draw.
  - intros seds dens N_bins outfile refimage Nrealize w t w' H.
    by apply pick_positions_per_density_Ok in H as (_ & _ & _ & _ & Hr & _).
Qed.

(** A run that drops a draw: the first position drawn is the corner of
    the tile, a negative pixel; the loop draws again and the row gets
    the centre. One turn is not enough for it. *)
Lemma rejection_only_with_pixel_frame_witness :
  exists t,
    (pick_positions_per_background 2 two_stars one_tile 1 None
       (Some left_quarter) 1 late_half).1 = Ok t
    /\ rows t !! 0%nat
       = Some [VInt 0; VInt 1; VFloat (2 # 8); VFloat (1 # 2); VFloat 20]
    /\ (forall row, row ∈ rows t ->
          exists x y,
            row !! 2%nat = Some (VFloat x) /\ row !! 3%nat = Some (VFloat y)
            /\ 0 <= x /\ 0 <= y)
    /\ draw_xy 2 (Some left_quarter) one_tile [0%nat] late_half
       = draw_xy 1 (Some left_quarter) one_tile [0%nat]
           (mkWorld (fun n => rng late_half (3 + n)%nat) ∅)
    /\ (pick_positions_per_background 1 two_stars one_tile 1 None
          (Some left_quarter) 1 late_half).1 = OutOfFuel.
Proof.
  eexists.
  assert (H : (pick_positions_per_background 2 two_stars one_tile 1 None
                 (Some left_quarter) 1 late_half).1 = Ok _)
    by (vm_compute; reflexivity).
  split; [exact H |]. split; [reflexivity |]. split; [| split].
  - exact (proj1 rejection_only_with_pixel_frame 2%nat two_stars one_tile 1%Z
             None left_quarter 1%Z late_half _ H).
  - apply (proj1 (proj1 (proj2 rejection_only_with_pixel_frame) 1%nat
                    left_quarter one_tile [0%nat] late_half 0 0
                    (mkWorld (fun n => rng late_half (3 + n)%nat) ∅)
                    eq_refl)).
    left. simpl. lra.
  - vm_compute. reflexivity.
Defined.
End MapDrivenClaims.

(** ** The neighbour routine *)

Section NeighborFacts.
Import Stdlib.Reals.Reals Stdlib.micromega.Lra Neighbor.
Local Open Scope R_scope.

Lemma Rltb_true a b : Rltb a b = true <-> a < b.
Proof. unfold Rltb. destruct (Rlt_dec a b); split; intros; done. Qed.

Lemma foldl_Rmin_le (xs : list R) a :
  foldl Rmin a xs <= a /\ Forall (fun x => foldl Rmin a xs <= x) xs.
Proof.
  revert a. induction xs as [| x xs IH]; intros a; simpl.
  - split; [lra | constructor].
  - destruct (IH (Rmin a x)) as [H1 H2].
    pose proof (Rmin_l a x). pose proof (Rmin_r a x).
    split; [lra |]. constructor; [lra | exact H2].
Qed.

Lemma foldl_Rmax_ge (xs : list R) a :
  a <= foldl Rmax a xs /\ Forall (fun x => x <= foldl Rmax a xs) xs.
Proof.
  revert a. induction xs as [| x xs IH]; intros a; simpl.
  - split; [lra | constructor].
  - destruct (IH (Rmax a x)) as [H1 H2].
    pose proof (Rmax_l a x). pose proof (Rmax_r a x).
    split; [lra |]. constructor; [lra | exact H2].
Qed.

Lemma foldl_Rmin_elem (xs : list R) a : foldl Rmin a xs ∈ a :: xs.
Proof.
  revert a. induction xs as [| x xs IH]; intros a; simpl.
  - apply list_elem_of_here.
  - specialize (IH (Rmin a x)). apply elem_of_cons in IH as [IH | IH].
    + rewrite IH. unfold Rmin. destruct (Rle_dec a x).
      * apply list_elem_of_here.
      * apply list_elem_of_further, list_elem_of_here.
    + by do 2 apply list_elem_of_further.
Qed.

(** [np.min] is the least coordinate of the catalog and one of them. *)
Lemma np_min_spec v m :
  np_min v = Ok m -> m ∈ v /\ forall x, x ∈ v -> m <= x.
Proof.
  destruct v as [| a xs]; simpl; intros [= <-]. split.
  - apply foldl_Rmin_elem.
  - destruct (foldl_Rmin_le xs a) as [Ha Hxs]. intros x Hx.
    apply elem_of_cons in Hx as [-> | Hx]; [done |].
    by apply (proj1 (Forall_forall _ _) Hxs).
Qed.

Lemma np_max_spec v m : np_max v = Ok m -> forall x, x ∈ v -> x <= m.
Proof.
  destruct v as [| a xs]; simpl; intros [= <-].
  destruct (foldl_Rmax_ge xs a) as [Ha Hxs]. intros x Hx.
  apply elem_of_cons in Hx as [-> | Hx]; [done |].
  by apply (proj1 (Forall_forall _ _) Hxs).
Qed.

(** Selecting both coordinate arrays with one mask selects the stars
    the mask holds for. *)
Lemma zip_mask_select {A B} (f : A -> B -> bool) (xs : list A) (ys : list B) :
  zip (mask_select (zip_with f xs ys) xs) (mask_select (zip_with f xs ys) ys)
  = filter (fun p => f p.1 p.2 = true) (zip xs ys).
Proof.
  unfold mask_select. revert ys.
  induction xs as [| x xs IH]; intros [| y ys]; try done.
  simpl. rewrite !filter_cons. simpl.
  destruct (f x y) eqn:E.
  - rewrite !decide_True by done. simpl. by rewrite IH.
  - rewrite !decide_False by done. apply IH.
Qed.

Lemma mapM_result_lookup {A B} (f : A -> result B) l bs i b :
  mapM_result f l = Ok bs -> bs !! i = Some b ->
  exists a, l !! i = Some a /\ f a = Ok b.
Proof.
  revert bs i. induction l as [| a l IH]; intros bs i H Hb; simpl in H.
  - injection H as <-. done.
  - apply rbind_Ok in H as (b0 & Hf & H).
    apply rbind_Ok in H as (bs0 & Hm & H). injection H as <-.
    destruct i as [| i]; simpl in *.
    + injection Hb as <-. by exists a.
    + by eapply IH.
Qed.

Lemma astype_int_nonneg x : 0 <= x -> (0 <= astype_int x)%Z.
Proof.
  intros Hx. unfold astype_int. destruct (Rle_dec 0 x); [| done].
  destruct (base_Int_part x) as [_ H].
  assert (-1 < IZR (Int_part x)) as H1 by lra.
  apply lt_IZR in H1. lia.
Qed.

Lemma getitem_int_nonneg (a : list R) i x :
  (0 <= i)%Z -> getitem_int a i = Ok x -> a !! Z.to_nat i = Some x.
Proof.
  intros Hi. unfold getitem_int, getitem.
  destruct (0 <=? i)%Z eqn:E; [| apply Z.leb_gt in E; lia].
  destruct (a !! Z.to_nat i); [| done]. by intros [= ->].
Qed.
End NeighborFacts.

Section NeighborRoutine.
Import Stdlib.Reals.Reals Stdlib.micromega.Lra Neighbor.
Local Open Scope R_scope.

Lemma random_Ok (n : nat) (w : world R) us w' :
  random n w = (Ok us, w') ->
  us = rng w <$> seq 0 n
  /\ files w' = files w /\ forall k, rng w' k = rng w (n + k)%nat.
Proof. unfold random. intros [= <- <-]. done. Qed.

Lemma fmap_shifted_seq (f g : nat -> R) (m n : nat) :
  (forall k, g k = f (m + k)%nat) -> g <$> seq 0 n = f <$> seq m n.
Proof.
  intros Hg. rewrite <- (Nat.add_0_r m) at 1. rewrite <- fmap_add_seq.
  rewrite <- list_fmap_compose. apply list_fmap_ext. intros _ k _. apply Hg.
Qed.

(** A call of [pick_positions] that returns: the positions of the
    catalog, the anchors, the new positions from the next [3 * n_asts]
    draws, and the file written over, four columns in front. *)
Lemma pick_positions_Ok (catalog : Catalog) filename separation refimage w u w' :
  pick_positions catalog filename separation refimage w = (Ok u, w') ->
  exists astmags x_all y_all xs ys new_x new_y t,
    files w !! filename = Some astmags
    /\ catalog_positions catalog refimage = Ok (Some x_all, Some y_all)
    /\ boundary_filter x_all y_all separation = Ok (xs, ys)
    /\ place_asts xs ys separation
         (rng w <$> seq 0 (len astmags))
         (rng w <$> seq (len astmags) (len astmags))
         (rng w <$> seq (len astmags + len astmags) (len astmags))
       = Ok (new_x, new_y)
    /\ files w' = <[filename := t]> (files w)
    /\ colnames t = "zeros" :: "ones" :: "X" :: "Y" :: colnames astmags
    /\ forall j row, rows t !! j = Some row ->
         exists x y orig,
           new_x !! j = Some x /\ new_y !! j = Some y
           /\ rows astmags !! j = Some orig
           /\ row = VInt 0 :: VInt 1 :: VFloat x :: VFloat y :: orig.
Proof.
  unfold pick_positions. intros H.
  apply bind_Ok in H as ([xo yo] & w1 & Hc & H). apply lift_Ok in Hc as [Hc ->].
  apply bind_Ok in H as (astmags & w1 & Hread & H).
  assert (files w !! filename = Some astmags /\ w1 = w) as [Hfile ->].
  { unfold ascii_read in Hread. destruct (files w !! filename); [| done].
    by injection Hread as <- <-. }
  apply bind_Ok in H as (x_all & w1 & Hx & H). apply lift_Ok in Hx as [Hx ->].
  apply bind_Ok in H as (y_all & w1 & Hy & H). apply lift_Ok in Hy as [Hy ->].
  destruct xo as [xo |]; [| done]. destruct yo as [yo |]; [| done].
  injection Hx as ->. injection Hy as ->.
  apply bind_Ok in H as ([xs ys] & w1 & Hf & H). apply lift_Ok in Hf as [Hf ->].
  apply bind_Ok in H as (u1 & w1 & H1 & H).
  apply random_Ok in H1 as (-> & Hf1 & Hr1).
  apply bind_Ok in H as (u2 & w2 & H2 & H).
  apply random_Ok in H2 as (-> & Hf2 & Hr2).
  apply bind_Ok in H as (u3 & w3 & H3 & H).
  apply random_Ok in H3 as (-> & Hf3 & Hr3).
  apply bind_Ok in H as ([new_x new_y] & w4 & Hp & H).
  apply lift_Ok in Hp as [Hp ->].
  apply bind_Ok in H as (t1 & w4 & Ha1 & H). apply lift_Ok in Ha1 as [Ha1 ->].
  apply bind_Ok in H as (t2 & w4 & Ha2 & H). apply lift_Ok in Ha2 as [Ha2 ->].
  apply bind_Ok in H as (t3 & w4 & Ha3 & H). apply lift_Ok in Ha3 as [Ha3 ->].
  apply bind_Ok in H as (t4 & w4 & Ha4 & H). apply lift_Ok in Ha4 as [Ha4 ->].
  unfold ascii_write in H. injection H as _ <-.
  rewrite (fmap_shifted_seq (rng w) (rng w1) (len astmags)) in Hp by done.
  rewrite (fmap_shifted_seq (rng w) (rng w2) (len astmags + len astmags)) in Hp
    by (intros k; rewrite Hr2, Hr1; f_equal; lia).
  exists astmags, x_all, y_all, xs, ys, new_x, new_y, t4.
  destruct (add_four_columns _ _ _ _ _ _ _ _ _ Ha1 Ha2 Ha3 Ha4)
    as (Hcols & _ & Hrows).
  split; [done |]. split; [done |]. split; [done |]. split; [done |].
  split; [simpl; congruence |]. split; [done |].
  intros j row Hj. destruct (Hrows j row Hj)
    as (v0 & v1 & v2 & v3 & orig & H0 & H1 & H2 & H3 & Ho & ->).
  simpl in H0, H1, H2, H3. rewrite list_lookup_fmap in H0, H1, H2, H3.
  destruct (new_x !! j) as [x |]; [| done].
  destruct (new_y !! j) as [y |]; [| done].
  injection H0 as <-. injection H1 as <-. injection H2 as <-. injection H3 as <-.
  by exists x, y, orig.
Qed.
End NeighborRoutine.

Section NeighborClaims.
Import Stdlib.Reals.Reals Stdlib.micromega.Lra Neighbor SampleCatalogs.
Local Open Scope R_scope.

(** X16. A catalog without the columns [X] and [x] never reaches
    either [RuntimeError]: the first condition holds whatever the
    columns are, so the positions stay unassigned. The call fails with
    [FileNotFoundError] when the file of the stars to place is missing,
    and with [UnboundLocalError], where the positions are read, when
    the file is there; nothing is drawn or written. *)
Lemma pick_positions_without_pixel_columns (catalog : Catalog) filename
    separation refimage w :
  catalog !! "X" = None -> catalog !! "x" = None ->
  pick_positions catalog filename separation refimage w
  = (Raise match files w !! filename with
           | Some _ => UnboundLocalError
           | None => FileNotFoundError
           end, w).
Proof.
  intros HX Hx. unfold pick_positions, catalog_positions, has_column.
  rewrite HX, Hx. simpl. unfold bind, lift, ascii_read. simpl.
  by destruct (files w !! filename).
Qed.

(** C2 (code defect). The claim: a catalog with no coordinate column
    fails with the error for missing coordinates, a catalog with sky
    coordinates only and no reference image with the error for a
    missing reference image, and no file is written. The code has both
    errors (lines 216 and 219) but cannot reach them: line 199 tests
    ['X' or 'x' in colnames], which is true for every catalog. Both
    calls fail instead with [UnboundLocalError] at line 229, where the
    positions are read; the files are as before the call. *)
Theorem missing_columns_raise_unbound_local :
  pick_positions sky_only "asts.txt" 5 None before_call
  = (Raise UnboundLocalError, before_call)
  /\ pick_positions no_coordinates "asts.txt" 5 None before_call
     = (Raise UnboundLocalError, before_call)
  /\ pick_positions no_coordinates "asts.txt" 5 (Some frame) before_call
     = (Raise UnboundLocalError, before_call)
  /\ catalog_positions sky_only None = Ok (None, None).
Proof. repeat split; reflexivity. Qed.

(** C10. With both spellings of the pixel columns in the catalog, the
    positions are those of the lowercase columns: the routine runs as
    on the catalog whose [X] and [Y] hold the lowercase values. *)
Theorem lowercase_columns_overwrite_uppercase (catalog : Catalog)
    (refimage : option WCS) (X Y x y : list R) :
  catalog !! "X" = Some X -> catalog !! "Y" = Some Y ->
  catalog !! "x" = Some x -> catalog !! "y" = Some y ->
  catalog_positions catalog refimage = Ok (Some x, Some y)
  /\ forall filename separation w,
       pick_positions catalog filename separation refimage w
       = pick_positions (<["X" := x]> (<["Y" := y]> catalog)) filename
           separation refimage w.
Proof.
  intros HX HY Hx Hy.
  assert (H1 : catalog_positions catalog refimage = Ok (Some x, Some y)).
  { unfold catalog_positions, has_column, column.
    rewrite HX, HY, Hx, Hy. reflexivity. }
  split; [exact H1 |]. intros filename separation w.
  unfold pick_positions. rewrite H1.
  unfold catalog_positions, has_column, column.
  rewrite lookup_insert_eq.
  rewrite !(lookup_insert_ne _ "X") by done.
  rewrite lookup_insert_eq.
  rewrite !(lookup_insert_ne _ "Y") by done.
  rewrite Hx, Hy. reflexivity.
Qed.

Lemma lowercase_columns_overwrite_uppercase_witness :
  catalog_positions both_spellings None = Ok (Some [5; 6], Some [7; 8]).
Proof.
  exact (proj1 (lowercase_columns_overwrite_uppercase both_spellings None
                  [1; 2] [3; 4] [5; 6] [7; 8]
                  eq_refl eq_refl eq_refl eq_refl)).
Defined.

(** C9. A catalog star is kept as an anchor exactly when its [X] lies
    strictly between [min(X) + separation + noise] and
    [max(X) - separation - noise] and its [Y] between the same bounds
    of [Y], the minima and maxima being those of the catalog's own
    coordinates. A star at the least [X] of the catalog is therefore
    not an anchor, for a separation that is not below [- noise]. *)
Theorem anchors_are_the_interior_stars (x_positions y_positions : list R)
    (separation : R) (xs' ys' : list R) :
  boundary_filter x_positions y_positions separation = Ok (xs', ys') ->
  exists min_x max_x min_y max_y,
    np_min x_positions = Ok min_x /\ np_max x_positions = Ok max_x
    /\ np_min y_positions = Ok min_y /\ np_max y_positions = Ok max_y
    /\ (min_x ∈ x_positions /\ forall x, x ∈ x_positions -> min_x <= x <= max_x)
    /\ (forall y, y ∈ y_positions -> min_y <= y <= max_y)
    /\ (forall ax ay,
          (ax, ay) ∈ zip xs' ys' <->
          (ax, ay) ∈ zip x_positions y_positions
          /\ min_x + separation + noise < ax < max_x - separation - noise
          /\ min_y + separation + noise < ay < max_y - separation - noise)
    /\ (0 <= separation + noise -> forall ay, (min_x, ay) ∉ zip xs' ys').
Proof.
  unfold boundary_filter, keep_mask. intros H.
  apply rbind_Ok in H as (keep & H & Hsel).
  apply rbind_Ok in H as (min_x & Hminx & H).
  apply rbind_Ok in H as (max_x & Hmaxx & H).
  apply rbind_Ok in H as (min_y & Hminy & H).
  apply rbind_Ok in H as (max_y & Hmaxy & H).
  destruct (length x_positions =? length y_positions)%nat; [| discriminate].
  simpl in H. injection H as <-. injection Hsel as <- <-.
  assert (Hiff : forall ax ay,
    (ax, ay) ∈ zip
      (mask_select (zip_with (fun x y =>
          Rltb (min_x + separation + noise) x
          && Rltb x (max_x - separation - noise)
          && Rltb (min_y + separation + noise) y
          && Rltb y (max_y - separation - noise)) x_positions y_positions)
        x_positions)
      (mask_select (zip_with (fun x y =>
          Rltb (min_x + separation + noise) x
          && Rltb x (max_x - separation - noise)
          && Rltb (min_y + separation + noise) y
          && Rltb y (max_y - separation - noise)) x_positions y_positions)
        y_positions) <->
    (ax, ay) ∈ zip x_positions y_positions
    /\ min_x + separation + noise < ax < max_x - separation - noise
    /\ min_y + separation + noise < ay < max_y - separation - noise).
  { intros ax ay. rewrite zip_mask_select, list_elem_of_filter. simpl.
    rewrite !andb_true_iff, !Rltb_true. tauto. }
  exists min_x, max_x, min_y, max_y.
  destruct (np_min_spec _ _ Hminx) as [Hxin Hxlo].
  destruct (np_min_spec _ _ Hminy) as [_ Hylo].
  pose proof (np_max_spec _ _ Hmaxx) as Hxhi.
  pose proof (np_max_spec _ _ Hmaxy) as Hyhi.
  split; [done |]. split; [done |]. split; [done |]. split; [done |].
  split; [split; [done | intros x Hx; split; auto] |].
  split; [intros y Hy; split; auto |].
  split; [exact Hiff |].
  intros Hsep ay Hin. apply Hiff in Hin as (_ & [Hlt _] & _). lra.
Qed.

Lemma anchors_are_the_interior_stars_witness :
  exists min_x max_x min_y max_y,
    np_min [0; 50; 100] = Ok min_x /\ np_max [0; 50; 100] = Ok max_x
    /\ np_min [0; 50; 100] = Ok min_y /\ np_max [0; 50; 100] = Ok max_y
    /\ (min_x ∈ [0; 50; 100]
        /\ forall x, x ∈ [0; 50; 100] -> min_x <= x <= max_x)
    /\ (forall y, y ∈ [0; 50; 100] -> min_y <= y <= max_y)
    /\ (forall ax ay,
          (ax, ay) ∈ zip [50] [50] <->
          (ax, ay) ∈ zip [0; 50; 100] [0; 50; 100]
          /\ min_x + 5 + noise < ax < max_x - 5 - noise
          /\ min_y + 5 + noise < ay < max_y - 5 - noise)
    /\ (0 <= 5 + noise -> forall ay, (min_x, ay) ∉ zip [50] [50]).
Proof.
  apply (anchors_are_the_interior_stars [0; 50; 100] [0; 50; 100] 5).
  unfold boundary_filter, keep_mask, np_min, np_max, noise.
  cbn [foldl rbind length Nat.eqb negb zip_with].
  rewrite (Rmin_left 0 50), (Rmin_left 0 100) by lra.
  rewrite (Rmax_right 0 50), (Rmax_right 50 100) by lra.
  unfold mask_select, Rltb.
  repeat (destruct (Rlt_dec _ _) as [? | ?]; try lra). reflexivity.
Defined.

(** C8. Every new position is the position of an anchor, a star of the
    filtered catalog, plus the offset [(r cos theta, r sin theta)] with
    [r = separation + u * noise] and [theta = u' * 2 * PI] for draws
    [u], [u'] of the generator. For draws in [[0, 1)] and a separation
    that is not negative, the distance from the new position to its
    anchor is [r], and [r] lies in [[separation, separation + noise)]. *)
Theorem new_positions_lie_in_the_annulus (x_positions y_positions : list R)
    (separation : R) (u_ind u_sep u_theta new_x new_y : list R) :
  0 <= separation ->
  Forall (fun u => 0 <= u < 1) u_ind ->
  Forall (fun u => 0 <= u < 1) u_sep ->
  place_asts x_positions y_positions separation u_ind u_sep u_theta
  = Ok (new_x, new_y) ->
  forall i x y,
    new_x !! i = Some x -> new_y !! i = Some y ->
    exists k ax ay u u',
      x_positions !! k = Some ax /\ y_positions !! k = Some ay
      /\ u_sep !! i = Some u /\ u_theta !! i = Some u'
      /\ let r := u * noise + separation in
         let theta := u' * 2 * PI in
         x = ax + r * cos theta /\ y = ay + r * sin theta
         /\ separation <= r < separation + noise
         /\ sqrt ((x - ax) * (x - ax) + (y - ay) * (y - ay)) = r.
Proof.
  intros Hsep Hind Husep. unfold place_asts. intros H i x y Hx Hy.
  apply rbind_Ok in H as (axs & Hax & H).
  apply rbind_Ok in H as (ays & Hay & H). injection H as <- <-.
  apply lookup_zip_with_Some in Hx as (ax & dx & -> & Hax_i & Hdx).
  apply lookup_zip_with_Some in Hy as (ay & dy & -> & Hay_i & Hdy).
  apply lookup_zip_with_Some in Hdx as (r & th & -> & Hr & Hth).
  apply lookup_zip_with_Some in Hdy as (r' & th' & -> & Hr' & Hth').
  rewrite Hr in Hr'. injection Hr' as <-. rewrite Hth in Hth'. injection Hth' as <-.
  rewrite list_lookup_fmap in Hr. destruct (u_sep !! i) as [u |] eqn:Eu; [| done].
  rewrite list_lookup_fmap in Hth.
  destruct (u_theta !! i) as [u' |] eqn:Eu'; [| done].
  injection Hr as <-. injection Hth as <-.
  destruct (mapM_result_lookup _ _ _ _ _ Hax Hax_i) as (iz & Hiz & Hgx).
  destruct (mapM_result_lookup _ _ _ _ _ Hay Hay_i) as (iz' & Hiz' & Hgy).
  rewrite Hiz in Hiz'. injection Hiz' as <-.
  rewrite list_lookup_fmap in Hiz.
  destruct (u_ind !! i) as [ui |] eqn:Eui; [| done]. injection Hiz as <-.
  assert (Hui : 0 <= ui < 1) by (by eapply Forall_lookup_1 in Hind).
  assert (Hu : 0 <= u < 1) by (by eapply Forall_lookup_1 in Husep).
  assert (Hnn : (0 <= astype_int (ui * INR (length x_positions)))%Z).
  { apply astype_int_nonneg. apply Rmult_le_pos; [lra | apply pos_INR]. }
  apply getitem_int_nonneg in Hgx; [| done].
  apply getitem_int_nonneg in Hgy; [| done].
  exists (Z.to_nat (astype_int (ui * INR (length x_positions)))), ax, ay, u, u'.
  unfold noise in *.
  split; [done |]. split; [done |]. split; [done |]. split; [done |].
  cbv zeta. split; [done |]. split; [done |]. split; [lra |].
  set (r := u * 3 + separation). set (theta := u' * 2 * PI).
  replace ((ax + r * cos theta - ax) * (ax + r * cos theta - ax)
           + (ay + r * sin theta - ay) * (ay + r * sin theta - ay))
    with (r * r * (Rsqr (sin theta) + Rsqr (cos theta)))
    by (unfold Rsqr; ring).
  rewrite sin2_cos2, Rmult_1_r. apply sqrt_square. unfold r. nra.
Qed.

Lemma new_positions_lie_in_the_annulus_witness :
  exists k ax ay u u',
    [50] !! k = Some ax /\ [50] !! k = Some ay
    /\ [1 / 2] !! 0%nat = Some u /\ [1 / 4] !! 0%nat = Some u'
    /\ let r := u * noise + 5 in
       let theta := u' * 2 * PI in
       50 + (1 / 2 * noise + 5) * cos (1 / 4 * 2 * PI) = ax + r * cos theta
       /\ 50 + (1 / 2 * noise + 5) * sin (1 / 4 * 2 * PI) = ay + r * sin theta
       /\ 5 <= r < 5 + noise
       /\ sqrt ((50 + (1 / 2 * noise + 5) * cos (1 / 4 * 2 * PI) - ax)
                * (50 + (1 / 2 * noise + 5) * cos (1 / 4 * 2 * PI) - ax)
                + (50 + (1 / 2 * noise + 5) * sin (1 / 4 * 2 * PI) - ay)
                  * (50 + (1 / 2 * noise + 5) * sin (1 / 4 * 2 * PI) - ay))
          = r.
Proof.
  apply (new_positions_lie_in_the_annulus [50] [50] 5 [0] [1 / 2] [1 / 4]
           [50 + (1 / 2 * noise + 5) * cos (1 / 4 * 2 * PI)]
           [50 + (1 / 2 * noise + 5) * sin (1 / 4 * 2 * PI)]).
  - lra.
  - repeat constructor; lra.
  - repeat constructor; lra.
  - unfold place_asts.
    assert (E : astype_int (0 * INR (length [50])) = 0%Z).
    { unfold astype_int. simpl. destruct (Rle_dec 0 (0 * 1)); [| lra].
      symmetry. apply Int_part_spec. simpl. lra. }
    cbn [fmap list_fmap]. rewrite E. reflexivity.
  - reflexivity.
  - reflexivity.
Defined.
End NeighborClaims.

(** * Further properties *)

(** ** TileGrouper *)

Section TileGrouperFacts.
Import Binning.

Lemma elem_of_nonzero (mask : list bool) i :
  i ∈ nonzero mask <-> mask !! i = Some true.
Proof.
  unfold nonzero. rewrite list_elem_of_filter, elem_of_seq. split.
  - by intros [H _].
  - intros H. split; [done |]. apply lookup_lt_Some in H. lia.
Qed.

Lemma lookup_tiles_foreach_bin labels N b tile_set :
  tiles_foreach_bin labels N !! b = Some tile_set ->
  Z.of_nat b < N
  /\ forall i, i ∈ tile_set <-> labels !! i = Some (Z.of_nat b + 1).
Proof.
  unfold tiles_foreach_bin. rewrite list_lookup_fmap.
  destruct (seqZ 0 N !! b) as [z |] eqn:E; [| done].
  apply lookup_seqZ in E as [-> Hb]. simpl. intros [= <-].
  split; [done |]. intros i. rewrite elem_of_nonzero, list_lookup_fmap.
  destruct (labels !! i) as [l |]; simpl; [| done].
  destruct (Z.eqb_spec l (0 + Z.of_nat b + 1)) as [-> | Hne].
  - split; intros _; f_equal; lia.
  - split; intros H; [discriminate |]. injection H as ->. lia.
Qed.

(** X3. The tiles of the bin [b] are exactly the tiles of label [b + 1]:
    a tile whose label is outside [[1, N_bins]] is in no bin, and no
    tile is in two bins. *)
Theorem tile_is_in_the_bin_of_its_label labels N_bins b tile_set :
  tiles_foreach_bin labels N_bins !! b = Some tile_set ->
  Z.of_nat b < N_bins
  /\ (forall i, i ∈ tile_set <-> labels !! i = Some (Z.of_nat b + 1))
  /\ (forall b' tile_set' i,
        tiles_foreach_bin labels N_bins !! b' = Some tile_set' ->
        i ∈ tile_set -> i ∈ tile_set' -> b' = b).
Proof.
  intros Hb. apply lookup_tiles_foreach_bin in Hb as [HN Hb].
  split; [done |]. split; [done |].
  intros b' ts' i Hb' Hi Hi'.
  apply lookup_tiles_foreach_bin in Hb' as [_ Hb'].
  apply Hb in Hi. apply Hb' in Hi'. rewrite Hi in Hi'.
  injection Hi' as Hi'. lia.
Qed.

Lemma tile_is_in_the_bin_of_its_label_witness :
  1 < 2
  /\ (forall i, i ∈ [2%nat] <-> [1; 3; 2] !! i = Some (Z.of_nat 1 + 1))
  /\ (forall b' tile_set' i,
        tiles_foreach_bin [1; 3; 2] 2 !! b' = Some tile_set' ->
        i ∈ [2%nat] -> i ∈ tile_set' -> b' = 1%nat).
Proof.
  exact (tile_is_in_the_bin_of_its_label [1; 3; 2] 2 1 [2%nat] eq_refl).
Defined.

Lemma surviving_bin_tiles labels N_bins tile_set :
  tile_set ∈ remove_empty_bins (tiles_foreach_bin labels N_bins) ->
  tile_set <> [] /\ forall i, i ∈ tile_set -> (i < length labels)%nat.
Proof.
  unfold remove_empty_bins. intros [Hne Hin]%list_elem_of_filter. split.
  - intros ->. by apply Hne.
  - apply list_elem_of_lookup_1 in Hin as [b Hb].
    apply lookup_tiles_foreach_bin in Hb as [_ Hb].
    intros i Hi%Hb. by apply lookup_lt_Some in Hi.
Qed.

(** X4. The bins that survive are at most [N_bins], none is empty, they
    keep the order of the bins, and every tile of a surviving bin is a
    row of the map. *)
Theorem surviving_bins_are_few_and_not_empty labels N_bins :
  (Z.of_nat (length (remove_empty_bins (tiles_foreach_bin labels N_bins)))
   <= Z.max 0 N_bins)
  /\ remove_empty_bins (tiles_foreach_bin labels N_bins)
     `sublist_of` tiles_foreach_bin labels N_bins
  /\ forall tile_set,
       tile_set ∈ remove_empty_bins (tiles_foreach_bin labels N_bins) ->
       tile_set <> []
       /\ forall i, i ∈ tile_set -> (i < length labels)%nat.
Proof.
  split; [| split].
  - unfold remove_empty_bins.
    pose proof (length_filter (fun tile_set : list nat => length tile_set ≠ 0%nat)
                  (tiles_foreach_bin labels N_bins)) as H.
    unfold tiles_foreach_bin in H at 2.
    rewrite length_fmap, length_seqZ in H. lia.
  - apply sublist_filter.
  - apply surviving_bin_tiles.
Qed.

Lemma surviving_bins_are_few_and_not_empty_witness :
  [0%nat] <> [] /\ forall i, i ∈ [0%nat] -> (i < length [1; 3; 2])%nat.
Proof.
  apply (proj2 (proj2 (surviving_bins_are_few_and_not_empty [1; 3; 2] 2))).
  vm_compute. apply list_elem_of_here.
Defined.
End TileGrouperFacts.

(** ** The loops, when they return *)

Section LoopFacts.
Context {F : Type}.

(** A loop whose every turn returns under an invariant returns. *)
Lemma for_each_total {A St} (I : nat -> St -> world F -> Prop)
    (xs : list A) (body : St -> A -> M F St) acc0 w0 :
  I 0%nat acc0 w0 ->
  (forall k x a w1,
      xs !! k = Some x -> I k a w1 ->
      exists a' w2, body a x w1 = (Ok a', w2) /\ I (S k) a' w2) ->
  exists acc w, for_each xs body acc0 w0 = (Ok acc, w) /\ I (length xs) acc w.
Proof.
  revert I acc0 w0. induction xs as [| x xs IH]; intros I acc0 w0 H0 Hstep.
  - by exists acc0, w0.
  - destruct (Hstep 0%nat x acc0 w0 eq_refl H0) as (a1 & w1 & Hb & H1).
    destruct (IH (fun k => I (S k)) a1 w1 H1) as (acc & w & Hrun & Hfin).
    { intros k y a w2 Hk. by apply (Hstep (S k)). }
    exists acc, w. split; [| done]. simpl. unfold bind. by rewrite Hb.
Qed.

Lemma lookup_enumerate {A} (l : list A) k b x :
  enumerate l !! k = Some (b, x) -> b = k /\ l !! k = Some x.
Proof.
  unfold enumerate. intros (Hb & Hx)%lookup_zip_Some.
  apply lookup_seq in Hb as [-> _]. done.
Qed.

Lemma setitem_Ok_lt {A} (a : list A) i x b :
  setitem a i x = Ok b -> (i < length a)%nat /\ b = <[i := x]> a.
Proof.
  unfold setitem. destruct (i <? length a)%nat eqn:E; [| discriminate].
  intros [= <-]. by apply Nat.ltb_lt in E.
Qed.

Lemma setitem_lt {A} (a : list A) i x :
  (i < length a)%nat -> setitem a i x = Ok (<[i := x]> a).
Proof.
  intros H. unfold setitem. apply Nat.ltb_lt in H. by rewrite H.
Qed.
End LoopFacts.

Section PlacementFacts.
Import Binning MapDriven Placement.
Local Open Scope Q_scope.

Lemma uniform_shift (w : world Q) k fs :
  uniform w -> uniform (mkWorld (fun n => rng w (k + n)%nat) fs).
Proof. intros H n. apply H. Qed.

Lemma choice_returns (a : list nat) (w : world Q) :
  a <> [] -> 0 <= rng w 0%nat < 1 ->
  exists tile,
    choice a w = (Ok tile, mkWorld (fun n => rng w (S n)) (files w))
    /\ tile ∈ a.
Proof.
  intros Ha [Hu0 Hu1]. unfold choice.
  destruct (length a =? 0)%nat eqn:E.
  { apply Nat.eqb_eq in E. by destruct a. }
  apply Nat.eqb_neq in E.
  set (x := rng w 0%nat * inject_Z (Z.of_nat (length a))).
  assert (Hlen : 0 < inject_Z (Z.of_nat (length a))).
  { change 0 with (inject_Z 0). rewrite <- Zlt_Qlt. lia. }
  assert (Hx0 : 0 <= x) by (unfold x; nra).
  assert (Hx1 : x < inject_Z (Z.of_nat (length a))) by (unfold x; nra).
  assert (0 <= Qfloor x < Z.of_nat (length a))%Z as [Hf0 Hf1].
  { split.
    - pose proof (Qlt_floor x) as H.
      assert (inject_Z 0 < inject_Z (Qfloor x + 1)) as H'
        by (eapply Qle_lt_trans; [exact Hx0 | exact H]).
      rewrite <- Zlt_Qlt in H'. lia.
    - pose proof (Qfloor_le x) as H.
      assert (inject_Z (Qfloor x) < inject_Z (Z.of_nat (length a))) as H'
        by (eapply Qle_lt_trans; [exact H | exact Hx1]).
      by rewrite <- Zlt_Qlt in H'. }
  destruct (lookup_lt_is_Some_2 a (Z.to_nat (Qfloor x))) as [tile Ht]; [lia |].
  exists tile. split; [| by eapply list_elem_of_lookup_2].
  unfold bind, random_sample, lift, getitem. fold x. by rewrite Ht.
Qed.

(** X5. [np.random.choice] on a tile set that is not empty returns one
    of its tiles and takes one number from the generator. *)
Theorem choice_picks_a_tile_of_the_set (a : list nat) (w : world Q) :
  a <> [] -> 0 <= rng w 0%nat < 1 ->
  exists tile,
    choice a w = (Ok tile, mkWorld (fun n => rng w (S n)) (files w))
    /\ tile ∈ a.
Proof. apply choice_returns. Qed.

Lemma choice_picks_a_tile_of_the_set_witness :
  exists tile,
    choice [3; 7]%nat Sample.generator
    = (Ok tile, mkWorld (fun n => rng Sample.generator (S n))
                  (files Sample.generator))
    /\ tile ∈ [3; 7]%nat.
Proof.
  apply (choice_picks_a_tile_of_the_set [3; 7]%nat Sample.generator).
  - discriminate.
  - simpl. lra.
Defined.

Lemma draw_radec_returns (bg : list Tile) (tile_set : list nat) (w : world Q) :
  uniform w -> tile_set <> [] ->
  (forall i, i ∈ tile_set -> (i < length bg)%nat) ->
  exists tile t,
    tile ∈ tile_set /\ bg !! tile = Some t
    /\ draw_radec bg tile_set w
       = (Ok (min_ra t + rng w 1%nat * (max_ra t - min_ra t),
              min_dec t + rng w 2%nat * (max_dec t - min_dec t)),
          mkWorld (fun n => rng w (3 + n)%nat) (files w))
    /\ (ordered t ->
        in_tile t (min_ra t + rng w 1%nat * (max_ra t - min_ra t))
                  (min_dec t + rng w 2%nat * (max_dec t - min_dec t))).
Proof.
  intros Hw Hts Hin.
  destruct (choice_returns tile_set w Hts (Hw 0%nat))
    as (tile & Hc & Htile).
  destruct (lookup_lt_is_Some_2 bg tile (Hin tile Htile)) as [t Ht].
  exists tile, t. split; [done |]. split; [done |]. split.
  - unfold draw_radec. rewrite (bind_Ok_intro _ _ _ _ _ Hc).
    unfold bind, lift, getitem, random_sample, ret.
    rewrite !list_lookup_fmap, Ht. simpl. reflexivity.
  - intros [Hra Hdec]. pose proof (Hw 1%nat). pose proof (Hw 2%nat).
    unfold in_tile. split; split; nra.
Qed.

(** X6. One draw of a position in a tile set that is not empty, of
    tiles of the map: it returns, the position is
    [min + u * (max - min)] in both coordinates for a tile of the set
    and the next two numbers of the generator, which puts it inside the
    bounding box of the tile when the bounds are in order. *)
Theorem position_is_inside_a_tile_of_the_set (bg : list Tile)
    (tile_set : list nat) (w : world Q) :
  uniform w -> tile_set <> [] ->
  (forall i, i ∈ tile_set -> (i < length bg)%nat) ->
  exists tile t,
    tile ∈ tile_set /\ bg !! tile = Some t
    /\ draw_radec bg tile_set w
       = (Ok (min_ra t + rng w 1%nat * (max_ra t - min_ra t),
              min_dec t + rng w 2%nat * (max_dec t - min_dec t)),
          mkWorld (fun n => rng w (3 + n)%nat) (files w))
    /\ (ordered t ->
        in_tile t (min_ra t + rng w 1%nat * (max_ra t - min_ra t))
                  (min_dec t + rng w 2%nat * (max_dec t - min_dec t))).
Proof. apply draw_radec_returns. Qed.

Lemma position_is_inside_a_tile_of_the_set_witness :
  exists tile t,
    tile ∈ [1%nat] /\ Sample.two_tiles !! tile = Some t
    /\ draw_radec Sample.two_tiles [1%nat] Sample.generator
       = (Ok (min_ra t
              + rng Sample.generator 1%nat * (max_ra t - min_ra t),
              min_dec t
              + rng Sample.generator 2%nat * (max_dec t - min_dec t)),
          mkWorld (fun n => rng Sample.generator (3 + n)%nat)
            (files Sample.generator))
    /\ (ordered t ->
        in_tile t
          (min_ra t + rng Sample.generator 1%nat * (max_ra t - min_ra t))
          (min_dec t + rng Sample.generator 2%nat * (max_dec t - min_dec t))).
Proof.
  apply (position_is_inside_a_tile_of_the_set Sample.two_tiles [1%nat]
           Sample.generator).
  - intros n. simpl. lra.
  - discriminate.
  - intros i Hi. apply list_elem_of_singleton in Hi as ->. simpl. lia.
Defined.
End PlacementFacts.

Section PlacementLoops.
Import Binning MapDriven Placement.
Local Open Scope Q_scope.

Lemma draw_radec_placed bg tile_set w ra dec w' :
  uniform w -> Forall ordered bg ->
  draw_radec bg tile_set w = (Ok (ra, dec), w') ->
  placed_in bg None tile_set (ra, dec) /\ uniform w'.
Proof.
  intros Hw Hbg H.
  assert (Hts : tile_set <> []).
  { intros ->. by vm_compute in H. }
  assert (Hin : forall i, i ∈ tile_set -> (i < length bg)%nat \/ True)
    by (intros; by right).
  unfold draw_radec in H.
  apply bind_Ok in H as (tile & w1 & Hc & H).
  destruct (choice_returns tile_set w Hts (Hw 0%nat))
    as (tile' & Hc' & Htile).
  rewrite Hc in Hc'. injection Hc' as <- ->.
  apply bind_Ok in H as (ra0 & w2 & H0 & H). apply lift_Ok in H0 as [H0 ->].
  unfold getitem in H0. rewrite list_lookup_fmap in H0.
  destruct (bg !! tile) as [t |] eqn:Et; [| done]. simpl in H0.
  injection H0 as <-.
  unfold bind, random_sample, lift, getitem, ret in H.
  rewrite !list_lookup_fmap, Et in H. simpl in H. injection H as <- <- <-.
  pose proof (proj1 (Forall_forall _ _) Hbg t
                (list_elem_of_lookup_2 _ _ _ Et)) as [Hra Hdec].
  pose proof (Hw 1%nat). pose proof (Hw 2%nat).
  split.
  - exists tile, t, (min_ra t + rng w 1%nat * (max_ra t - min_ra t)),
      (min_dec t + rng w 2%nat * (max_dec t - min_dec t)).
    split; [done |]. split; [done |]. split; [| done].
    unfold in_tile. split; split; nra.
  - intros n. apply (Hw (S (S (S n)))).
Qed.

Lemma draw_xy_placed fuel wcs bg tile_set w x y w' :
  uniform w -> Forall ordered bg ->
  draw_xy fuel wcs bg tile_set w = (Ok (x, y), w') ->
  placed_in bg wcs tile_set (x, y) /\ uniform w'.
Proof.
  intros Hw Hbg. revert w Hw.
  induction fuel as [| fuel IH]; intros w Hw H; [discriminate |].
  simpl in H. apply bind_Ok in H as ([ra dec] & w1 & Hd & H).
  apply draw_radec_placed in Hd as [Hp Hw1]; [| done | done].
  destruct wcs as [frame |].
  - destruct (frame ra dec) as [x' y'] eqn:Ef.
    destruct (negb (Qle_bool 0 x') || negb (Qle_bool 0 y')); [by eapply IH |].
    apply ret_Ok in H as [[= <- <-] ->]. split; [| done].
    destruct Hp as (tile & t & ra' & dec' & Ht & Hb & Hin & [= -> ->]).
    by exists tile, t, ra', dec'.
  - apply ret_Ok in H as [[= <- <-] ->]. done.
Qed.

(** The loops fill the row [j] with a position drawn in the tile set of
    the bin [j // Nseds_per_region], whatever the way of drawing. *)
Lemma place_rows_spec (G : world Q -> Prop) (Post : list nat -> Q * Q -> Prop)
    draw tile_sets Nseds xs0 ys0 bi0 w xs ys bi w' :
  (forall ts w1 r w2, G w1 -> draw ts w1 = (Ok r, w2) -> Post ts r /\ G w2) ->
  G w ->
  place_rows draw tile_sets Nseds (xs0, ys0, bi0) w = (Ok (xs, ys, bi), w') ->
  G w' /\ length xs = length xs0 /\ length ys = length ys0
  /\ forall j, (j < length tile_sets * Nseds)%nat ->
       exists ts x y,
         tile_sets !! (j / Nseds)%nat = Some ts
         /\ xs !! j = Some x /\ ys !! j = Some y /\ Post ts (x, y).
Proof.
  intros Hdraw HG. unfold place_rows.
  pose (Row := fun (a : arrays) (j : nat) =>
               exists ts x y,
                 tile_sets !! (j / Nseds)%nat = Some ts
                 /\ a.1.1 !! j = Some x /\ a.1.2 !! j = Some y
                 /\ Post ts (x, y)).
  pose (I := fun (m : nat) (a : arrays) (w1 : world Q) =>
               G w1 /\ length a.1.1 = length xs0 /\ length a.1.2 = length ys0
               /\ forall j, (j < m)%nat -> Row a j).
  intros Hrun.
  enough (I (length (enumerate tile_sets) * Nseds)%nat (xs, ys, bi) w') as Hfin.
  { unfold enumerate in Hfin. rewrite length_zip, length_seq in Hfin.
    rewrite Nat.min_id in Hfin. exact Hfin. }
  revert Hrun.
  apply (for_each_ind (fun k a w1 => I (k * Nseds)%nat a w1)).
  { repeat split; try done. intros j Hj. lia. }
  intros k [b ts] [[xs1 ys1] bi1] w1 a' w2 Hk Hinv Hin.
  apply lookup_enumerate in Hk as [-> Hts].
  enough (I (k * Nseds + length (seq 0 Nseds))%nat a' w2) as Hfin.
  { rewrite length_seq in Hfin. simpl. by rewrite Nat.add_comm. }
  revert Hin.
  apply (for_each_ind (fun i a w3 => I (k * Nseds + i)%nat a w3)).
  { by rewrite Nat.add_0_r. }
  clear xs1 ys1 bi1 w1 Hinv a' w2.
  intros i i' [[xs1 ys1] bi1] w1 a' w2 Hi (HG1 & Lx & Ly & Hrows) H.
  apply lookup_seq in Hi as [-> Hi]. simpl in Lx, Ly.
  apply bind_Ok in H as ([x y] & w3 & Hd & H).
  apply Hdraw in Hd as [Hpost HG3]; [| done].
  apply bind_Ok in H as (xs' & w4 & Hsx & H). apply lift_Ok in Hsx as [Hsx ->].
  apply bind_Ok in H as (ys' & w4 & Hsy & H). apply lift_Ok in Hsy as [Hsy ->].
  apply ret_Ok in H as [-> ->].
  apply setitem_Ok_lt in Hsx as [Hjx ->]. apply setitem_Ok_lt in Hsy as [Hjy ->].
  split; [done |]. simpl. rewrite !length_insert.
  split; [done |]. split; [done |].
  intros j Hj. destruct (decide (j = k * Nseds + i)%nat) as [-> | Hne].
  - exists ts, x, y. simpl. rewrite !list_lookup_insert_eq by done.
    split; [| done].
    rewrite Nat.div_add_l by lia. rewrite Nat.div_small by lia.
    by rewrite Nat.add_0_r.
  - destruct (Hrows j) as (ts' & x' & y' & H1 & H2 & H3 & H4); [lia |].
    exists ts', x', y'. simpl in *.
    by rewrite !list_lookup_insert_ne by done.
Qed.

(** The loops return when every draw returns and the arrays are long
    enough. *)
Lemma place_rows_total (G : world Q -> Prop) draw tile_sets Nseds xs0 ys0 bi0 w :
  (forall ts w1, ts ∈ tile_sets -> G w1 ->
     exists r w2, draw ts w1 = (Ok r, w2) /\ G w2) ->
  G w ->
  (length tile_sets * Nseds <= length xs0)%nat ->
  (length tile_sets * Nseds <= length ys0)%nat ->
  exists a w', place_rows draw tile_sets Nseds (xs0, ys0, bi0) w = (Ok a, w').
Proof.
  intros Hdraw HG Lx Ly. unfold place_rows.
  pose (I := fun (a : arrays) (w1 : world Q) =>
               G w1 /\ length a.1.1 = length xs0
               /\ length a.1.2 = length ys0).
  enough (exists a w',
             for_each (enumerate tile_sets)
               (fun (a : arrays) bt =>
                  let '(xs, ys, bin_indices) := a in
                  let '(bin_index, tile_set) := bt in
                  let start := (bin_index * Nseds)%nat in
                  let stop := (start + Nseds)%nat in
                  let bin_indices :=
                    set_slice bin_indices start stop
                      (inject_Z (Z.of_nat bin_index)) in
                  for_each (seq 0 Nseds)
                    (fun (a : arrays) i =>
                       let '(xs, ys, bin_indices) := a in
                       let* (x, y) := draw tile_set in
                       let j := (bin_index * Nseds + i)%nat in
                       let* xs := lift (setitem xs j x) in
                       let* ys := lift (setitem ys j y) in
                       ret (xs, ys, bin_indices))
                    (xs, ys, bin_indices))
               (xs0, ys0, bi0) w = (Ok a, w')
             /\ I a w') as (a & w' & Hrun & _) by eauto.
  apply (for_each_total (fun _ a w1 => I a w1)).
  { by repeat split. }
  intros k [b ts] [[xs1 ys1] bi1] w1 Hk Hinv.
  apply lookup_enumerate in Hk as [-> Hts].
  assert (Hk : (k < length tile_sets)%nat) by (by eapply lookup_lt_Some).
  apply (for_each_total (fun _ a w2 => I a w2)).
  { exact Hinv. }
  clear xs1 ys1 bi1 w1 Hinv.
  intros i i' [[xs1 ys1] bi1] w1 Hi (HG1 & Lx1 & Ly1).
  apply lookup_seq in Hi as [-> Hi]. simpl in Lx1, Ly1.
  destruct (Hdraw ts w1) as ([x y] & w2 & Hd & HG2);
    [by eapply list_elem_of_lookup_2 | done |].
  assert (k * Nseds + i < length tile_sets * Nseds)%nat as Hj by nia.
  exists (<[(k * Nseds + i)%nat := x]> xs1, <[(k * Nseds + i)%nat := y]> ys1,
          bi1), w2.
  split.
  - rewrite (bind_Ok_intro _ _ _ _ _ Hd). unfold bind, lift, ret.
    rewrite !setitem_lt by lia. reflexivity.
  - split; [done |]. simpl. by rewrite !length_insert.
Qed.
End PlacementLoops.

Section PlacementClaims.
Import Binning MapDriven Placement.
Local Open Scope Q_scope.

Lemma background_rows fuel seds bg N outfile refimage Nrealize w t w' :
  uniform w -> Forall ordered bg ->
  pick_positions_per_background fuel seds bg N outfile refimage Nrealize w
  = (Ok t, w') ->
  exists labels,
    bin_foreach_tile (metric <$> bg) N = Ok labels
    /\ forall j row, rows t !! j = Some row ->
         exists tile_set x y,
           remove_empty_bins (tiles_foreach_bin labels N)
             !! (j / (Z.to_nat Nrealize * len seds))%nat = Some tile_set
           /\ row !! 2%nat = Some (VFloat x) /\ row !! 3%nat = Some (VFloat y)
           /\ placed_in bg refimage tile_set (x, y).
Proof.
  intros Hw Hbg. unfold pick_positions_per_background. intros H.
  apply bind_Ok in H as (labels & w1 & Hl & H). apply lift_Ok in Hl as [Hl ->].
  apply bind_Ok in H as (rep1 & w1 & Hr1 & H). apply lift_Ok in Hr1 as [Hr1 ->].
  apply np_repeat_Ok in Hr1 as [HNr ->].
  apply bind_Ok in H as (rep2 & w1 & Hr2 & H). apply lift_Ok in Hr2 as [Hr2 ->].
  apply np_repeat_Ok in Hr2 as [_ ->]. rewrite Nat2Z.id in H.
  apply bind_Ok in H as ([[xs ys] bi] & w1 & Hloop & H).
  exists labels. split; [done |].
  set (tile_sets := remove_empty_bins (tiles_foreach_bin labels N)) in *.
  set (rep1 := rows seds ≫= replicate (Z.to_nat Nrealize)) in *.
  change (place_rows (draw_xy fuel refimage bg) tile_sets (length rep1)
            (replicate (length (rep1 ≫= replicate (length tile_sets))) 0,
             replicate (length (rep1 ≫= replicate (length tile_sets))) 0,
             replicate (length (rep1 ≫= replicate (length tile_sets))) 0) w
          = (Ok (xs, ys, bi), w1)) in Hloop.
  apply (place_rows_spec uniform (placed_in bg refimage)) in Hloop
    as (_ & _ & _ & Hrows); [| | done].
  2: { intros ts w2 [x y] w3 Hw2 Hd. by eapply draw_xy_placed. }
  assert (Hlen : length rep1 = (Z.to_nat Nrealize * len seds)%nat)
    by apply length_bind_replicate.
  assert (Hplaced : forall j (row : list (value Q)) v0 v1 orig,
             (rep1 ≫= replicate (length tile_sets)) !! j = Some orig ->
             (VFloat <$> xs) !! j = Some v0 -> (VFloat <$> ys) !! j = Some v1 ->
             row !! 2%nat = Some v0 -> row !! 3%nat = Some v1 ->
             exists tile_set x y,
               tile_sets !! (j / (Z.to_nat Nrealize * len seds))%nat
               = Some tile_set
               /\ row !! 2%nat = Some (VFloat x)
               /\ row !! 3%nat = Some (VFloat y)
               /\ placed_in bg refimage tile_set (x, y)).
  { intros j row v0 v1 orig Ho Hx Hy H2 H3.
    destruct (Hrows j) as (ts & x & y & Hts & Hxj & Hyj & Hp).
    { apply lookup_lt_Some in Ho. by rewrite length_bind_replicate in Ho. }
    rewrite list_lookup_fmap, Hxj in Hx. rewrite list_lookup_fmap, Hyj in Hy.
    injection Hx as <-. injection Hy as <-.
    exists ts, x, y. by rewrite <- Hlen. }
  destruct refimage as [wcs |];
    apply assemble_Ok in H as (_ & _ & _ & Ht);
    intros j row Hj;
    destruct (Ht j row Hj)
      as (v0 & v1 & v2 & v3 & orig & _ & _ & H2 & H3 & Ho & ->);
    by eapply Hplaced.
Qed.

Lemma density_rows seds dens N outfile refimage Nrealize w t w' :
  uniform w -> Forall ordered dens ->
  pick_positions_per_density seds dens N outfile refimage Nrealize w
  = (Ok t, w') ->
  exists labels,
    bin_foreach_tile (metric <$> dens) N = Ok labels
    /\ forall j row, rows t !! j = Some row ->
         exists tile_set x y,
           remove_empty_bins (tiles_foreach_bin labels N)
             !! (j / (Z.to_nat Nrealize * len seds))%nat = Some tile_set
           /\ row !! 2%nat = Some (VFloat x) /\ row !! 3%nat = Some (VFloat y)
           /\ placed_in dens refimage tile_set (x, y).
Proof.
  intros Hw Hbg. unfold pick_positions_per_density. intros H.
  apply bind_Ok in H as (labels & w1 & Hl & H). apply lift_Ok in Hl as [Hl ->].
  apply bind_Ok in H as (rep1 & w1 & Hr1 & H). apply lift_Ok in Hr1 as [Hr1 ->].
  apply np_repeat_Ok in Hr1 as [HNr ->].
  apply bind_Ok in H as (rep2 & w1 & Hr2 & H). apply lift_Ok in Hr2 as [Hr2 ->].
  apply np_repeat_Ok in Hr2 as [_ ->]. rewrite Nat2Z.id in H.
  apply bind_Ok in H as ([[ras decs] bi] & w1 & Hloop & H).
  exists labels. split; [done |].
  set (tile_sets := remove_empty_bins (tiles_foreach_bin labels N)) in *.
  set (rep1 := rows seds ≫= replicate (Z.to_nat Nrealize)) in *.
  change (place_rows (draw_radec dens) tile_sets (length rep1)
            (replicate (length (rep1 ≫= replicate (length tile_sets))) 0,
             replicate (length (rep1 ≫= replicate (length tile_sets))) 0,
             replicate (length (rep1 ≫= replicate (length tile_sets))) 0) w
          = (Ok (ras, decs, bi), w1)) in Hloop.
  apply (place_rows_spec uniform (placed_in dens None)) in Hloop
    as (_ & _ & _ & Hrows); [| | done].
  2: { intros ts w2 [x y] w3 Hw2 Hd. by eapply draw_radec_placed. }
  assert (Hlen : length rep1 = (Z.to_nat Nrealize * len seds)%nat)
    by apply length_bind_replicate.
  destruct refimage as [wcs |];
    apply assemble_Ok in H as (_ & _ & _ & Ht);
    intros j row Hj;
    destruct (Ht j row Hj)
      as (v0 & v1 & v2 & v3 & orig & _ & _ & H2 & H3 & Ho & ->);
    cbn [rows] in Ho;
    (destruct (Hrows j) as (ts & ra & dec & Hts & Hra & Hdec & Hp);
     [apply lookup_lt_Some in Ho; by rewrite length_bind_replicate in Ho |]);
    simpl in H2, H3; rewrite <- Hlen.
  - rewrite !list_lookup_fmap in H2. rewrite !list_lookup_fmap in H3.
    rewrite lookup_zip_with, Hra, Hdec in H2, H3. simpl in H2, H3.
    injection H2 as <-. injection H3 as <-.
    exists ts, (wcs ra dec).1, (wcs ra dec).2. repeat split; try done.
    destruct Hp as (tile & tl & ra' & dec' & H1 & H4 & H5 & [= -> ->]).
    exists tile, tl, ra', dec'. repeat split; try done; try apply H5.
    by destruct (wcs ra' dec').
  - rewrite list_lookup_fmap, Hra in H2. rewrite list_lookup_fmap, Hdec in H3.
    injection H2 as <-. injection H3 as <-.
    by exists ts, ra, dec.
Qed.

(** X7. Every row of the table a map-driven routine returns is placed
    in its bin: the row [j] belongs to the surviving bin
    [j // (Nrealize * M)], and its coordinates come from a position
    inside the bounding box of a tile of that bin, through the pixel
    frame when a reference image is given. The generator draws in
    [[0, 1)] and the bounds of the tiles are in order. *)
Theorem rows_are_placed_in_their_bin fuel seds map N_bins outfile refimage
    Nrealize w t :
  uniform w -> Forall ordered map ->
  (pick_positions_per_background fuel seds map N_bins outfile refimage
     Nrealize w).1 = Ok t
  \/ (pick_positions_per_density seds map N_bins outfile refimage
        Nrealize w).1 = Ok t ->
  exists labels,
    bin_foreach_tile (metric <$> map) N_bins = Ok labels
    /\ forall j row, rows t !! j = Some row ->
         exists tile_set x y,
           remove_empty_bins (tiles_foreach_bin labels N_bins)
             !! (j / (Z.to_nat Nrealize * len seds))%nat = Some tile_set
           /\ row !! 2%nat = Some (VFloat x) /\ row !! 3%nat = Some (VFloat y)
           /\ placed_in map refimage tile_set (x, y).
Proof.
  intros Hw Hmap [H | H]; apply fst_Ok in H as [w' H].
  - by eapply background_rows.
  - by eapply density_rows.
Qed.
End PlacementClaims.

(** ** The routines return *)

Section ReturnFacts.
Context {F : Type}.

Lemma elem_of_insert_at {A} i (x y : A) l :
  y ∈ insert_at i x l -> y = x \/ y ∈ l.
Proof.
  unfold insert_at. rewrite elem_of_app, elem_of_cons.
  intros [H | [H | H]]; [right | by left | right];
    rewrite <- (take_drop i l), elem_of_app; auto.
Qed.

Lemma add_column_returns (c : Column F) i t :
  name c ∉ colnames t -> length (data c) = len t ->
  add_column c i t
  = Ok (mkTable (insert_at i (name c) (colnames t))
          (zip_with (insert_at i) (data c) (rows t))).
Proof.
  intros Hn Hl. unfold add_column.
  rewrite bool_decide_eq_false_2 by done.
  apply Nat.eqb_eq in Hl. by rewrite Hl.
Qed.

Lemma np_repeat_nonneg {A} (a : list A) n :
  0 <= n -> np_repeat a n = Ok (a ≫= replicate (Z.to_nat n)).
Proof.
  intros Hn. unfold np_repeat. apply Z.ltb_ge in Hn. by rewrite Hn.
Qed.

Lemma bind_lift_Ok {A B} (r : result A) (k : A -> M F B) w a :
  r = Ok a -> bind (lift r) k w = k a w.
Proof. by intros ->. Qed.
End ReturnFacts.

Section Returns.
Import Binning MapDriven Placement.
Local Open Scope Q_scope.

(** Four columns of new names and of the length of the table enter. *)
Lemma add_columns_returns (c0 c1 c2 c3 : Column Q) t w :
  NoDup [name c0; name c1; name c2; name c3] ->
  Forall (fun c => (name c ∉ colnames t) /\ length (data c) = len t)
    [c0; c1; c2; c3] ->
  exists t', add_columns [c0; c1; c2; c3] t w = (Ok t', w).
Proof.
  intros Hnd Hc.
  apply NoDup_cons in Hnd as [N0 Hnd]. apply NoDup_cons in Hnd as [N1 Hnd].
  apply NoDup_cons in Hnd as [N2 _].
  apply Forall_cons in Hc as [[F0 L0] Hc]. apply Forall_cons in Hc as [[F1 L1] Hc].
  apply Forall_cons in Hc as [[F2 L2] Hc]. apply Forall_cons in Hc as [[F3 L3] _].
  unfold add_columns, enumerate. simpl.
  pose proof (add_column_returns c0 0 t F0 L0) as H0.
  set (t1 := mkTable (insert_at 0 (name c0) (colnames t))
               (zip_with (insert_at 0) (data c0) (rows t))) in *.
  assert (E1 : len t1 = len t) by (by eapply add_column_len).
  assert (F1' : name c1 ∉ colnames t1).
  { simpl. intros [E | ?]%elem_of_insert_at; [| done].
    apply N0. rewrite <- E. set_solver. }
  pose proof (add_column_returns c1 1 t1 F1' ltac:(lia)) as H1.
  set (t2 := mkTable (insert_at 1 (name c1) (colnames t1))
               (zip_with (insert_at 1) (data c1) (rows t1))) in *.
  assert (E2 : len t2 = len t1) by (by eapply add_column_len).
  assert (F2' : name c2 ∉ colnames t2).
  { simpl. intros [E | [E | ?]%elem_of_insert_at]%elem_of_insert_at;
      [| | done].
    - apply N1. rewrite <- E. set_solver.
    - apply N0. rewrite <- E. set_solver. }
  pose proof (add_column_returns c2 2 t2 F2' ltac:(lia)) as H2.
  set (t3 := mkTable (insert_at 2 (name c2) (colnames t2))
               (zip_with (insert_at 2) (data c2) (rows t2))) in *.
  assert (E3 : len t3 = len t2) by (by eapply add_column_len).
  assert (F3' : name c3 ∉ colnames t3).
  { simpl.
    intros [E | [E | [E | ?]%elem_of_insert_at]%elem_of_insert_at]
      %elem_of_insert_at; [| | | done].
    - apply N2. rewrite <- E. set_solver.
    - apply N1. rewrite <- E. set_solver.
    - apply N0. rewrite <- E. set_solver. }
  pose proof (add_column_returns c3 3 t3 F3' ltac:(lia)) as H3.
  eexists. unfold bind, lift, ret. rewrite H0, H1, H2, H3. reflexivity.
Qed.

Lemma formats_fit_numeric ks (t : Table Q) :
  numeric t -> formats_fit ks t = true.
Proof.
  unfold numeric, formats_fit. intros H.
  apply forallb_forall. intros row Hrow%list_elem_of_In.
  pose proof (proj1 (Forall_forall _ _) H row Hrow) as Hvals.
  apply forallb_forall. intros [k v] Hkv%list_elem_of_In.
  apply elem_of_zip_r in Hkv. simpl.
  rewrite (proj1 (Forall_forall _ _) Hvals v Hkv). apply orb_true_r.
Qed.

(** The file is written when no string stands in the table, and
    nothing is asked when no file is given. *)
Lemma write_if_given_returns ks (t : Table Q) outfile w :
  given outfile = None \/ numeric t ->
  exists w', write_if_given ks t outfile w = (Ok tt, w') /\ rng w' = rng w.
Proof.
  unfold write_if_given, ascii_write_formats. intros [-> | Hnum].
  - by eexists.
  - rewrite (formats_fit_numeric ks t Hnum).
    destruct (given outfile); by eexists.
Qed.

Lemma add_columns_Ok (c0 c1 c2 c3 : Column Q) t0 t w w' :
  add_columns [c0; c1; c2; c3] t0 w = (Ok t, w') ->
  w' = w
  /\ forall j row, rows t !! j = Some row ->
       exists v0 v1 v2 v3 orig,
         data c0 !! j = Some v0 /\ data c1 !! j = Some v1
         /\ data c2 !! j = Some v2 /\ data c3 !! j = Some v3
         /\ rows t0 !! j = Some orig
         /\ row = v0 :: v1 :: v2 :: v3 :: orig.
Proof.
  intros Hadd. unfold add_columns, enumerate in Hadd. simpl in Hadd.
  apply bind_Ok in Hadd as (t1 & w3 & H0 & Hadd). apply lift_Ok in H0 as [H0 ->].
  apply bind_Ok in Hadd as (t2 & w3 & H1 & Hadd). apply lift_Ok in H1 as [H1 ->].
  apply bind_Ok in Hadd as (t3 & w3 & H2 & Hadd). apply lift_Ok in H2 as [H2 ->].
  apply bind_Ok in Hadd as (t4 & w3 & H3 & Hadd). apply lift_Ok in H3 as [H3 ->].
  apply ret_Ok in Hadd as [-> ->].
  split; [done |]. by apply (add_four_columns c0 c1 c2 c3 t0 t1 t2 t3).
Qed.

(** The draw of the background-driven routine returns in its first
    turn when there is no pixel frame, or when the frame sends the
    tiles to pixels that are not negative. *)
Lemma draw_xy_returns fuel wcs bg tile_set w :
  uniform w -> tile_set <> [] ->
  (forall i, i ∈ tile_set -> (i < length bg)%nat) ->
  match wcs with
  | None => True
  | Some frame =>
      Forall ordered bg
      /\ forall t ra dec,
           t ∈ bg -> in_tile t ra dec ->
           0 <= (frame ra dec).1 /\ 0 <= (frame ra dec).2
  end ->
  exists r w', draw_xy (S fuel) wcs bg tile_set w = (Ok r, w') /\ uniform w'.
Proof.
  intros Hw Hts Hin Hframe.
  destruct (draw_radec_returns bg tile_set w Hw Hts Hin)
    as (tile & t & Htile & Ht & Hd & Hbox).
  simpl. rewrite (bind_Ok_intro _ _ _ _ _ Hd).
  destruct wcs as [frame |].
  - destruct Hframe as [Hord Hpos].
    pose proof (list_elem_of_lookup_2 _ _ _ Ht) as Htin.
    pose proof (proj1 (Forall_forall _ _) Hord t Htin) as Hot.
    destruct (Hpos t _ _ Htin (Hbox Hot)) as [Hx Hy].
    destruct (frame _ _) as [x y]. simpl in Hx, Hy.
    apply Qle_bool_iff in Hx, Hy. rewrite Hx, Hy. simpl.
    eexists _, _. split; [reflexivity |]. intros n. apply Hw.
  - eexists _, _. split; [reflexivity |]. intros n. apply Hw.
Qed.
End Returns.

Section RoutinesReturn.
Import Binning MapDriven Placement.
Local Open Scope Q_scope.

(** Both routines after the bins are made: the loops over any draw that
    returns, the four columns and the file. *)
Lemma placement_returns (G : world Q -> Prop) draw
    (tile_sets : list (list nat)) (seds : Table Q)
    (rep : list (list (value Q))) (zero one : value Q) (c1 c2 : string)
    (convert : list Q -> list Q -> list Q * list Q)
    (ks : Table Q -> list string) outfile w :
  (forall ts w1, ts ∈ tile_sets -> G w1 ->
     exists r w2, draw ts w1 = (Ok r, w2) /\ G w2) ->
  (forall xs ys, length xs = length ys ->
     length (convert xs ys).1 = length xs
     /\ length (convert xs ys).2 = length xs) ->
  G w ->
  NoDup ["zeros"; "ones"; c1; c2] ->
  Forall (fun c => c ∉ colnames seds) ["zeros"; "ones"; c1; c2] ->
  prints_as_float zero = true -> prints_as_float one = true ->
  given outfile = None
  \/ Forall (Forall (fun v => prints_as_float v = true))
       (rep ≫= replicate (length tile_sets)) ->
  let out_table := mkTable (colnames seds) (rep ≫= replicate (length tile_sets)) in
  exists t w',
    (let* (xs, ys, bin_indices) :=
       place_rows draw tile_sets (length rep)
         (replicate (len out_table) 0, replicate (len out_table) 0,
          replicate (len out_table) 0) in
     let cs :=
       [mkColumn "zeros" (replicate (len out_table) zero);
        mkColumn "ones" (replicate (len out_table) one)] ++
       [mkColumn c1 (VFloat <$> (convert xs ys).1);
        mkColumn c2 (VFloat <$> (convert xs ys).2)] in
     let* out_table := add_columns cs out_table in
     let* _ := write_if_given (ks out_table) out_table outfile in
     ret out_table) w = (Ok t, w').
Proof.
  intros Hdraw Hconv Hw Hnd Hfresh Hzero Hone Hprint out_table.
  assert (Hlen : len out_table = (length tile_sets * length rep)%nat)
    by apply length_bind_replicate.
  destruct (place_rows_total G draw tile_sets (length rep)
              (replicate (len out_table) 0) (replicate (len out_table) 0)
              (replicate (len out_table) 0) w Hdraw Hw)
    as ([[xs ys] bi] & w1 & Hloop); [rewrite length_replicate; lia .. |].
  pose proof (place_rows_spec (fun _ => True) (fun _ _ => True) draw tile_sets
                (length rep) _ _ _ w xs ys bi w1 ltac:(done) I Hloop)
    as (_ & Lx & Ly & _).
  rewrite length_replicate in Lx, Ly.
  destruct (Hconv xs ys ltac:(lia)) as [Lcx Lcy].
  apply Forall_cons in Hfresh as [F0 Hfresh].
  apply Forall_cons in Hfresh as [F1 Hfresh].
  apply Forall_cons in Hfresh as [F2 Hfresh].
  apply Forall_cons in Hfresh as [F3 _].
  destruct (add_columns_returns
              (mkColumn "zeros" (replicate (len out_table) zero))
              (mkColumn "ones" (replicate (len out_table) one))
              (mkColumn c1 (VFloat <$> (convert xs ys).1))
              (mkColumn c2 (VFloat <$> (convert xs ys).2)) out_table w1)
    as [t Hadd].
  { exact Hnd. }
  { repeat constructor; simpl; try done;
      rewrite ?length_replicate, ?length_fmap; lia. }
  assert (Hwrite : given outfile = None \/ numeric t).
  { destruct Hprint as [Hnone | Hrep]; [by left | right].
    apply add_columns_Ok in Hadd as [_ Hrows].
    apply Forall_lookup. intros j row Hj.
    destruct (Hrows j row Hj)
      as (v0 & v1 & v2 & v3 & orig & H0 & H1 & H2 & H3 & Ho & ->).
    simpl in H0, H1, H2, H3, Ho.
    apply lookup_replicate in H0 as [-> _]. apply lookup_replicate in H1 as [-> _].
    rewrite list_lookup_fmap in H2. rewrite list_lookup_fmap in H3.
    destruct ((convert xs ys).1 !! j); [| done].
    destruct ((convert xs ys).2 !! j); [| done].
    injection H2 as <-. injection H3 as <-.
    repeat (constructor; [done |]).
    apply list_elem_of_lookup_2 in Ho.
    by apply (proj1 (Forall_forall _ _) Hrep). }
  destruct (write_if_given_returns (ks t) t outfile w1 Hwrite)
    as (w2 & Hw2 & Hrng).
  exists t, w2. rewrite (bind_Ok_intro _ _ _ _ _ Hloop). simpl.
  rewrite (bind_Ok_intro _ _ _ _ _ Hadd).
  by rewrite (bind_Ok_intro _ _ _ _ _ Hw2).
Qed.

Lemma surviving_tiles_in_map (v : list Q) N labels ts :
  v <> [] -> (0 <= N)%Z -> bin_foreach_tile v N = Ok labels ->
  ts ∈ remove_empty_bins (tiles_foreach_bin labels N) ->
  ts <> [] /\ forall i, i ∈ ts -> (i < length v)%nat.
Proof.
  intros Hv HN Hl Hts.
  destruct (bin_foreach_tile_Ok v N Hv HN) as (lo & hi & bins & _ & _ & _ & Hl').
  rewrite Hl in Hl'. injection Hl' as ->.
  apply surviving_bin_tiles in Hts. by rewrite length_fmap in Hts.
Qed.

Lemma numeric_repeated (seds : Table Q) n k :
  numeric seds ->
  Forall (Forall (fun v => prints_as_float v = true))
    ((rows seds ≫= replicate n) ≫= replicate k).
Proof.
  intros H. apply Forall_forall. intros row Hrow.
  do 2 apply elem_of_bind_replicate in Hrow.
  by apply (proj1 (Forall_forall _ _) H).
Qed.

Lemma four_names_differ (c1 c2 : string) :
  c1 <> c2 -> c1 <> "zeros" -> c1 <> "ones" -> c2 <> "zeros" ->
  c2 <> "ones" -> NoDup ["zeros"; "ones"; c1; c2].
Proof.
  intros ? ? ? ? ?.
  repeat (apply NoDup_cons; split;
          [rewrite ?elem_of_cons, elem_of_nil; intuition congruence |]).
  apply NoDup_nil_2.
Qed.

(** The density-driven routine returns when the bins are made, every
    draw in a surviving bin returns, the four names are new and the
    file can be written. *)
Lemma density_returns_with (G : world Q -> Prop) seds dens N_bins outfile
    refimage Nrealize w labels :
  bin_foreach_tile (metric <$> dens) N_bins = Ok labels ->
  (0 <= Nrealize)%Z ->
  (forall ts w1,
     ts ∈ remove_empty_bins (tiles_foreach_bin labels N_bins) -> G w1 ->
     exists r w2, draw_radec dens ts w1 = (Ok r, w2) /\ G w2) ->
  G w ->
  Forall (fun c => c ∉ colnames seds)
    ("zeros" :: "ones" :: match refimage with
                          | None => ["RA"; "DEC"]
                          | Some _ => ["X"; "Y"]
                          end) ->
  given outfile = None
  \/ Forall (Forall (fun v => prints_as_float v = true))
       ((rows seds ≫= replicate (Z.to_nat Nrealize))
          ≫= replicate (length (remove_empty_bins
                                   (tiles_foreach_bin labels N_bins)))) ->
  exists t w',
    pick_positions_per_density seds dens N_bins outfile refimage Nrealize w
    = (Ok t, w').
Proof.
  intros Hl HNr Hdraw Hw Hfresh Hprint.
  unfold pick_positions_per_density.
  rewrite (bind_lift_Ok _ _ _ _ Hl).
  rewrite (bind_lift_Ok _ _ _ _ (np_repeat_nonneg _ _ HNr)).
  rewrite (bind_lift_Ok _ _ _ _ (np_repeat_nonneg _ _ (Nat2Z.is_nonneg _))).
  rewrite Nat2Z.id.
  destruct refimage as [wcs |].
  - exact (placement_returns G (draw_radec dens)
             (remove_empty_bins (tiles_foreach_bin labels N_bins)) seds
             (rows seds ≫= replicate (Z.to_nat Nrealize))
             (VFloat 0) (VFloat 1) "X" "Y"
             (fun ras decs => ((zip_with wcs ras decs).*1,
                               (zip_with wcs ras decs).*2))
             colnames outfile w Hdraw
             ltac:(intros xs ys Hxy; simpl;
                   rewrite !length_fmap, length_zip_with; lia)
             Hw ltac:(by apply four_names_differ) Hfresh eq_refl eq_refl
             Hprint).
  - exact (placement_returns G (draw_radec dens)
             (remove_empty_bins (tiles_foreach_bin labels N_bins)) seds
             (rows seds ≫= replicate (Z.to_nat Nrealize))
             (VFloat 0) (VFloat 1) "RA" "DEC" (fun ras decs => (ras, decs))
             colnames outfile w Hdraw ltac:(intros xs ys Hxy; simpl; lia)
             Hw ltac:(by apply four_names_differ) Hfresh eq_refl eq_refl
             Hprint).
Qed.

Lemma background_returns_with (G : world Q -> Prop) fuel seds bg N_bins
    outfile refimage Nrealize w labels :
  bin_foreach_tile (metric <$> bg) N_bins = Ok labels ->
  (0 <= Nrealize)%Z ->
  (forall ts w1,
     ts ∈ remove_empty_bins (tiles_foreach_bin labels N_bins) -> G w1 ->
     exists r w2, draw_xy fuel refimage bg ts w1 = (Ok r, w2) /\ G w2) ->
  G w ->
  Forall (fun c => c ∉ colnames seds)
    ("zeros" :: "ones" :: match refimage with
                          | None => ["RA"; "DEC"]
                          | Some _ => ["X"; "Y"]
                          end) ->
  given outfile = None
  \/ Forall (Forall (fun v => prints_as_float v = true))
       ((rows seds ≫= replicate (Z.to_nat Nrealize))
          ≫= replicate (length (remove_empty_bins
                                   (tiles_foreach_bin labels N_bins)))) ->
  exists t w',
    pick_positions_per_background fuel seds bg N_bins outfile refimage
      Nrealize w = (Ok t, w').
Proof.
  intros Hl HNr Hdraw Hw Hfresh Hprint.
  unfold pick_positions_per_background.
  rewrite (bind_lift_Ok _ _ _ _ Hl).
  rewrite (bind_lift_Ok _ _ _ _ (np_repeat_nonneg _ _ HNr)).
  rewrite (bind_lift_Ok _ _ _ _ (np_repeat_nonneg _ _ (Nat2Z.is_nonneg _))).
  rewrite Nat2Z.id.
  destruct refimage as [wcs |].
  - exact (placement_returns G (draw_xy fuel (Some wcs) bg)
             (remove_empty_bins (tiles_foreach_bin labels N_bins)) seds
             (rows seds ≫= replicate (Z.to_nat Nrealize))
             (VInt 0) (VInt 1) "X" "Y" (fun xs ys => (xs, ys))
             (fun t => drop 2 (colnames t)) outfile w Hdraw
             ltac:(intros xs ys Hxy; simpl; lia)
             Hw ltac:(by apply four_names_differ) Hfresh eq_refl eq_refl
             Hprint).
  - exact (placement_returns G (draw_xy fuel None bg)
             (remove_empty_bins (tiles_foreach_bin labels N_bins)) seds
             (rows seds ≫= replicate (Z.to_nat Nrealize))
             (VInt 0) (VInt 1) "RA" "DEC" (fun xs ys => (xs, ys))
             (fun t => drop 2 (colnames t)) outfile w Hdraw
             ltac:(intros xs ys Hxy; simpl; lia)
             Hw ltac:(by apply four_names_differ) Hfresh eq_refl eq_refl
             Hprint).
Qed.

(** X8. The density-driven routine returns a table for every map that
    is not empty, every [N_bins >= 0] and [Nrealize >= 0], a generator
    that draws in [[0, 1)], and a star table that has none of the four
    column names the routine adds and, when a file is asked for, no
    string: ['%.5f'] is the format of every column of the file. *)
Theorem density_routine_returns seds dens N_bins outfile refimage Nrealize w :
  dens <> [] -> (0 <= N_bins)%Z -> (0 <= Nrealize)%Z -> uniform w ->
  Forall (fun c => c ∉ colnames seds)
    ("zeros" :: "ones" :: match refimage with
                          | None => ["RA"; "DEC"]
                          | Some _ => ["X"; "Y"]
                          end) ->
  given outfile = None \/ numeric seds ->
  exists t w',
    pick_positions_per_density seds dens N_bins outfile refimage Nrealize w
    = (Ok t, w').
Proof.
  intros Hd HN HNr Hw Hfresh Hfile.
  assert (Hv : metric <$> dens <> []) by (by destruct dens).
  destruct (bin_foreach_tile_Ok (metric <$> dens) N_bins Hv HN)
    as (lo & hi & bins & _ & _ & _ & Hl).
  apply (density_returns_with uniform _ _ _ _ _ _ _ _ Hl); try done.
  - intros ts w1 Hts Hw1.
    destruct (surviving_tiles_in_map _ _ _ _ Hv HN Hl Hts) as [Hne Hin].
    rewrite length_fmap in Hin.
    destruct (draw_radec_returns dens ts w1 Hw1 Hne Hin)
      as (tile & t & _ & _ & Hdr & _).
    eexists _, _. split; [exact Hdr |]. intros n. apply Hw1.
  - destruct Hfile as [? | Hnum]; [by left | right]. by apply numeric_repeated.
Qed.

(** X9. The background-driven routine returns a table, every row placed
    by the first turn of the sampling loop, under the same conditions
    when there is no reference image, and with one when the tiles are
    in order and the pixel frame sends every position of a tile to
    pixels that are not negative. *)
Theorem background_routine_returns fuel seds bg N_bins outfile refimage
    Nrealize w :
  bg <> [] -> (0 <= N_bins)%Z -> (0 <= Nrealize)%Z -> uniform w ->
  Forall (fun c => c ∉ colnames seds)
    ("zeros" :: "ones" :: match refimage with
                          | None => ["RA"; "DEC"]
                          | Some _ => ["X"; "Y"]
                          end) ->
  given outfile = None \/ numeric seds ->
  match refimage with
  | None => True
  | Some frame =>
      Forall ordered bg
      /\ forall t ra dec,
           t ∈ bg -> in_tile t ra dec ->
           0 <= (frame ra dec).1 /\ 0 <= (frame ra dec).2
  end ->
  exists t w',
    pick_positions_per_background (S fuel) seds bg N_bins outfile refimage
      Nrealize w = (Ok t, w').
Proof.
  intros Hd HN HNr Hw Hfresh Hfile Hframe.
  assert (Hv : metric <$> bg <> []) by (by destruct bg).
  destruct (bin_foreach_tile_Ok (metric <$> bg) N_bins Hv HN)
    as (lo & hi & bins & _ & _ & _ & Hl).
  apply (background_returns_with uniform _ _ _ _ _ _ _ _ _ Hl); try done.
  - intros ts w1 Hts Hw1.
    destruct (surviving_tiles_in_map _ _ _ _ Hv HN Hl Hts) as [Hne Hin].
    rewrite length_fmap in Hin. by apply draw_xy_returns.
  - destruct Hfile as [? | Hnum]; [by left | right]. by apply numeric_repeated.
Qed.
End RoutinesReturn.

Section MapDrivenWitnesses.
Import Binning MapDriven Placement Sample.
Local Open Scope Q_scope.

Lemma generator_uniform : uniform generator.
Proof. intros n. simpl. lra. Qed.

Lemma two_tiles_ordered : Forall ordered two_tiles.
Proof. repeat constructor; simpl; lra. Qed.

Lemma two_stars_fresh (c : string) : c <> "mag" -> c ∉ colnames two_stars.
Proof. intros Hc H. apply list_elem_of_singleton in H. done. Qed.

Lemma rows_are_placed_in_their_bin_witness :
  exists t labels,
    (pick_positions_per_density two_stars two_tiles 2 None (Some shifted) 1
       generator).1 = Ok t
    /\ bin_foreach_tile (metric <$> two_tiles) 2 = Ok labels
    /\ forall j row, rows t !! j = Some row ->
         exists tile_set x y,
           remove_empty_bins (tiles_foreach_bin labels 2)
             !! (j / (Z.to_nat 1 * len two_stars))%nat = Some tile_set
           /\ row !! 2%nat = Some (VFloat x) /\ row !! 3%nat = Some (VFloat y)
           /\ placed_in two_tiles (Some shifted) tile_set (x, y).
Proof.
  eexists.
  assert (H : (pick_positions_per_density two_stars two_tiles 2 None
                 (Some shifted) 1 generator).1 = Ok _)
    by (vm_compute; reflexivity).
  destruct (rows_are_placed_in_their_bin 0 two_stars two_tiles 2 None
              (Some shifted) 1 generator _ generator_uniform two_tiles_ordered
              (or_intror H)) as (labels & Hl & Hrows).
  exists labels. split; [exact H |]. split; [exact Hl | exact Hrows].
Defined.

Lemma two_stars_numeric : numeric two_stars.
Proof. by repeat constructor. Qed.

Lemma density_routine_returns_witness :
  exists t w',
    pick_positions_per_density two_stars two_tiles 2 (Some "out.txt"%string)
      None 1 generator = (Ok t, w').
Proof.
  apply density_routine_returns.
  - discriminate.
  - lia.
  - lia.
  - exact generator_uniform.
  - repeat constructor; by apply two_stars_fresh.
  - right. exact two_stars_numeric.
Defined.

Lemma background_routine_returns_witness :
  exists t w',
    pick_positions_per_background 1 two_stars two_tiles 2 None (Some shifted)
      1 generator = (Ok t, w').
Proof.
  apply background_routine_returns.
  - discriminate.
  - lia.
  - lia.
  - exact generator_uniform.
  - repeat constructor; by apply two_stars_fresh.
  - by left.
  - split; [exact two_tiles_ordered |].
    intros t ra dec Ht [[Hr0 Hr1] [Hd0 Hd1]]. unfold shifted. simpl.
    apply elem_of_cons in Ht as [-> | Ht];
      [| apply list_elem_of_singleton in Ht as ->]; simpl in *; split; lra.
Defined.
End MapDrivenWitnesses.

Section ReplicationFacts.
Import Binning MapDriven.
Local Open Scope Q_scope.

Lemma repeated_twice_star {A} (stars : list A) (n K j : nat) (x : A) :
  ((stars ≫= replicate n) ≫= replicate K) !! j = Some x ->
  stars !! (j / (n * K))%nat = Some x.
Proof.
  intros H.
  assert (0 < K)%nat.
  { destruct K; [| lia]. apply lookup_lt_Some in H.
    rewrite length_bind_replicate in H. lia. }
  assert (0 < n)%nat.
  { destruct n; [| lia]. apply lookup_lt_Some in H.
    rewrite !length_bind_replicate in H. lia. }
  by rewrite repeated_twice_lookup in H.
Qed.

(** X10. The star of a row: in the table a map-driven routine returns,
    the row [j] is the four new values and then the star
    [j // (Nrealize * K)] of the star table, [K] the number of bins that
    have a tile. The first two values are the integers 0 and 1 in the
    table of the background-driven routine, and the floats 0 and 1 in
    the table of the density-driven one. *)
Theorem row_holds_the_star_of_its_quotient fuel seds map N_bins outfile
    refimage Nrealize w t :
  ((pick_positions_per_background fuel seds map N_bins outfile refimage
      Nrealize w).1 = Ok t ->
   exists labels,
     bin_foreach_tile (metric <$> map) N_bins = Ok labels
     /\ forall j row, rows t !! j = Some row ->
          exists x y star,
            rows seds
              !! (j / (Z.to_nat Nrealize
                       * length (remove_empty_bins
                                   (tiles_foreach_bin labels N_bins))))%nat
            = Some star
            /\ row = VInt 0 :: VInt 1 :: VFloat x :: VFloat y :: star)
  /\ ((pick_positions_per_density seds map N_bins outfile refimage
         Nrealize w).1 = Ok t ->
      exists labels,
        bin_foreach_tile (metric <$> map) N_bins = Ok labels
        /\ forall j row, rows t !! j = Some row ->
             exists x y star,
               rows seds
                 !! (j / (Z.to_nat Nrealize
                          * length (remove_empty_bins
                                      (tiles_foreach_bin labels N_bins))))%nat
               = Some star
               /\ row = VFloat 0 :: VFloat 1 :: VFloat x :: VFloat y :: star).
Proof.
  split; intros H; apply fst_Ok in H as [w' H].
  - apply pick_positions_per_background_Ok in H
      as (labels & xs & ys & Hl & _ & _ & _ & _ & Hrows).
    exists labels. split; [done |]. intros j row Hj.
    destruct (Hrows j row Hj) as (x & y & orig & _ & _ & Ho & ->).
    apply repeated_twice_star in Ho.
    by exists x, y, orig.
  - apply pick_positions_per_density_Ok in H
      as (labels & Hl & _ & _ & _ & _ & Hrows).
    exists labels. split; [done |]. intros j row Hj.
    destruct (Hrows j row Hj) as (x & y & orig & Ho & ->).
    apply repeated_twice_star in Ho.
    by exists x, y, orig.
Qed.

Lemma row_holds_the_star_of_its_quotient_witness :
  (exists t labels,
     (pick_positions_per_background 5 Sample.two_stars Sample.two_tiles 2
        None None 3 Sample.generator).1 = Ok t
     /\ bin_foreach_tile (metric <$> Sample.two_tiles) 2 = Ok labels
     /\ forall j row, rows t !! j = Some row ->
          exists x y star,
            rows Sample.two_stars
              !! (j / (Z.to_nat 3
                       * length (remove_empty_bins
                                   (tiles_foreach_bin labels 2))))%nat
            = Some star
            /\ row = VInt 0 :: VInt 1 :: VFloat x :: VFloat y :: star)
  /\ (exists t labels,
        (pick_positions_per_density Sample.two_stars Sample.two_tiles 2
           None None 3 Sample.generator).1 = Ok t
        /\ bin_foreach_tile (metric <$> Sample.two_tiles) 2 = Ok labels
        /\ forall j row, rows t !! j = Some row ->
             exists x y star,
               rows Sample.two_stars
                 !! (j / (Z.to_nat 3
                          * length (remove_empty_bins
                                      (tiles_foreach_bin labels 2))))%nat
               = Some star
               /\ row = VFloat 0 :: VFloat 1 :: VFloat x :: VFloat y :: star).
Proof.
  split.
  - eexists.
    assert (H : (pick_positions_per_background 5 Sample.two_stars
                   Sample.two_tiles 2 None None 3 Sample.generator).1 = Ok _)
      by (vm_compute; reflexivity).
    destruct (proj1 (row_holds_the_star_of_its_quotient 5%nat
                       Sample.two_stars Sample.two_tiles 2%Z None None 3%Z
                       Sample.generator _) H)
      as (labels & Hl & Hrows).
    exists labels. split; [exact H |]. split; [exact Hl | exact Hrows].
  - eexists.
    assert (H : (pick_positions_per_density Sample.two_stars
                   Sample.two_tiles 2 None None 3 Sample.generator).1 = Ok _)
      by (vm_compute; reflexivity).
    destruct (proj2 (row_holds_the_star_of_its_quotient 5%nat
                       Sample.two_stars Sample.two_tiles 2%Z None None 3%Z
                       Sample.generator _) H)
      as (labels & Hl & Hrows).
    exists labels. split; [exact H |]. split; [exact Hl | exact Hrows].
Defined.
End ReplicationFacts.

(** ** What the routines write *)

Section EffectFacts.
Context {F : Type}.

Lemma bind_inv {A B} (m : M F A) (k : A -> M F B) w r w' :
  bind m k w = (r, w') ->
  (exists a w1, m w = (Ok a, w1) /\ k a w1 = (r, w'))
  \/ (exists r0, m w = (r0, w') /\ forall b, r <> Ok b).
Proof.
  unfold bind. destruct (m w) as [[a | e |] w1]; intros H.
  - left. eauto.
  - right. injection H as <- <-. eauto.
  - right. injection H as <- <-. eauto.
Qed.

Lemma writes_nothing_ret {A} (a : A) : writes_nothing (F := F) (ret a).
Proof. by intros w r w' [= _ <-]. Qed.

Lemma writes_nothing_lift {A} (x : result A) : writes_nothing (F := F) (lift x).
Proof. by intros w r w' [= _ <-]. Qed.

Lemma writes_nothing_raise {A} e : writes_nothing (F := F) (A := A) (raise e).
Proof. by intros w r w' [= _ <-]. Qed.

Lemma writes_nothing_out_of_fuel {A} :
  writes_nothing (F := F) (A := A) out_of_fuel.
Proof. by intros w r w' [= _ <-]. Qed.

Lemma writes_nothing_random_sample : writes_nothing (F := F) random_sample.
Proof. by intros w r w' [= _ <-]. Qed.

Lemma writes_nothing_random n : writes_nothing (F := F) (random n).
Proof. by intros w r w' [= _ <-]. Qed.

Lemma writes_nothing_ascii_read path : writes_nothing (F := F) (ascii_read path).
Proof.
  intros w r w'. unfold ascii_read.
  destruct (files w !! path); by intros [= _ <-].
Qed.

Lemma writes_nothing_bind {A B} (m : M F A) (k : A -> M F B) :
  writes_nothing m -> (forall a, writes_nothing (k a)) ->
  writes_nothing (bind m k).
Proof.
  intros Hm Hk w r w' H.
  apply bind_inv in H as [(a & w1 & H1 & H2) | (r0 & H1 & _)].
  - apply Hm in H1. apply Hk in H2. congruence.
  - by apply Hm in H1.
Qed.

Lemma writes_nothing_for_each {A St} (xs : list A) (body : St -> A -> M F St) acc :
  (forall a x, writes_nothing (body a x)) ->
  writes_nothing (for_each xs body acc).
Proof.
  intros Hbody. revert acc. induction xs as [| x xs IH]; intros acc; simpl.
  - apply writes_nothing_ret.
  - apply writes_nothing_bind; [apply Hbody | apply IH].
Qed.
End EffectFacts.

Section MapDrivenEffects.
Import Binning MapDriven.
Local Open Scope Q_scope.

Lemma writes_nothing_choice a : writes_nothing (choice a).
Proof.
  unfold choice. destruct (length a =? 0)%nat; [apply writes_nothing_raise |].
  apply writes_nothing_bind; [apply writes_nothing_random_sample |].
  intros u. apply writes_nothing_lift.
Qed.

Lemma writes_nothing_draw_radec bg tile_set :
  writes_nothing (draw_radec bg tile_set).
Proof.
  unfold draw_radec.
  repeat (apply writes_nothing_bind;
          [first [apply writes_nothing_choice | apply writes_nothing_lift
                 | apply writes_nothing_random_sample] | intros ?]).
  apply writes_nothing_ret.
Qed.

Lemma writes_nothing_draw_xy fuel wcs bg tile_set :
  writes_nothing (draw_xy fuel wcs bg tile_set).
Proof.
  induction fuel as [| fuel IH]; simpl; [apply writes_nothing_out_of_fuel |].
  apply writes_nothing_bind; [apply writes_nothing_draw_radec |].
  intros [ra dec]. destruct wcs as [frame |]; [| apply writes_nothing_ret].
  destruct (frame ra dec) as [x y].
  destruct (negb (Qle_bool 0 x) || negb (Qle_bool 0 y));
    [apply IH | apply writes_nothing_ret].
Qed.

Lemma writes_nothing_place_rows draw tile_sets Nseds a :
  (forall ts, writes_nothing (draw ts)) ->
  writes_nothing (Placement.place_rows draw tile_sets Nseds a).
Proof.
  intros Hdraw. unfold Placement.place_rows.
  apply writes_nothing_for_each. intros [[xs ys] bi] [b ts].
  apply writes_nothing_for_each. intros [[xs1 ys1] bi1] i.
  apply writes_nothing_bind; [apply Hdraw |]. intros [x y].
  apply writes_nothing_bind; [apply writes_nothing_lift |]. intros xs2.
  apply writes_nothing_bind; [apply writes_nothing_lift |]. intros ys2.
  apply writes_nothing_ret.
Qed.

Lemma writes_nothing_add_columns cs t : writes_nothing (add_columns cs t).
Proof.
  unfold add_columns. apply writes_nothing_for_each.
  intros a x. apply writes_nothing_lift.
Qed.

(** The end of both routines: the columns, then the file. *)
Lemma assemble_files (ks : Table Q -> list string) (cs : list (Column Q)) t0
    outfile w r w' :
  (let* out_table := add_columns cs t0 in
   let* _ := write_if_given (ks out_table) out_table outfile in
   ret out_table) w = (r, w') ->
  files w'
  = match r with
    | Ok t => match given outfile with
              | Some path => <[path := t]> (files w)
              | None => files w
              end
    | _ => files w
    end.
Proof.
  intros H.
  apply bind_inv in H as [(t & w1 & Ha & H) | (r0 & Ha & Hr)];
    apply writes_nothing_add_columns in Ha.
  2: { destruct r as [t | e |]; [by destruct (Hr t) | done | done]. }
  unfold write_if_given, ascii_write_formats in H.
  destruct (given outfile) as [path |].
  - destruct (formats_fit (ks t) t).
    + unfold bind, ascii_write, ret in H. injection H as <- <-. simpl.
      by rewrite Ha.
    + unfold bind, raise in H. injection H as <- <-. done.
  - unfold bind, ret in H. injection H as <- <-. done.
Qed.
End MapDrivenEffects.

Section MapDrivenFiles.
Import Binning MapDriven.
Local Open Scope Q_scope.

Ltac failed Hr :=
  match goal with
  | |- context [match ?r with Ok _ => _ | _ => _ end] =>
      destruct r as [? | ? |]; [exfalso; by eapply Hr | congruence | congruence]
  end.

Lemma background_files fuel seds bg N outfile refimage Nrealize w r w' :
  pick_positions_per_background fuel seds bg N outfile refimage Nrealize w
  = (r, w') ->
  files w'
  = match r with
    | Ok t => match given outfile with
              | Some path => <[path := t]> (files w)
              | None => files w
              end
    | _ => files w
    end.
Proof.
  unfold pick_positions_per_background. intros H.
  apply bind_inv in H as [(labels & w1 & H1 & H) | (r0 & H1 & Hr)];
    apply writes_nothing_lift in H1; [| failed Hr].
  apply bind_inv in H as [(rep1 & w2 & H2 & H) | (r0 & H2 & Hr)];
    apply writes_nothing_lift in H2; [| failed Hr].
  apply bind_inv in H as [(rep2 & w3 & H3 & H) | (r0 & H3 & Hr)];
    apply writes_nothing_lift in H3; [| failed Hr].
  assert (Hloop : forall (a : arrays) ts,
             writes_nothing
               (Placement.place_rows (draw_xy fuel refimage bg) ts
                  (length rep1) a)).
  { intros a ts. apply writes_nothing_place_rows.
    intros ts'. apply writes_nothing_draw_xy. }
  apply bind_inv in H as [([[xs ys] bi] & w4 & H4 & H) | (r0 & H4 & Hr)];
    apply Hloop in H4; [| failed Hr].
  apply assemble_files in H. rewrite H.
  destruct r; [destruct (given outfile) |..]; congruence.
Qed.

Lemma density_files seds dens N outfile refimage Nrealize w r w' :
  pick_positions_per_density seds dens N outfile refimage Nrealize w
  = (r, w') ->
  files w'
  = match r with
    | Ok t => match given outfile with
              | Some path => <[path := t]> (files w)
              | None => files w
              end
    | _ => files w
    end.
Proof.
  unfold pick_positions_per_density. intros H.
  apply bind_inv in H as [(labels & w1 & H1 & H) | (r0 & H1 & Hr)];
    apply writes_nothing_lift in H1; [| failed Hr].
  apply bind_inv in H as [(rep1 & w2 & H2 & H) | (r0 & H2 & Hr)];
    apply writes_nothing_lift in H2; [| failed Hr].
  apply bind_inv in H as [(rep2 & w3 & H3 & H) | (r0 & H3 & Hr)];
    apply writes_nothing_lift in H3; [| failed Hr].
  assert (Hloop : forall (a : arrays) ts,
             writes_nothing
               (Placement.place_rows (draw_radec dens) ts (length rep1) a)).
  { intros a ts. apply writes_nothing_place_rows.
    intros ts'. apply writes_nothing_draw_radec. }
  apply bind_inv in H as [([[xs ys] bi] & w4 & H4 & H) | (r0 & H4 & Hr)];
    apply Hloop in H4; [| failed Hr].
  apply assemble_files in H. rewrite H.
  destruct r; [destruct (given outfile) |..]; congruence.
Qed.

(** X11. The map-driven routines write at the very end and nowhere
    else: a call that raises or does not end leaves every file as it
    was, and a call that returns has written the returned table to
    [outfile], over what the file held, when [outfile] is given and not
    the empty string, and nothing otherwise. *)
Theorem map_driven_routines_write_last fuel seds map N_bins outfile refimage
    Nrealize w r w' :
  pick_positions_per_background fuel seds map N_bins outfile refimage
    Nrealize w = (r, w')
  \/ pick_positions_per_density seds map N_bins outfile refimage Nrealize w
     = (r, w') ->
  files w'
  = match r with
    | Ok t => match given outfile with
              | Some path => <[path := t]> (files w)
              | None => files w
              end
    | _ => files w
    end.
Proof. intros [H | H]; [by eapply background_files | by eapply density_files]. Qed.
End MapDrivenFiles.

Section NeighborEffects.
Import Stdlib.Reals.Reals Stdlib.micromega.Lra Neighbor SampleCatalogs.
Local Open Scope R_scope.

Lemma sample_filter :
  boundary_filter [0; 50; 100] [0; 50; 100] 5 = Ok ([50], [50]).
Proof.
  unfold boundary_filter, keep_mask, np_min, np_max, noise.
  cbn [foldl rbind length Nat.eqb negb zip_with].
  rewrite (Rmin_left 0 50), (Rmin_left 0 100) by lra.
  rewrite (Rmax_right 0 50), (Rmax_right 50 100) by lra.
  unfold mask_select, Rltb.
  repeat (destruct (Rlt_dec _ _) as [? | ?]; try lra). reflexivity.
Qed.

Lemma sample_place :
  place_asts [50] [50] 5 [0] [0] [0]
  = Ok ([50 + (0 * noise + 5) * cos (0 * 2 * PI)],
        [50 + (0 * noise + 5) * sin (0 * 2 * PI)]).
Proof.
  unfold place_asts.
  assert (E : astype_int (0 * INR (length [50])) = 0%Z).
  { unfold astype_int. simpl. destruct (Rle_dec 0 (0 * 1)); [| lra].
    symmetry. apply Int_part_spec. simpl. lra. }
  cbn [fmap list_fmap]. rewrite E. reflexivity.
Qed.

(** A call that returns: one artificial star around the middle star of
    the sample catalog. *)
Lemma sample_run :
  exists w',
    pick_positions interior "asts.txt" 5 None before_call = (Ok tt, w')
    /\ files w' !! "asts.txt"
       = Some (mkTable ["zeros"; "ones"; "X"; "Y"; "mag"]
                 [[VInt 0; VInt 1;
                   VFloat (50 + (0 * noise + 5) * cos (0 * 2 * PI));
                   VFloat (50 + (0 * noise + 5) * sin (0 * 2 * PI));
                   VFloat 20]]).
Proof.
  eexists. unfold pick_positions.
  assert (Hc : catalog_positions interior None
               = Ok (Some [0; 50; 100], Some [0; 50; 100])) by reflexivity.
  rewrite (bind_lift_Ok _ _ _ _ Hc).
  assert (Hr : ascii_read "asts.txt" before_call = (Ok ast_list, before_call))
    by reflexivity.
  rewrite (bind_Ok_intro _ _ _ _ _ Hr).
  cbn [read_local]. rewrite !(bind_lift_Ok _ _ _ _ eq_refl).
  rewrite (bind_lift_Ok _ _ _ _ sample_filter).
  unfold random, bind at 1 2 3.
  cbn [len rows ast_list length seq map rng before_call files].
  rewrite (bind_lift_Ok _ _ _ _ sample_place).
  split; reflexivity.
Qed.

Ltac failed Hr :=
  match goal with
  | |- match ?r with Ok _ => _ | _ => _ end =>
      destruct r as [? | ? |]; [exfalso; by eapply Hr | congruence | congruence]
  end.

(** X12. [pick_positions] rewrites the list of artificial stars in
    place and touches no other file: a call that raises leaves every
    file as it was; a call that returns has written over [filename]
    only, the table it read there with the columns [zeros], [ones], [X]
    and [Y] in front, every row of the list kept in its place behind
    the integers 0 and 1 and the new position, and it has taken three
    draws of the generator for every artificial star. *)
Theorem ast_list_is_rewritten_in_place (catalog : Catalog) filename separation
    refimage w r w' :
  pick_positions catalog filename separation refimage w = (r, w') ->
  match r with
  | Ok _ =>
      exists astmags t,
        files w !! filename = Some astmags
        /\ files w' = <[filename := t]> (files w)
        /\ colnames t = "zeros" :: "ones" :: "X" :: "Y" :: colnames astmags
        /\ len t = len astmags
        /\ (forall j row, rows t !! j = Some row ->
              exists x y orig,
                rows astmags !! j = Some orig
                /\ row = VInt 0 :: VInt 1 :: VFloat x :: VFloat y :: orig)
        /\ forall k, rng w' k = rng w (3 * len astmags + k)%nat
  | _ => files w' = files w
  end.
Proof.
  unfold pick_positions. intros H.
  apply bind_inv in H as [([xo yo] & w1 & H1 & H) | (r0 & H1 & Hr)];
    [apply lift_Ok in H1 as [_ ->] | apply writes_nothing_lift in H1; failed Hr].
  apply bind_inv in H as [(astmags & w1 & H1 & H) | (r0 & H1 & Hr)];
    [| apply writes_nothing_ascii_read in H1; failed Hr].
  assert (files w !! filename = Some astmags /\ w1 = w) as [Hfile ->].
  { unfold ascii_read in H1. destruct (files w !! filename); [| done].
    by injection H1 as <- <-. }
  apply bind_inv in H as [(x_all & w1 & H2 & H) | (r0 & H2 & Hr)];
    [apply lift_Ok in H2 as [_ ->] | apply writes_nothing_lift in H2; failed Hr].
  apply bind_inv in H as [(y_all & w1 & H2 & H) | (r0 & H2 & Hr)];
    [apply lift_Ok in H2 as [_ ->] | apply writes_nothing_lift in H2; failed Hr].
  apply bind_inv in H as [([xs ys] & w1 & H2 & H) | (r0 & H2 & Hr)];
    [apply lift_Ok in H2 as [_ ->] | apply writes_nothing_lift in H2; failed Hr].
  apply bind_inv in H as [(u1 & w1 & H2 & H) | (r0 & H2 & Hr)];
    [apply random_Ok in H2 as (_ & Hf1 & Hr1)
    | apply writes_nothing_random in H2; failed Hr].
  apply bind_inv in H as [(u2 & w2 & H2 & H) | (r0 & H2 & Hr)];
    [apply random_Ok in H2 as (_ & Hf2 & Hr2)
    | apply writes_nothing_random in H2; failed Hr].
  apply bind_inv in H as [(u3 & w3 & H2 & H) | (r0 & H2 & Hr)];
    [apply random_Ok in H2 as (_ & Hf3 & Hr3)
    | apply writes_nothing_random in H2; failed Hr].
  apply bind_inv in H as [([new_x new_y] & w4 & H2 & H) | (r0 & H2 & Hr)];
    [apply lift_Ok in H2 as [_ ->] | apply writes_nothing_lift in H2; failed Hr].
  apply bind_inv in H as [(t1 & w4 & Ha1 & H) | (r0 & H2 & Hr)];
    [apply lift_Ok in Ha1 as [Ha1 ->]
    | apply writes_nothing_lift in H2; failed Hr].
  apply bind_inv in H as [(t2 & w4 & Ha2 & H) | (r0 & H2 & Hr)];
    [apply lift_Ok in Ha2 as [Ha2 ->]
    | apply writes_nothing_lift in H2; failed Hr].
  apply bind_inv in H as [(t3 & w4 & Ha3 & H) | (r0 & H2 & Hr)];
    [apply lift_Ok in Ha3 as [Ha3 ->]
    | apply writes_nothing_lift in H2; failed Hr].
  apply bind_inv in H as [(t4 & w4 & Ha4 & H) | (r0 & H2 & Hr)];
    [apply lift_Ok in Ha4 as [Ha4 ->]
    | apply writes_nothing_lift in H2; failed Hr].
  unfold ascii_write in H. injection H as <- <-.
  destruct (add_four_columns _ _ _ _ _ _ _ _ _ Ha1 Ha2 Ha3 Ha4)
    as (Hcols & Hlen & Hrows).
  exists astmags, t4.
  split; [done |]. split; [simpl; congruence |]. split; [done |].
  split; [done |]. split.
  - intros j row Hj. destruct (Hrows j row Hj)
      as (v0 & v1 & v2 & v3 & orig & Hv0 & Hv1 & Hv2 & Hv3 & Ho & ->).
    simpl in Hv0, Hv1, Hv2, Hv3.
    rewrite list_lookup_fmap in Hv0, Hv1, Hv2, Hv3.
    destruct (new_x !! j) as [x |]; [| done].
    destruct (new_y !! j) as [y |]; [| done].
    injection Hv0 as <-. injection Hv1 as <-. injection Hv2 as <-.
    injection Hv3 as <-. by exists x, y, orig.
  - intros k. simpl. rewrite Hr3, Hr2, Hr1. f_equal. lia.
Qed.

Lemma ast_list_is_rewritten_in_place_witness :
  exists astmags t : Table R,
    files before_call !! "asts.txt" = Some astmags
    /\ colnames t = "zeros" :: "ones" :: "X" :: "Y" :: colnames astmags
    /\ len t = len astmags.
Proof.
  destruct sample_run as (w' & Hrun & _).
  destruct (ast_list_is_rewritten_in_place interior "asts.txt" 5 None
              before_call (Ok tt) w' Hrun)
    as (astmags & t & H1 & _ & H2 & H3 & _).
  by exists astmags, t.
Defined.
End NeighborEffects.

Section NeighborEdges.
Import Stdlib.Reals.Reals Stdlib.micromega.Lra Neighbor SampleCatalogs.
Local Open Scope R_scope.

Lemma mask_select_fst {A B} (f : A -> B -> bool) (xs : list A) (ys : list B) :
  mask_select (zip_with f xs ys) xs
  = (filter (fun p => f p.1 p.2 = true) (zip xs ys)).*1.
Proof.
  unfold mask_select. revert ys.
  induction xs as [| x xs IH]; intros [| y ys]; try done.
  simpl. rewrite !filter_cons. simpl. destruct (f x y) eqn:E.
  - rewrite !decide_True by done. simpl. by rewrite IH.
  - rewrite !decide_False by done. apply IH.
Qed.

Lemma mask_select_snd {A B} (f : A -> B -> bool) (xs : list A) (ys : list B) :
  mask_select (zip_with f xs ys) ys
  = (filter (fun p => f p.1 p.2 = true) (zip xs ys)).*2.
Proof.
  unfold mask_select. revert ys.
  induction xs as [| x xs IH]; intros [| y ys]; try done.
  simpl. rewrite !filter_cons. simpl. destruct (f x y) eqn:E.
  - rewrite !decide_True by done. simpl. by rewrite IH.
  - rewrite !decide_False by done. apply IH.
Qed.

(** The anchors are the catalog stars inside the margins, in the order
    of the catalog. *)
Lemma boundary_filter_Ok x_all y_all separation xs ys :
  boundary_filter x_all y_all separation = Ok (xs, ys) ->
  exists min_x max_x min_y max_y,
    np_min x_all = Ok min_x /\ np_max x_all = Ok max_x
    /\ np_min y_all = Ok min_y /\ np_max y_all = Ok max_y
    /\ exists kept,
         xs = kept.*1 /\ ys = kept.*2
         /\ forall ax ay,
              (ax, ay) ∈ kept <->
              (ax, ay) ∈ zip x_all y_all
              /\ min_x + separation + noise < ax < max_x - separation - noise
              /\ min_y + separation + noise < ay < max_y - separation - noise.
Proof.
  unfold boundary_filter, keep_mask. intros H.
  apply rbind_Ok in H as (keep & H & Hsel).
  apply rbind_Ok in H as (min_x & Hminx & H).
  apply rbind_Ok in H as (max_x & Hmaxx & H).
  apply rbind_Ok in H as (min_y & Hminy & H).
  apply rbind_Ok in H as (max_y & Hmaxy & H).
  destruct (length x_all =? length y_all)%nat; [| discriminate].
  simpl in H. injection H as <-. injection Hsel as <- <-.
  exists min_x, max_x, min_y, max_y. repeat (split; [done |]).
  pose (f := fun x y : R =>
               Rltb (min_x + separation + noise) x
               && Rltb x (max_x - separation - noise)
               && Rltb (min_y + separation + noise) y
               && Rltb y (max_y - separation - noise)).
  exists (filter (fun p => f p.1 p.2 = true) (zip x_all y_all)).
  split; [exact (mask_select_fst f x_all y_all) |].
  split; [exact (mask_select_snd f x_all y_all) |].
  intros ax ay. rewrite list_elem_of_filter. unfold f. simpl.
  rewrite !andb_true_iff, !Rltb_true. tauto.
Qed.

(** X14. A catalog too narrow has no anchor: when the extent of its
    [X] or of its [Y] is at most twice [separation + noise], the
    boundary filter keeps no star. *)
Theorem narrow_catalog_has_no_anchor x_all y_all separation xs ys
    min_x max_x min_y max_y :
  boundary_filter x_all y_all separation = Ok (xs, ys) ->
  np_min x_all = Ok min_x -> np_max x_all = Ok max_x ->
  np_min y_all = Ok min_y -> np_max y_all = Ok max_y ->
  max_x - min_x <= 2 * (separation + noise)
  \/ max_y - min_y <= 2 * (separation + noise) ->
  xs = [] /\ ys = [].
Proof.
  intros H Hminx Hmaxx Hminy Hmaxy Hnarrow.
  apply boundary_filter_Ok in H
    as (min_x' & max_x' & min_y' & max_y' & E1 & E2 & E3 & E4
        & kept & -> & -> & Hkept).
  rewrite Hminx in E1. rewrite Hmaxx in E2. rewrite Hminy in E3.
  rewrite Hmaxy in E4. injection E1 as <-. injection E2 as <-.
  injection E3 as <-. injection E4 as <-.
  assert (kept = []) as ->; [| done].
  apply elem_of_nil_inv. intros [ax ay] Hin.
  apply Hkept in Hin as (_ & Hx & Hy). lra.
Qed.

Lemma narrow_catalog_has_no_anchor_witness :
  @nil R = [] /\ @nil R = [].
Proof.
  apply (narrow_catalog_has_no_anchor [10; 20] [10; 20] 5 [] [] 10 20 10 20).
  - unfold boundary_filter, keep_mask, np_min, np_max, noise.
    cbn [foldl rbind length Nat.eqb negb zip_with].
    rewrite (Rmin_left 10 20), (Rmax_right 10 20) by lra.
    unfold mask_select, Rltb.
    repeat (destruct (Rlt_dec _ _) as [? | ?]; try lra). reflexivity.
  - unfold np_min. simpl. by rewrite Rmin_left by lra.
  - unfold np_max. simpl. by rewrite Rmax_right by lra.
  - unfold np_min. simpl. by rewrite Rmin_left by lra.
  - unfold np_max. simpl. by rewrite Rmax_right by lra.
  - left. unfold noise. lra.
Defined.

Lemma place_asts_without_anchor separation u us u_sep u_theta :
  place_asts [] [] separation (u :: us) u_sep u_theta = Raise IndexError.
Proof.
  unfold place_asts. cbn [fmap list_fmap length INR].
  assert (E : astype_int (u * 0) = 0%Z).
  { rewrite Rmult_0_r. unfold astype_int. destruct (Rle_dec 0 0); [| lra].
    symmetry. apply Int_part_spec. simpl. lra. }
  rewrite E. reflexivity.
Qed.

(** X13. Without an anchor the routine fails: when the boundary filter
    keeps no star and the list has at least one artificial star, the
    call raises [IndexError] (the index 0 of an empty array) and writes
    nothing. *)
Theorem no_anchor_raises_index_error (catalog : Catalog) filename separation
    refimage w astmags x_all y_all :
  catalog_positions catalog refimage = Ok (Some x_all, Some y_all) ->
  files w !! filename = Some astmags -> (0 < len astmags)%nat ->
  boundary_filter x_all y_all separation = Ok ([], []) ->
  exists w',
    pick_positions catalog filename separation refimage w
    = (Raise IndexError, w')
    /\ files w' = files w.
Proof.
  intros Hc Hfile Hn Hfilter. unfold pick_positions.
  rewrite (bind_lift_Ok _ _ _ _ Hc).
  assert (Hr : ascii_read filename w = (Ok astmags, w))
    by (unfold ascii_read; by rewrite Hfile).
  rewrite (bind_Ok_intro _ _ _ _ _ Hr).
  cbn [read_local]. rewrite !(bind_lift_Ok _ _ _ _ eq_refl).
  rewrite (bind_lift_Ok _ _ _ _ Hfilter).
  unfold random, bind at 1 2 3.
  destruct (len astmags) as [| n]; [lia |].
  cbn [seq map]. rewrite place_asts_without_anchor.
  eexists. split; reflexivity.
Qed.

Lemma no_anchor_raises_index_error_witness :
  exists w',
    pick_positions {[ "X" := [10; 20]; "Y" := [10; 20] ]} "asts.txt" 5 None
      before_call = (Raise IndexError, w')
    /\ files w' = files before_call.
Proof.
  apply (no_anchor_raises_index_error _ _ _ _ _ ast_list [10; 20] [10; 20]).
  - reflexivity.
  - reflexivity.
  - unfold ast_list, len. simpl. lia.
  - unfold boundary_filter, keep_mask, np_min, np_max, noise.
    cbn [foldl rbind length Nat.eqb negb zip_with].
    rewrite (Rmin_left 10 20), (Rmax_right 10 20) by lra.
    unfold mask_select, Rltb.
    repeat (destruct (Rlt_dec _ _) as [? | ?]; try lra). reflexivity.
Defined.

(** X15. The reference image is never used: the first test of line 199
    holds for every catalog, so the branch that converts sky
    coordinates is never taken, and a call gives the same with any
    reference image as with none. *)
Theorem reference_image_is_never_used (catalog : Catalog) filename separation
    (refimage refimage' : option WCS) :
  pick_positions catalog filename separation refimage
  = pick_positions catalog filename separation refimage'.
Proof. reflexivity. Qed.
End NeighborEdges.

Section NeighborExtent.
Import Stdlib.Reals.Reals Stdlib.micromega.Lra Neighbor SampleCatalogs.
Local Open Scope R_scope.

(** Every new position, from its anchor and its two draws. *)
Lemma place_asts_Ok xs ys separation u_ind u_sep u_theta new_x new_y :
  Forall (fun u => 0 <= u < 1) u_ind ->
  place_asts xs ys separation u_ind u_sep u_theta = Ok (new_x, new_y) ->
  forall i x y,
    new_x !! i = Some x -> new_y !! i = Some y ->
    exists k ax ay u u',
      xs !! k = Some ax /\ ys !! k = Some ay
      /\ u_sep !! i = Some u /\ u_theta !! i = Some u'
      /\ x = ax + (u * noise + separation) * cos (u' * 2 * PI)
      /\ y = ay + (u * noise + separation) * sin (u' * 2 * PI).
Proof.
  intros Hind. unfold place_asts. intros H i x y Hx Hy.
  apply rbind_Ok in H as (axs & Hax & H).
  apply rbind_Ok in H as (ays & Hay & H). injection H as <- <-.
  apply lookup_zip_with_Some in Hx as (ax & dx & -> & Hax_i & Hdx).
  apply lookup_zip_with_Some in Hy as (ay & dy & -> & Hay_i & Hdy).
  apply lookup_zip_with_Some in Hdx as (r & th & -> & Hr & Hth).
  apply lookup_zip_with_Some in Hdy as (r' & th' & -> & Hr' & Hth').
  rewrite Hr in Hr'. injection Hr' as <-.
  rewrite Hth in Hth'. injection Hth' as <-.
  rewrite list_lookup_fmap in Hr.
  destruct (u_sep !! i) as [u |] eqn:Eu; [| done].
  rewrite list_lookup_fmap in Hth.
  destruct (u_theta !! i) as [u' |] eqn:Eu'; [| done].
  injection Hr as <-. injection Hth as <-.
  destruct (mapM_result_lookup _ _ _ _ _ Hax Hax_i) as (iz & Hiz & Hgx).
  destruct (mapM_result_lookup _ _ _ _ _ Hay Hay_i) as (iz' & Hiz' & Hgy).
  rewrite Hiz in Hiz'. injection Hiz' as <-.
  rewrite list_lookup_fmap in Hiz.
  destruct (u_ind !! i) as [ui |] eqn:Eui; [| done]. injection Hiz as <-.
  assert (Hui : 0 <= ui < 1) by (by eapply Forall_lookup_1 in Hind).
  assert (Hnn : (0 <= astype_int (ui * INR (length xs)))%Z).
  { apply astype_int_nonneg. apply Rmult_le_pos; [lra | apply pos_INR]. }
  apply getitem_int_nonneg in Hgx; [| done].
  apply getitem_int_nonneg in Hgy; [| done].
  by exists (Z.to_nat (astype_int (ui * INR (length xs)))), ax, ay, u, u'.
Qed.

(** X17. The purpose of the boundary filter (line 227): for a
    separation that is not negative and draws in [[0, 1)], every new
    position lies strictly inside the extent of the coordinates of the
    catalog, in [X] and in [Y]. *)
Theorem new_positions_stay_inside_the_catalog x_all y_all separation xs ys
    u_ind u_sep u_theta new_x new_y :
  0 <= separation ->
  Forall (fun u => 0 <= u < 1) u_ind ->
  Forall (fun u => 0 <= u < 1) u_sep ->
  boundary_filter x_all y_all separation = Ok (xs, ys) ->
  place_asts xs ys separation u_ind u_sep u_theta = Ok (new_x, new_y) ->
  exists min_x max_x min_y max_y,
    np_min x_all = Ok min_x /\ np_max x_all = Ok max_x
    /\ np_min y_all = Ok min_y /\ np_max y_all = Ok max_y
    /\ forall i x y,
         new_x !! i = Some x -> new_y !! i = Some y ->
         min_x < x < max_x /\ min_y < y < max_y.
Proof.
  intros Hsep Hind Husep Hf Hp.
  apply boundary_filter_Ok in Hf
    as (min_x & max_x & min_y & max_y & E1 & E2 & E3 & E4
        & kept & -> & -> & Hkept).
  exists min_x, max_x, min_y, max_y. repeat (split; [done |]).
  intros i x y Hx Hy.
  destruct (place_asts_Ok _ _ _ _ _ _ _ _ Hind Hp i x y Hx Hy)
    as (k & ax & ay & u & u' & Hax & Hay & Hu & _ & -> & ->).
  assert (Hin : (ax, ay) ∈ kept).
  { rewrite list_lookup_fmap in Hax, Hay.
    destruct (kept !! k) as [[a b] |] eqn:Ek; [| done].
    simpl in Hax, Hay. injection Hax as ->. injection Hay as ->.
    by eapply list_elem_of_lookup_2. }
  apply Hkept in Hin as (_ & Hxin & Hyin).
  assert (Hur : 0 <= u < 1) by (by eapply Forall_lookup_1 in Husep).
  pose proof (COS_bound (u' * 2 * PI)) as [Hc0 Hc1].
  pose proof (SIN_bound (u' * 2 * PI)) as [Hs0 Hs1].
  unfold noise in *.
  set (r := u * 3 + separation) in *.
  assert (Hr : 0 <= r < separation + 3) by (unfold r; lra).
  set (c := cos (u' * 2 * PI)) in *. set (s := sin (u' * 2 * PI)) in *.
  assert (- r <= r * c <= r) by (split; nra).
  assert (- r <= r * s <= r) by (split; nra).
  split; split; lra.
Qed.

Lemma new_positions_stay_inside_the_catalog_witness :
  exists min_x max_x min_y max_y,
    np_min [0; 50; 100] = Ok min_x /\ np_max [0; 50; 100] = Ok max_x
    /\ np_min [0; 50; 100] = Ok min_y /\ np_max [0; 50; 100] = Ok max_y
    /\ forall i x y,
         [50 + (0 * noise + 5) * cos (0 * 2 * PI)] !! i = Some x ->
         [50 + (0 * noise + 5) * sin (0 * 2 * PI)] !! i = Some y ->
         min_x < x < max_x /\ min_y < y < max_y.
Proof.
  apply (new_positions_stay_inside_the_catalog [0; 50; 100] [0; 50; 100] 5
           [50] [50] [0] [0] [0]).
  - lra.
  - repeat constructor; lra.
  - repeat constructor; lra.
  - exact sample_filter.
  - exact sample_place.
Defined.

Lemma pick_positions_without_pixel_columns_witness :
  pick_positions sky_only "asts.txt" 5 (Some frame) before_call
  = (Raise UnboundLocalError, before_call)
  /\ pick_positions sky_only "nowhere.txt" 5 (Some frame) before_call
     = (Raise FileNotFoundError, before_call).
Proof.
  split.
  - apply (pick_positions_without_pixel_columns sky_only "asts.txt");
      reflexivity.
  - apply (pick_positions_without_pixel_columns sky_only "nowhere.txt");
      reflexivity.
Defined.
End NeighborExtent.

Section ZeroMap.
Import Binning MapDriven Placement.
Local Open Scope Q_scope.

Lemma foldl_Qmin_elem (xs : list Q) a :
  exists x, x ∈ a :: xs /\ x == foldl Qmin a xs.
Proof.
  revert a. induction xs as [| x xs IH]; intros a; simpl.
  - exists a. split; [apply list_elem_of_here | reflexivity].
  - destruct (IH (Qmin a x)) as (m & Hm & Hmin).
    apply elem_of_cons in Hm as [-> | Hm].
    + destruct (Q.min_dec a x) as [E | E].
      * exists a. split; [apply list_elem_of_here |]. by rewrite <- Hmin, E.
      * exists x. split; [apply list_elem_of_further, list_elem_of_here |].
        by rewrite <- Hmin, E.
    + exists m. split; [by do 2 apply list_elem_of_further | done].
Qed.

(** A map whose every metric value is zero: every tile gets the label
    [N_bins + 1], and no bin has a tile. *)
Lemma zero_map_has_no_bin (v : list Q) N :
  v <> [] -> Forall (fun x => x == 0) v -> (1 <= N)%Z ->
  exists labels,
    bin_foreach_tile v N = Ok labels
    /\ Forall (fun l => l = (N + 1)%Z) labels
    /\ remove_empty_bins (tiles_foreach_bin labels N) = [].
Proof.
  intros Hv Hz HN.
  destruct (bin_foreach_tile_Ok v N Hv) as (lo & hi & bins & Hlo & Hhi & Hb & Hl);
    [lia |].
  assert (lo == 0) as Elo.
  { destruct v as [| a xs]; [done |]. simpl in Hlo. injection Hlo as <-.
    destruct (foldl_Qmin_elem xs a) as (x & Hx & <-).
    by apply (proj1 (Forall_forall _ _) Hz). }
  assert (hi == 0) as Ehi.
  { destruct v as [| a xs]; [done |]. simpl in Hhi. injection Hhi as <-.
    destruct (foldl_Qmax_elem xs a) as (x & Hx & <-).
    by apply (proj1 (Forall_forall _ _) Hz). }
  assert (Qabs lo == 0) as Alo by (rewrite Elo; reflexivity).
  assert (Qabs hi == 0) as Ahi by (rewrite Ehi; reflexivity).
  destruct (linspace_Ok (lo - (1 # 100) * Qabs lo) (hi + (1 # 100) * Qabs hi)
              (N + 1)) as (bins' & Hb' & Hlen); [lia |].
  rewrite Hb in Hb'. injection Hb' as <-.
  assert (Hbelow : Forall (fun b => b <= 0) bins).
  { eapply Forall_impl.
    - eapply linspace_below_stop; [| | exact Hb]; [lia | lra].
    - intros b Hbs. simpl in Hbs. lra. }
  set (labels := (fun x => Z.of_nat (searchsorted_right bins x)) <$> v) in *.
  assert (Hlabels : Forall (fun l => l = (N + 1)%Z) labels).
  { apply Forall_fmap, Forall_forall. intros x Hx. simpl.
    pose proof (proj1 (Forall_forall _ _) Hz x Hx) as Ex. simpl in Ex.
    rewrite searchsorted_right_all; [lia |].
    eapply Forall_impl; [exact Hbelow |]. intros b Hbs. simpl in Hbs. lra. }
  exists labels. split; [done |]. split; [done |].
  apply elem_of_nil_inv. intros ts Hts.
  unfold remove_empty_bins in Hts.
  apply list_elem_of_filter in Hts as [Hne Hts].
  apply list_elem_of_lookup_1 in Hts as [b Hb'].
  apply lookup_tiles_foreach_bin in Hb' as [HbN Hmem].
  destruct ts as [| i ts]; [done |].
  assert (labels !! i = Some (Z.of_nat b + 1)%Z) as Hi
    by (apply Hmem, list_elem_of_here).
  pose proof (Forall_lookup_1 _ _ _ _ Hlabels Hi) as E. simpl in E. lia.
Qed.

(** X18. A map whose every metric value is zero gives no star. With
    at least one bin asked for, every tile gets the label [N_bins + 1],
    no bin has a tile, and each map-driven routine returns a table
    without a row and raises no error: for every fuel of the sampling
    loop and every generator, [Nrealize >= 0], and a star table that has
    none of the four column names the routine adds and, when a file is
    asked for, no string. *)
Theorem zero_map_gives_an_empty_table fuel seds map N_bins outfile refimage
    Nrealize w :
  map <> [] -> Forall (fun tile => metric tile == 0) map -> (1 <= N_bins)%Z ->
  (0 <= Nrealize)%Z ->
  Forall (fun c => c ∉ colnames seds)
    ("zeros" :: "ones" :: match refimage with
                          | None => ["RA"; "DEC"]
                          | Some _ => ["X"; "Y"]
                          end) ->
  given outfile = None \/ numeric seds ->
  exists labels,
    bin_foreach_tile (metric <$> map) N_bins = Ok labels
    /\ Forall (fun l => l = (N_bins + 1)%Z) labels
    /\ remove_empty_bins (tiles_foreach_bin labels N_bins) = []
    /\ (exists t w',
          pick_positions_per_background fuel seds map N_bins outfile refimage
            Nrealize w = (Ok t, w')
          /\ rows t = [])
    /\ (exists t w',
          pick_positions_per_density seds map N_bins outfile refimage
            Nrealize w = (Ok t, w')
          /\ rows t = []).
Proof.
  intros Hmap Hz HN HNr Hfresh Hfile.
  destruct (zero_map_has_no_bin (metric <$> map) N_bins)
    as (labels & Hl & Hlab & HK); [by destruct map | by apply Forall_fmap | done |].
  exists labels. split; [done |]. split; [done |]. split; [done |].
  assert (Hprint :
    given outfile = None
    \/ Forall (Forall (fun v => prints_as_float v = true))
         ((rows seds ≫= replicate (Z.to_nat Nrealize))
            ≫= replicate (length (remove_empty_bins
                                     (tiles_foreach_bin labels N_bins))))).
  { destruct Hfile as [? | Hnum]; [by left | right].
    by apply numeric_repeated. }
  split.
  - destruct (background_returns_with (fun _ => True) fuel seds map N_bins
                outfile refimage Nrealize w labels Hl HNr) as (t & w' & H);
      try done.
    { intros ts w1 Hts. rewrite HK in Hts. by apply elem_of_nil in Hts. }
    exists t, w'. split; [done |].
    apply length_zero_iff_nil. change (len t = 0%nat).
    apply pick_positions_per_background_Ok in H
      as (labels' & xs & ys & Hl' & _ & _ & _ & Hlen & _).
    rewrite Hl in Hl'. injection Hl' as <-. rewrite Hlen, HK.
    by rewrite length_bind_replicate.
  - destruct (density_returns_with (fun _ => True) seds map N_bins
                outfile refimage Nrealize w labels Hl HNr) as (t & w' & H);
      try done.
    { intros ts w1 Hts. rewrite HK in Hts. by apply elem_of_nil in Hts. }
    exists t, w'. split; [done |].
    apply length_zero_iff_nil. change (len t = 0%nat).
    apply pick_positions_per_density_Ok in H
      as (labels' & Hl' & _ & _ & _ & Hlen & _).
    rewrite Hl in Hl'. injection Hl' as <-. rewrite Hlen, HK.
    by rewrite length_bind_replicate.
Qed.

Lemma zero_map_gives_an_empty_table_witness :
  exists labels,
    bin_foreach_tile (metric <$> [mkTile 0 1 0 1 0; mkTile 1 2 0 1 0]) 3
    = Ok labels
    /\ Forall (fun l => l = (3 + 1)%Z) labels
    /\ remove_empty_bins (tiles_foreach_bin labels 3) = []
    /\ (exists t w',
          pick_positions_per_background 0 Sample.two_stars
            [mkTile 0 1 0 1 0; mkTile 1 2 0 1 0] 3 (Some "out.txt"%string)
            None 1 Sample.generator = (Ok t, w')
          /\ rows t = [])
    /\ (exists t w',
          pick_positions_per_density Sample.two_stars
            [mkTile 0 1 0 1 0; mkTile 1 2 0 1 0] 3 (Some "out.txt"%string)
            None 1 Sample.generator = (Ok t, w')
          /\ rows t = []).
Proof.
  apply (zero_map_gives_an_empty_table 0 Sample.two_stars
           [mkTile 0 1 0 1 0; mkTile 1 2 0 1 0] 3 (Some "out.txt"%string)
           None 1 Sample.generator).
  - discriminate.
  - repeat constructor.
  - lia.
  - lia.
  - repeat constructor; by apply two_stars_fresh.
  - right. exact two_stars_numeric.
Defined.
End ZeroMap.

Section BinAssignerWitnesses.
Import Binning MapDriven.
Local Open Scope Q_scope.

Lemma label_overflows_at_zero_maximum_witness :
  exists labels,
    bin_foreach_tile [-1; 0; -(1 # 2)] 2 = Ok labels
    /\ (forall i x, [-1; 0; -(1 # 2)] !! i = Some x -> x == 0 ->
        labels !! i = Some (2 + 1)%Z)
    /\ exists i x, [-1; 0; -(1 # 2)] !! i = Some x /\ x == 0.
Proof.
  apply (label_overflows_at_zero_maximum [-1; 0; -(1 # 2)] 2 (-1) 0).
  - reflexivity.
  - reflexivity.
  - lra.
  - lia.
  - reflexivity.
Defined.

Lemma map_driven_routines_write_last_witness :
  files (pick_positions_per_density Sample.two_stars Sample.two_tiles 2
           (Some "out.txt"%string) None 1 Sample.generator).2
  = match (pick_positions_per_density Sample.two_stars Sample.two_tiles 2
             (Some "out.txt"%string) None 1 Sample.generator).1 with
    | Ok t => match given (Some "out.txt"%string) with
              | Some path => <[path := t]> (files Sample.generator)
              | None => files Sample.generator
              end
    | _ => files Sample.generator
    end.
Proof.
  apply (map_driven_routines_write_last 0 Sample.two_stars Sample.two_tiles 2
           (Some "out.txt"%string) None 1 Sample.generator).
  right. apply surjective_pairing.
Defined.
End BinAssignerWitnesses.

Section InvalidArguments.
Import Binning MapDriven.
Local Open Scope Q_scope.

Lemma bin_foreach_tile_raises (v : list Q) N :
  v = [] \/ (N < -1)%Z -> bin_foreach_tile v N = Raise ValueError.
Proof.
  intros [-> | HN]; [done |].
  destruct v as [| x xs]; [done |].
  unfold bin_foreach_tile, amin, amax, linspace. simpl.
  destruct (N + 1 <? 0)%Z eqn:E; [done |]. apply Z.ltb_ge in E. lia.
Qed.

(** X19. Arguments numpy refuses stop both map-driven routines with
    [ValueError] before a number is drawn or a file written: a map
    without tiles, a bin count below -1, and, for a map with tiles and
    a bin count that is not negative, a negative [Nrealize]. *)
Theorem invalid_arguments_raise_value_error fuel seds map N_bins outfile
    refimage Nrealize w :
  map = [] \/ (N_bins < -1)%Z \/ ((0 <= N_bins)%Z /\ (Nrealize < 0)%Z) ->
  pick_positions_per_background fuel seds map N_bins outfile refimage
    Nrealize w = (Raise ValueError, w)
  /\ pick_positions_per_density seds map N_bins outfile refimage Nrealize w
     = (Raise ValueError, w).
Proof.
  intros H.
  unfold pick_positions_per_background, pick_positions_per_density.
  destruct (decide (map = [] \/ (N_bins < -1)%Z)) as [Hbad | Hok].
  - assert (E : bin_foreach_tile (metric <$> map) N_bins = Raise ValueError).
    { apply bin_foreach_tile_raises. destruct Hbad as [-> | ?]; auto. }
    unfold bind, lift. by rewrite E.
  - destruct H as [-> | [? | [HN HNr]]]; [tauto | tauto |].
    assert (Hv : metric <$> map <> []) by (destruct map; [tauto | done]).
    destruct (bin_foreach_tile_Ok (metric <$> map) N_bins Hv HN)
      as (lo & hi & bins & _ & _ & _ & Hl).
    rewrite !(bind_lift_Ok _ _ _ _ Hl).
    unfold bind, lift, np_repeat. apply Z.ltb_lt in HNr. by rewrite HNr.
Qed.

Lemma invalid_arguments_raise_value_error_witness :
  pick_positions_per_background 5 Sample.two_stars Sample.two_tiles 2 None
    None (-1) Sample.generator = (Raise ValueError, Sample.generator)
  /\ pick_positions_per_density Sample.two_stars Sample.two_tiles 2 None None
       (-1) Sample.generator = (Raise ValueError, Sample.generator).
Proof.
  apply (invalid_arguments_raise_value_error 5 Sample.two_stars
           Sample.two_tiles 2 None None (-1) Sample.generator).
  right. right. lia.
Defined.
End InvalidArguments.
